(** * Archway WiFi analyzer: a shallow embedding of the discovery store and
      of the analysis pipeline, with the properties of its specification.

    Sources embedded here:
    - [backend/src/core/advanced_analyzer.py]: [ThreatDetector],
      [NetworkAnalytics], [SignalAnalyzer], [AdvancedWiFiAnalyzer];
    - [backend/src/core/wifi_scanner.py]: [WiFiInterface], [WiFiScanner];
    - [backend/src/routes/wifi_api.py]: the [/scan/stop] route.

    Conventions of the embedding.
    - A network is a Python [dict]; the keys the analyzers read become the
      fields of the record [network].  A key read with [dict.get] is an
      [option] ([None]: the key is absent).  The SSID has a third state: the
      key is present and holds Python's [None], which is how the data model
      and [data/sample_networks.py] write a hidden network.  The rogue-AP
      loop also fails on a vendor or a signal that is [None]:
      [ThreatDetectorRaw] embeds it on records where these two keys have
      the three states as well.
    - Python exceptions are values: a function that can raise returns a
      [result].
    - Python [int] is [Z].  A Python [float] is a binary64 double, given by
      its exact value in [Q].  [Binary64] rounds every operation to the
      nearest double (ties to even) and [round(x, 1)] as the interpreter
      does; [NetworkAnalytics64] and [SignalAnalyzer64] embed with it the
      security score and the signal statistics, whose reported values depend
      on that rounding.  The other embeddings of float code read a float as
      an exact rational: they keep the decimal rounding [round(x, 1)] and
      leave out the rounding of the single operations.
    - Strings are [string]; [str.lower] is the ASCII lower-casing (the
      keywords the code searches for are ASCII).
    - Insertion-ordered dictionaries ([defaultdict], [Counter], [dict]) whose
      iteration order reaches the output are association lists in insertion
      order; the scanner's stores, only ever looked up by key, are [gmap]s. *)

From Stdlib Require Import ZArith QArith Qround Qminmax Qabs Qpower Lia Lqa Permutation Sorted.
From Stdlib Require Import Ascii String DecimalString DecimalZ DecimalPos.
From Stdlib Require Uint63 PrimFloat FloatOps SpecFloat.
From stdpp Require Import base list strings gmap sorting.

Local Open Scope Z_scope.

(** ** Python values and exceptions *)

Inductive exn : Type :=
| AttributeError
| ValueError
| IndexError
| StatisticsError
| TypeError.

Inductive result (A : Type) : Type :=
| Ok (a : A)
| Raise (e : exn).

Arguments Ok {A} a.
Arguments Raise {A} e.

Definition rbind {A B : Type} (r : result A) (k : A -> result B) : result B :=
  match r with
  | Ok a => k a
  | Raise e => Raise e
  end.

Notation "x <-- r ;; k" := (rbind r (fun x => k))
  (at level 100, r at next level, right associativity).

(** The value stored under a key of a dict: absent, [None], or a value. *)
Inductive pyfield (A : Type) : Type :=
| Missing
| NoneVal
| Val (a : A).

Arguments Missing {A}.
Arguments NoneVal {A}.
Arguments Val {A} a.

(** ** Strings: [str.lower] and the substring test [x in s] *)

Definition lower_ascii (c : ascii) : ascii :=
  let n := N_of_ascii c in
  if ((65 <=? n) && (n <=? 90))%N then ascii_of_N (n + 32) else c.

Fixpoint lower (s : string) : string :=
  match s with
  | EmptyString => EmptyString
  | String c rest => String (lower_ascii c) (lower rest)
  end.

(** [contains needle hay] is Python's [needle in hay]. *)
Fixpoint contains (needle hay : string) : bool :=
  String.prefix needle hay ||
  match hay with
  | EmptyString => false
  | String _ rest => contains needle rest
  end.

(** ** Rationals: [round(x, 1)], [abs], means *)

(** Round to the nearest integer, ties to the even one (Python's [round]). *)
Definition round_half_even (x : Q) : Z :=
  let f := Qfloor x in
  match (x - inject_Z f ?= 1 # 2)%Q with
  | Lt => f
  | Gt => f + 1
  | Eq => if Z.even f then f else f + 1
  end.

(** [round(x, 1)] of an exact rational ([Binary64.round1] is the one on
    doubles). *)
Definition round1 (x : Q) : Q := (inject_Z (round_half_even (x * 10)) / 10)%Q.

Definition sumZ (l : list Z) : Z := fold_right Z.add 0 l.

(** ** Python floats as binary64

    A finite double is represented by its exact value, a rational.  [rn x]
    is the double nearest to [x], ties to the even significand: IEEE 754
    round-to-nearest-even with 53 bits of precision, gradual underflow below
    2^-1022 (the least exponent of a bit is -1074).  Every arithmetic
    operation of the interpreter on floats is the exact operation followed
    by [rn].  Overflow (from 2^1024 on) and the sign of zero are not
    represented: the properties below are about values far from the first,
    and nothing here depends on the second. *)

Module Binary64.

Definition pow2 (p : Z) : Q := Qpower 2 p.

(** For [0 < x]: the [e] with [2^e <= x < 2^(e+1)]. *)
Definition floor_log2 (x : Q) : Z :=
  let e0 := Z.log2 (Qnum x) - Z.log2 (Zpos (Qden x)) in
  if Qle_bool (pow2 e0) x then e0 else e0 - 1.

Definition rn (x : Q) : Q :=
  let x := Qred x in
  if Qeq_bool x 0 then 0%Q
  else
    let p := Z.max (floor_log2 (Qabs x) - 52) (-1074) in
    Qred (inject_Z (round_half_even (x / pow2 p)) * pow2 p).

(** [x + y], [x * y] and [x / y] on floats; [x / y] on two [int]s is the
    same correctly rounded quotient. *)
Definition fadd (x y : Q) : Q := rn (x + y).
Definition fmul (x y : Q) : Q := rn (x * y).
Definition fdiv (x y : Q) : Q := rn (x / y).

(** [float(n)] *)
Definition of_int (n : Z) : Q := rn (inject_Z n).

(** [round(x, 1)] on a float: the decimal with one digit nearest to the
    exact value of [x] (ties to the even digit), then the double nearest to
    that decimal. *)
Definition round1 (x : Q) : Q := rn (inject_Z (round_half_even (x * 10)) / 10).

End Binary64.

(** ** Insertion-ordered dictionaries *)

Section Dict.
Context {K V : Type} `{EqDecision K}.

(** [d.get(key)] *)
Fixpoint dict_get (key : K) (d : list (K * V)) : option V :=
  match d with
  | [] => None
  | (k, v) :: rest => if decide (k = key) then Some v else dict_get key rest
  end.

(** [d[key] = f(d[key])] when the key is there (its position is kept),
    [d[key] = init] at the end otherwise. *)
Fixpoint dict_upsert (key : K) (f : V -> V) (init : V) (d : list (K * V))
    : list (K * V) :=
  match d with
  | [] => [(key, init)]
  | (k, v) :: rest =>
      if decide (k = key) then (k, f v) :: rest
      else (k, v) :: dict_upsert key f init rest
  end.
End Dict.

(** ** The network record *)

Record network : Type := Network {
  bssid : string;
  ssid : pyfield string;
  channel : option Z;
  signal_strength : option Z;
  encryption : option string;
  vendor : option string
}.

(** [d.get(key, default)] on an [option] field. *)
Definition get {A : Type} (field : option A) (default : A) : A :=
  match field with
  | Some v => v
  | None => default
  end.

(** The grouping loop of both analyzers,
    [for network in networks: if key: groups[key].append(network)],
    on a [defaultdict(list)]; [key n] is [None] when the key is falsy. *)
Section GroupBy.
Context {K : Type} `{EqDecision K} (key : network -> option K).

Definition group_step (groups : list (K * list network)) (n : network)
    : list (K * list network) :=
  match key n with
  | Some k => dict_upsert k (fun members => members ++ [n]) [n] groups
  | None => groups
  end.

Definition group_by (networks : list network) : list (K * list network) :=
  fold_left group_step networks [].
End GroupBy.

(** ** [class ThreatDetector] *)

Module ThreatDetector.

Inductive threat_kind : Type := evil_twin | rogue_ap.
Inductive severity_t : Type := low | medium | high.

(** A finding of [detect_evil_twin].  The wall-clock stamp [detected_at]
    ([datetime.now()]) is an effect outside the model and is left out. *)
Record twin_finding : Type := TwinFinding {
  twin_type : threat_kind;
  twin_severity : severity_t;
  twin_ssid : string;
  twin_networks : list network;
  twin_description : string
}.

(** [network.get('ssid')] when it is truthy: a non-empty string. *)
Definition truthy_ssid (n : network) : option string :=
  match ssid n with
  | Val s => if String.eqb s "" then None else Some s
  | _ => None
  end.

Definition group_by_ssid (networks : list network) : list (string * list network) :=
  group_by truthy_ssid networks.

(** The test of the inner loop: different BSSIDs, signals less than 10 apart. *)
Definition twin_test (net1 net2 : network) : bool :=
  negb (String.eqb (bssid net1) (bssid net2)) &&
  (Z.abs (get (signal_strength net1) (-100) - get (signal_strength net2) (-100)) <? 10).

Definition make_twin (s : string) (net1 net2 : network) : twin_finding :=
  {| twin_type := evil_twin;
     twin_severity := high;
     twin_ssid := s;
     twin_networks := [net1; net2];
     twin_description := "Potential evil twin detected for " +:+ s |}.

(** [for net2 in network_list[i+1:]] *)
Fixpoint twins_with (s : string) (net1 : network) (later : list network) : list twin_finding :=
  match later with
  | [] => []
  | net2 :: rest =>
      if twin_test net1 net2 then make_twin s net1 net2 :: twins_with s net1 rest
      else twins_with s net1 rest
  end.

(** [for i, net1 in enumerate(network_list)] *)
Fixpoint twins_in_group (s : string) (network_list : list network) : list twin_finding :=
  match network_list with
  | [] => []
  | net1 :: later => twins_with s net1 later ++ twins_in_group s later
  end.

Definition twins_of_groups (groups : list (string * list network)) : list twin_finding :=
  flat_map (fun g : string * list network =>
              if (1 <? length (snd g))%nat then twins_in_group (fst g) (snd g) else [])
           groups.

Definition detect_evil_twin (networks : list network) : list twin_finding :=
  twins_of_groups (group_by_ssid networks).

(** A finding of [detect_rogue_ap] ([detected_at] left out as above). *)
Record rogue_finding : Type := RogueFinding {
  rogue_type : threat_kind;
  rogue_severity : severity_t;
  rogue_network : network;
  rogue_score : Z;
  rogue_reasons : list string;
  rogue_description : string
}.

(** [network.get('ssid', '').lower()]: the default covers an absent key
    only; on a [None] value the method call raises. *)
Definition ssid_lower (n : network) : result string :=
  match ssid n with
  | Missing => Ok (lower "")
  | NoneVal => Raise AttributeError
  | Val s => Ok (lower s)
  end.

(** [network.get("ssid", "Hidden")] inside the f-string. *)
Definition ssid_shown (n : network) : string :=
  match ssid n with
  | Missing => "Hidden"
  | NoneVal => "None"
  | Val s => s
  end.

Definition vendor_keywords : list string := ["unknown"; "private"; "random"].
Definition honeypot_names : list string :=
  ["free wifi"; "public"; "guest"; "open"; "internet"].

(** The score and reasons after each of the four tests, in source order. *)
Definition open_signal (n : network) : bool :=
  match encryption n with
  | Some e => String.eqb e "Open"
  | None => false
  end.

Definition vendor_signal (n : network) : bool :=
  existsb (fun keyword => contains keyword (lower (get (vendor n) ""))) vendor_keywords.

Definition strength_signal (n : network) : bool :=
  (-30 <? get (signal_strength n) (-100)).

Definition ssid_signal (lowered : string) : bool :=
  existsb (fun name => contains name lowered) honeypot_names.

Definition bump (fired : bool) (points : Z) (reason : string)
    (acc : Z * list string) : Z * list string :=
  if fired then (fst acc + points, snd acc ++ [reason]) else acc.

(** The body of the loop of [detect_rogue_ap] for one network: the finding
    appended for it, if any. *)
Definition rogue_check (n : network) : result (option rogue_finding) :=
  let acc := (0, []) in
  let acc := bump (open_signal n) 3 "Open network detected" acc in
  let acc := bump (vendor_signal n) 2 "Unusual vendor" acc in
  let acc := bump (strength_signal n) 1 "Unusually strong signal" acc in
  lowered <-- ssid_lower n ;;
  let acc := bump (ssid_signal lowered) 2 "Suspicious SSID pattern" acc in
  let suspicious_score := fst acc in
  if 4 <=? suspicious_score then
    Ok (Some {| rogue_type := rogue_ap;
                rogue_severity := if suspicious_score <? 6 then medium else high;
                rogue_network := n;
                rogue_score := suspicious_score;
                rogue_reasons := snd acc;
                rogue_description := "Potential rogue AP: " +:+ ssid_shown n |})
  else Ok None.

Fixpoint detect_rogue_ap (networks : list network) : result (list rogue_finding) :=
  match networks with
  | [] => Ok []
  | n :: rest =>
      found <-- rogue_check n ;;
      others <-- detect_rogue_ap rest ;;
      Ok (match found with Some f => f :: others | None => others end)
  end.

End ThreatDetector.

(** ** [ThreatDetector.detect_rogue_ap] on records that hold [None]

    The record [network] takes ['vendor'] and ['signal_strength'] to be
    absent or of their type.  The loop of [detect_rogue_ap] calls [.lower()]
    on the vendor and compares the signal with a number, and both fail on
    [None]: the first with AttributeError, the second with TypeError.  Here
    the two keys have the three states of the SSID, and the loop is written
    with every failure it has on such records. *)

Module ThreatDetectorRaw.
Import ThreatDetector.

Record raw_network : Type := RawNetwork {
  raw_bssid : string;
  raw_ssid : pyfield string;
  raw_channel : option Z;
  raw_signal_strength : pyfield Z;
  raw_encryption : option string;
  raw_vendor : pyfield string
}.

(** A finding ([detected_at] left out as above). *)
Record finding : Type := Finding {
  finding_type : threat_kind;
  finding_severity : severity_t;
  finding_network : raw_network;
  finding_score : Z;
  finding_reasons : list string;
  finding_description : string
}.

(** [network.get(key, '').lower()]: the default covers an absent key only;
    on a [None] value the method call raises. *)
Definition get_lower (field : pyfield string) : result string :=
  match field with
  | Missing => Ok (lower "")
  | NoneVal => Raise AttributeError
  | Val s => Ok (lower s)
  end.

(** [network.get('encryption') == 'Open']: [None] is not equal to it. *)
Definition open_signal (n : raw_network) : bool :=
  match raw_encryption n with
  | Some e => String.eqb e "Open"
  | None => false
  end.

Definition vendor_signal (lowered : string) : bool :=
  existsb (fun keyword => contains keyword lowered) vendor_keywords.

(** [network.get('signal_strength', -100) > -30]: [None > -30] raises. *)
Definition strength_signal (n : raw_network) : result bool :=
  match raw_signal_strength n with
  | Missing => Ok (-30 <? -100)
  | NoneVal => Raise TypeError
  | Val signal => Ok (-30 <? signal)
  end.

(** [network.get("ssid", "Hidden")] inside the f-string. *)
Definition ssid_shown (n : raw_network) : string :=
  match raw_ssid n with
  | Missing => "Hidden"
  | NoneVal => "None"
  | Val s => s
  end.

(** The body of the loop for one network, test after test in source
    order. *)
Definition rogue_check (n : raw_network) : result (option finding) :=
  let acc := (0, []) in
  let acc := bump (open_signal n) 3 "Open network detected" acc in
  vendor <-- get_lower (raw_vendor n) ;;
  let acc := bump (vendor_signal vendor) 2 "Unusual vendor" acc in
  strong <-- strength_signal n ;;
  let acc := bump strong 1 "Unusually strong signal" acc in
  lowered <-- get_lower (raw_ssid n) ;;
  let acc := bump (ssid_signal lowered) 2 "Suspicious SSID pattern" acc in
  let suspicious_score := fst acc in
  if 4 <=? suspicious_score then
    Ok (Some {| finding_type := rogue_ap;
                finding_severity := if suspicious_score <? 6 then medium else high;
                finding_network := n;
                finding_score := suspicious_score;
                finding_reasons := snd acc;
                finding_description := "Potential rogue AP: " +:+ ssid_shown n |})
  else Ok None.

Fixpoint detect_rogue_ap (networks : list raw_network) : result (list finding) :=
  match networks with
  | [] => Ok []
  | n :: rest =>
      found <-- rogue_check n ;;
      others <-- detect_rogue_ap rest ;;
      Ok (match found with Some f => f :: others | None => others end)
  end.

End ThreatDetectorRaw.

(** ** Numbers: [str], [int], comparisons of floats, [statistics] *)

(** [str(n)] and [int(s)] on integers, through the decimal notation. *)
Definition str (n : Z) : string := NilZero.string_of_int (Z.to_int n).

Definition int (s : string) : result Z :=
  match NilZero.int_of_string s with
  | Some d => Ok (Z.of_int d)
  | None => Raise ValueError
  end.

Definition Qltb (x y : Q) : bool :=
  match (x ?= y)%Q with
  | Lt => true
  | _ => false
  end.

Definition len {A : Type} (l : list A) : Z := Z.of_nat (length l).

(** [statistics.mean] on integers: raises on no data. *)
Definition mean (data : list Z) : result Q :=
  match data with
  | [] => Raise StatisticsError
  | _ => Ok (inject_Z (sumZ data) / inject_Z (len data))%Q
  end.

(** [sorted(items, key=...)]: a stable sort, here by insertion. *)
Section Sorted.
Context {A : Type} (key : A -> Q).

Fixpoint insert_sorted (x : A) (l : list A) : list A :=
  match l with
  | [] => [x]
  | y :: rest =>
      if Qle_bool (key x) (key y) then x :: y :: rest
      else y :: insert_sorted x rest
  end.

Definition sorted (l : list A) : list A := fold_right insert_sorted [] l.
End Sorted.

(** ** [class NetworkAnalytics] *)

Module NetworkAnalytics.

Record interference : Type := Interference {
  network_count : Z;
  total_signal_power : Z;
  interference_score : Q
}.

Inductive recommendation_t : Type := excellent | good | poor.

Record optimal_channel : Type := OptimalChannel {
  opt_channel : Z;
  opt_interference_score : Q;
  opt_network_count : Z;
  opt_recommendation : recommendation_t
}.

Inductive congestion_t : Type :=
| congestion_none
| congestion_low
| congestion_moderate
| congestion_high
| congestion_severe.

Record channel_report : Type := ChannelReport {
  utilization : list (string * Z);
  interference_map : list (string * interference);
  optimal_channels : list optimal_channel;
  congestion_level : congestion_t
}.

(** [channel = network.get('channel'); if channel: ...]: a channel that is
    absent or 0 is falsy. *)
Definition truthy_channel (n : network) : option Z :=
  match channel n with
  | Some c => if c =? 0 then None else Some c
  | None => None
  end.

(** The groups are keyed by [str(channel)]. *)
Definition channel_key (n : network) : option string :=
  match truthy_channel n with
  | Some c => Some (str c)
  | None => None
  end.

Definition group_by_channel (networks : list network) : list (string * list network) :=
  group_by channel_key networks.

Definition total_signal (nets : list network) : Z :=
  sumZ (map (fun net => Z.abs (get (signal_strength net) (-100))) nets).

Definition channel_interference (nets : list network) : interference :=
  {| network_count := len nets;
     total_signal_power := total_signal nets;
     interference_score :=
       Qmin 100 (inject_Z (len nets * 10) + inject_Z (total_signal nets) / 10) |}.

Definition recommend (score : Q) : recommendation_t :=
  if Qltb score 20 then excellent
  else if Qltb score 50 then good
  else poor.

Definition optimal_entry (item : string * interference) : result optimal_channel :=
  c <-- int (fst item) ;;
  Ok {| opt_channel := c;
        opt_interference_score := interference_score (snd item);
        opt_network_count := network_count (snd item);
        opt_recommendation := recommend (interference_score (snd item)) |}.

Fixpoint for_each {A B : Type} (f : A -> result B) (l : list A) : result (list B) :=
  match l with
  | [] => Ok []
  | x :: rest =>
      y <-- f x ;;
      ys <-- for_each f rest ;;
      Ok (y :: ys)
  end.

Definition _find_optimal_channels (interference_map : list (string * interference))
    : result (list optimal_channel) :=
  let sorted_channels :=
    sorted (fun item : string * interference => interference_score (snd item))
           interference_map in
  for_each optimal_entry (take 5 sorted_channels).

Definition _calculate_congestion_level (utilization : list (string * Z))
    : result congestion_t :=
  match utilization with
  | [] => Ok congestion_none
  | _ =>
      avg_networks_per_channel <-- mean (map snd utilization) ;;
      Ok (if Qltb avg_networks_per_channel 2 then congestion_low
          else if Qltb avg_networks_per_channel 5 then congestion_moderate
          else if Qltb avg_networks_per_channel 10 then congestion_high
          else congestion_severe)
  end.

Definition analyze_channel_utilization (networks : list network) : result channel_report :=
  let channel_data := group_by_channel networks in
  let utilization := map (fun item : string * list network => (fst item, len (snd item)))
                         channel_data in
  let interference_map :=
    map (fun item : string * list network => (fst item, channel_interference (snd item)))
        channel_data in
  optimal_channels <-- _find_optimal_channels interference_map ;;
  congestion <-- _calculate_congestion_level utilization ;;
  Ok {| utilization := utilization;
        interference_map := interference_map;
        optimal_channels := optimal_channels;
        congestion_level := congestion |}.

(** *** Security posture *)

Inductive security_level_t : Type :=
| level_excellent
| level_good
| level_fair
| level_poor
| level_critical.

Record posture : Type := Posture {
  total_networks : Z;
  encryption_distribution : list (string * Z);
  security_score : Q;
  security_level : security_level_t;
  recommendations : list string;
  vulnerable_networks : Z
}.

(** The early return has two keys only. *)
Inductive posture_report : Type :=
| NoNetworks (total_networks : Z) (security_score : Z)
| PostureOf (p : posture).

(** [Counter(net.get('encryption', 'Unknown') for net in networks)] *)
Definition count_step (counts : list (string * Z)) (n : network) : list (string * Z) :=
  dict_upsert (get (encryption n) "Unknown") (fun c => c + 1) 1 counts.

Definition encryption_counter (networks : list network) : list (string * Z) :=
  fold_left count_step networks [].

Definition weights : list (string * Z) :=
  [("WPA3", 100); ("WPA2", 80); ("WPA", 60); ("WEP", 20); ("Open", 0)].

Definition weight_of (enc : string) : Z := get (dict_get enc weights) 50.

(** The loop [security_score += (count / total_networks) * weight], in
    exact rationals ([NetworkAnalytics64] has it in doubles). *)
Definition score_step (total_networks : Z) (security_score : Q) (item : string * Z) : Q :=
  (security_score + (inject_Z (snd item) / inject_Z total_networks) * inject_Z (weight_of (fst item)))%Q.

Definition raw_security_score (networks : list network) : Q :=
  fold_left (score_step (len networks)) (encryption_counter networks) 0%Q.

Definition _get_security_level (score : Q) : security_level_t :=
  if Qle_bool 90 score then level_excellent
  else if Qle_bool 70 score then level_good
  else if Qle_bool 50 score then level_fair
  else if Qle_bool 30 score then level_poor
  else level_critical.

Definition counted (counts : list (string * Z)) (enc : string) : Z :=
  get (dict_get enc counts) 0.

Definition security_recommendations (counts : list (string * Z)) : list string :=
  (if 0 <? counted counts "Open" then ["Secure open networks with WPA2/WPA3"] else []) ++
  (if 0 <? counted counts "WEP" then ["Upgrade WEP networks to WPA2/WPA3"] else []) ++
  (if 0 <? counted counts "WPA" then ["Upgrade WPA networks to WPA2/WPA3"] else []).

Definition analyze_security_posture (networks : list network) : posture_report :=
  let total := len networks in
  if total =? 0 then NoNetworks 0 0
  else
    let encryption_counts := encryption_counter networks in
    let score := raw_security_score networks in
    PostureOf {| total_networks := total;
                 encryption_distribution := encryption_counts;
                 security_score := round1 score;
                 security_level := _get_security_level score;
                 recommendations := security_recommendations encryption_counts;
                 vulnerable_networks :=
                   counted encryption_counts "Open" + counted encryption_counts "WEP" |}.

End NetworkAnalytics.

(** ** [class SignalAnalyzer] *)

Module SignalAnalyzer.

Inductive quality_t : Type := excellent | good | fair | poor.

Record categories : Type := Categories {
  cat_excellent : Z;
  cat_good : Z;
  cat_fair : Z;
  cat_poor : Z
}.

(** [round(statistics.stdev(data), 1)] is kept symbolic: the square root is
    not rational, so the value is recorded by the sample variance under it. *)
Inductive stdev_t : Type := Round1Sqrt (variance : Q).

Record analysis : Type := Analysis {
  average_signal : Q;
  median_signal : Q;
  signal_range_min : Z;
  signal_range_max : Z;
  signal_distribution : categories;
  quality_assessment : quality_t;
  standard_deviation : option stdev_t
}.

Inductive signal_report : Type :=
| SignalError (error : string)
| SignalAnalysis (a : analysis).

(** The first loop: [abs(signal)] of every signal that is not [None]. *)
Fixpoint collect_signals (networks : list network) : list Z :=
  match networks with
  | [] => []
  | n :: rest =>
      match signal_strength n with
      | Some signal => Z.abs signal :: collect_signals rest
      | None => collect_signals rest
      end
  end.

Definition item {A : Type} (l : list A) (i : Z) : result A :=
  match l !! Z.to_nat i with
  | Some x => Ok x
  | None => Raise IndexError
  end.

(** [statistics.median] *)
Definition median (data : list Z) : result Q :=
  let data := sorted inject_Z data in
  let n := len data in
  if n =? 0 then Raise StatisticsError
  else if n mod 2 =? 1 then
    x <-- item data (n / 2) ;; Ok (inject_Z x)
  else
    a <-- item data (n / 2 - 1) ;;
    b <-- item data (n / 2) ;;
    Ok (inject_Z (a + b) / 2)%Q.

(** [min(data)] and [max(data)] *)
Definition minimum (data : list Z) : result Z :=
  match data with
  | [] => Raise ValueError
  | x :: rest => Ok (fold_left Z.min rest x)
  end.

Definition maximum (data : list Z) : result Z :=
  match data with
  | [] => Raise ValueError
  | x :: rest => Ok (fold_left Z.max rest x)
  end.

(** [statistics.variance]: the sum of squared deviations over [n - 1]. *)
Definition variance (data : list Z) : result Q :=
  if len data <? 2 then Raise StatisticsError
  else
    m <-- mean data ;;
    let ss := fold_right (fun x acc => ((inject_Z x - m) * (inject_Z x - m) + acc)%Q) 0%Q data in
    Ok (ss / inject_Z (len data - 1))%Q.

Definition stdev (data : list Z) : result stdev_t :=
  v <-- variance data ;; Ok (Round1Sqrt v).

Definition categorize (c : categories) (signal : Z) : categories :=
  if signal <? 50 then
    {| cat_excellent := cat_excellent c + 1; cat_good := cat_good c;
       cat_fair := cat_fair c; cat_poor := cat_poor c |}
  else if signal <? 70 then
    {| cat_excellent := cat_excellent c; cat_good := cat_good c + 1;
       cat_fair := cat_fair c; cat_poor := cat_poor c |}
  else if signal <? 85 then
    {| cat_excellent := cat_excellent c; cat_good := cat_good c;
       cat_fair := cat_fair c + 1; cat_poor := cat_poor c |}
  else
    {| cat_excellent := cat_excellent c; cat_good := cat_good c;
       cat_fair := cat_fair c; cat_poor := cat_poor c + 1 |}.

Definition _categorize_signals (signal_data : list Z) : categories :=
  fold_left categorize signal_data
    {| cat_excellent := 0; cat_good := 0; cat_fair := 0; cat_poor := 0 |}.

Definition _assess_signal_quality (signal_data : list Z) : result quality_t :=
  avg_signal <-- mean signal_data ;;
  Ok (if Qltb avg_signal 50 then excellent
      else if Qltb avg_signal 70 then good
      else if Qltb avg_signal 85 then fair
      else poor).

Definition analyze_signal_patterns (networks : list network) : result signal_report :=
  let signal_data := collect_signals networks in
  match signal_data with
  | [] => Ok (SignalError "No signal data available")
  | _ =>
      avg <-- mean signal_data ;;
      med <-- median signal_data ;;
      lo <-- minimum signal_data ;;
      hi <-- maximum signal_data ;;
      quality <-- _assess_signal_quality signal_data ;;
      deviation <-- (if 1 <? len signal_data
                     then d <-- stdev signal_data ;; Ok (Some d)
                     else Ok None) ;;
      Ok (SignalAnalysis
            {| average_signal := round1 avg;
               median_signal := round1 med;
               signal_range_min := lo;
               signal_range_max := hi;
               signal_distribution := _categorize_signals signal_data;
               quality_assessment := quality;
               standard_deviation := deviation |})
  end.

End SignalAnalyzer.

(** ** [NetworkAnalytics.analyze_security_posture], floats as binary64

    The same function as above with every float operation rounded as the
    interpreter rounds it; the integer parts are shared. *)

Module NetworkAnalytics64.
Import NetworkAnalytics.

(** The loop [security_score += (count / total_networks) * weight]: a
    division of two [int]s, a product with the weight (an [int], converted)
    and a sum, each rounded.  [security_score] starts as the [int] 0. *)
Definition score_step (total_networks : Z) (security_score : Q) (item : string * Z) : Q :=
  Binary64.fadd security_score
    (Binary64.fmul (Binary64.fdiv (inject_Z (snd item)) (inject_Z total_networks))
                   (Binary64.of_int (weight_of (fst item)))).

Definition raw_security_score (networks : list network) : Q :=
  fold_left (score_step (len networks)) (encryption_counter networks) 0%Q.

Definition analyze_security_posture (networks : list network) : posture_report :=
  let total := len networks in
  if total =? 0 then NoNetworks 0 0
  else
    let encryption_counts := encryption_counter networks in
    let score := raw_security_score networks in
    PostureOf {| total_networks := total;
                 encryption_distribution := encryption_counts;
                 security_score := Binary64.round1 score;
                 security_level := _get_security_level score;
                 recommendations := security_recommendations encryption_counts;
                 vulnerable_networks :=
                   counted encryption_counts "Open" + counted encryption_counts "WEP" |}.

End NetworkAnalytics64.

(** ** [SignalAnalyzer.analyze_signal_patterns], floats as binary64

    The samples are integers and [statistics] computes with them exactly up
    to one conversion to a float.  For integers beyond 2^1024 that
    conversion raises OverflowError, which is not represented here: the
    properties of this function are stated for samples up to 2^20. *)

Module SignalAnalyzer64.
Import SignalAnalyzer.

(** What the [statistics] functions return on integers: an [int] or a
    [float]. *)
Inductive number : Type :=
| PyInt (n : Z)
| PyFloat (x : Q).

Definition value (v : number) : Q :=
  match v with
  | PyInt n => inject_Z n
  | PyFloat x => x
  end.

(** [statistics.mean] on integers: the sum is exact; a whole mean comes
    back as an [int], any other as the double nearest to it. *)
Definition mean (data : list Z) : result number :=
  match data with
  | [] => Raise StatisticsError
  | _ =>
      let total := sumZ data in
      let n := len data in
      Ok (if total mod n =? 0 then PyInt (total / n)
          else PyFloat (Binary64.fdiv (inject_Z total) (inject_Z n)))
  end.

(** [statistics.median]: the middle element, or [(a + b) / 2]. *)
Definition median (data : list Z) : result number :=
  let data := sorted inject_Z data in
  let n := len data in
  if n =? 0 then Raise StatisticsError
  else if n mod 2 =? 1 then
    x <-- item data (n / 2) ;; Ok (PyInt x)
  else
    a <-- item data (n / 2 - 1) ;;
    b <-- item data (n / 2) ;;
    Ok (PyFloat (Binary64.fdiv (inject_Z (a + b)) 2)).

(** [round(x, 1)]: an [int] comes back as it is. *)
Definition round1 (v : number) : number :=
  match v with
  | PyInt n => PyInt n
  | PyFloat x => PyFloat (Binary64.round1 x)
  end.

Definition _assess_signal_quality (signal_data : list Z) : result quality_t :=
  avg_signal <-- mean signal_data ;;
  Ok (if Qltb (value avg_signal) 50 then excellent
      else if Qltb (value avg_signal) 70 then good
      else if Qltb (value avg_signal) 85 then fair
      else poor).

Definition analyze_signal_patterns (networks : list network) : result signal_report :=
  let signal_data := collect_signals networks in
  match signal_data with
  | [] => Ok (SignalError "No signal data available")
  | _ =>
      avg <-- mean signal_data ;;
      med <-- median signal_data ;;
      lo <-- minimum signal_data ;;
      hi <-- maximum signal_data ;;
      quality <-- _assess_signal_quality signal_data ;;
      deviation <-- (if 1 <? len signal_data
                     then d <-- stdev signal_data ;; Ok (Some d)
                     else Ok None) ;;
      Ok (SignalAnalysis
            {| average_signal := value (round1 avg);
               median_signal := value (round1 med);
               signal_range_min := lo;
               signal_range_max := hi;
               signal_distribution := _categorize_signals signal_data;
               quality_assessment := quality;
               standard_deviation := deviation |})
  end.

End SignalAnalyzer64.

(** ** [class AdvancedWiFiAnalyzer] *)

Module AdvancedWiFiAnalyzer.

Inductive threat_level_t : Type :=
| threat_none
| threat_low
| threat_medium
| threat_high.

Record threat_report : Type := ThreatReport {
  evil_twins : list ThreatDetector.twin_finding;
  rogue_aps : list ThreatDetector.rogue_finding;
  total_threats : Z;
  threat_level : threat_level_t
}.

(** The report of [perform_comprehensive_analysis].  A section still at its
    initial [{}] is [None]; the key ['error'] holds the exception caught
    (its text, [str(e)], is Python's own); the wall-clock fields
    ['timestamp'] and ['analysis_duration'] are left out. *)
Record report : Type := Report {
  total_networks : Z;
  threat_analysis : option threat_report;
  channel_analysis : option NetworkAnalytics.channel_report;
  security_analysis : option NetworkAnalytics.posture_report;
  signal_analysis : option SignalAnalyzer.signal_report;
  recommendations : list string;
  error : option exn
}.

Inductive analysis_result : Type :=
| NothingToAnalyze (error : string)
| Analysis (r : report).

(** The severities of [evil_twins + rogue_aps]. *)
Definition severities (evil_twins : list ThreatDetector.twin_finding)
    (rogue_aps : list ThreatDetector.rogue_finding) : list ThreatDetector.severity_t :=
  map ThreatDetector.twin_severity evil_twins ++
  map ThreatDetector.rogue_severity rogue_aps.

Definition is_high (s : ThreatDetector.severity_t) : bool :=
  match s with ThreatDetector.high => true | _ => false end.

Definition is_medium (s : ThreatDetector.severity_t) : bool :=
  match s with ThreatDetector.medium => true | _ => false end.

Definition _calculate_threat_level (evil_twins : list ThreatDetector.twin_finding)
    (rogue_aps : list ThreatDetector.rogue_finding) : threat_level_t :=
  let high_threats := len (List.filter is_high (severities evil_twins rogue_aps)) in
  let medium_threats := len (List.filter is_medium (severities evil_twins rogue_aps)) in
  if 0 <? high_threats then threat_high
  else if 2 <? medium_threats then threat_medium
  else if 0 <? medium_threats then threat_low
  else threat_none.

(** [security.get('vulnerable_networks', 0)] *)
Definition vulnerable_of (security : option NetworkAnalytics.posture_report) : Z :=
  match security with
  | Some (NetworkAnalytics.PostureOf p) => NetworkAnalytics.vulnerable_networks p
  | _ => 0
  end.

Definition congested (channel : option NetworkAnalytics.channel_report) : bool :=
  match channel with
  | Some c =>
      match NetworkAnalytics.congestion_level c with
      | NetworkAnalytics.congestion_high | NetworkAnalytics.congestion_severe => true
      | _ => false
      end
  | None => false
  end.

Definition optimal_of (channel : option NetworkAnalytics.channel_report)
    : list NetworkAnalytics.optimal_channel :=
  match channel with
  | Some c => NetworkAnalytics.optimal_channels c
  | None => []
  end.

Definition threats_of (threats : option threat_report) : Z :=
  match threats with
  | Some t => total_threats t
  | None => 0
  end.

Definition poor_quality (signal : option SignalAnalyzer.signal_report) : bool :=
  match signal with
  | Some (SignalAnalyzer.SignalAnalysis a) =>
      match SignalAnalyzer.quality_assessment a with
      | SignalAnalyzer.poor => true
      | _ => false
      end
  | _ => false
  end.

Definition _generate_recommendations (analysis : report) : list string :=
  (if 0 <? vulnerable_of (security_analysis analysis)
   then ["Secure " +:+ str (vulnerable_of (security_analysis analysis))
           +:+ " vulnerable networks"]
   else []) ++
  (if congested (channel_analysis analysis)
   then "Consider using less congested channels" ::
        match optimal_of (channel_analysis analysis) with
        | best :: _ =>
            ["Channel " +:+ str (NetworkAnalytics.opt_channel best)
               +:+ " shows optimal performance"]
        | [] => []
        end
   else []) ++
  (if 0 <? threats_of (threat_analysis analysis)
   then ["Investigate detected security threats immediately"]
   else []) ++
  (if poor_quality (signal_analysis analysis)
   then ["Consider improving AP placement for better coverage"]
   else []).

Definition failed (e : exn) (r : report) : report :=
  {| total_networks := total_networks r;
     threat_analysis := threat_analysis r;
     channel_analysis := channel_analysis r;
     security_analysis := security_analysis r;
     signal_analysis := signal_analysis r;
     recommendations := recommendations r;
     error := Some e |}.

(** The [try] block runs the four analyses in order and stores each result
    as it comes; the first exception ends it and is stored under ['error']. *)
Definition perform_comprehensive_analysis (networks : list network) : analysis_result :=
  match networks with
  | [] => NothingToAnalyze "No networks to analyze"
  | _ =>
      let results :=
        {| total_networks := len networks;
           threat_analysis := None; channel_analysis := None;
           security_analysis := None; signal_analysis := None;
           recommendations := []; error := None |} in
      let evil_twins := ThreatDetector.detect_evil_twin networks in
      match ThreatDetector.detect_rogue_ap networks with
      | Raise e => Analysis (failed e results)
      | Ok rogue_aps =>
          let threats :=
            {| evil_twins := evil_twins;
               rogue_aps := rogue_aps;
               total_threats := len evil_twins + len rogue_aps;
               threat_level := _calculate_threat_level evil_twins rogue_aps |} in
          let results :=
            {| total_networks := len networks;
               threat_analysis := Some threats; channel_analysis := None;
               security_analysis := None; signal_analysis := None;
               recommendations := []; error := None |} in
          match NetworkAnalytics.analyze_channel_utilization networks with
          | Raise e => Analysis (failed e results)
          | Ok channel =>
              let security := NetworkAnalytics.analyze_security_posture networks in
              let results :=
                {| total_networks := len networks;
                   threat_analysis := Some threats; channel_analysis := Some channel;
                   security_analysis := Some security; signal_analysis := None;
                   recommendations := []; error := None |} in
              match SignalAnalyzer.analyze_signal_patterns networks with
              | Raise e => Analysis (failed e results)
              | Ok signal =>
                  let results :=
                    {| total_networks := len networks;
                       threat_analysis := Some threats; channel_analysis := Some channel;
                       security_analysis := Some security; signal_analysis := Some signal;
                       recommendations := []; error := None |} in
                  Analysis
                    {| total_networks := len networks;
                       threat_analysis := Some threats; channel_analysis := Some channel;
                       security_analysis := Some security; signal_analysis := Some signal;
                       recommendations := _generate_recommendations results;
                       error := None |}
              end
          end
      end
  end.

End AdvancedWiFiAnalyzer.

(** ** The operating system, as the scanner sees it

    Every [subprocess.run(..., check=True, timeout=...)] is one [command];
    what it does to the adapter and whether it succeeds is the operating
    system's business, so the world [os] and its reactions are parameters. *)

Inductive command : Type :=
| ip_link_set_down
| ip_link_set_up
| iw_set_type (mode : string)
| iw_set_channel (c : Z).

Record os_model : Type := OsModel {
  os : Type;
  (** the world after the command, and whether it exited with status 0 in time *)
  run : command -> os -> os * bool;
  (** what [get_interface_info] reports as ['current_mode'] *)
  current_mode : os -> string
}.

(** ** [class WiFiInterface] *)

Module WiFiInterface.

Record t : Type := Make {
  interface : string;
  original_mode : option string;
  monitor_mode : bool
}.

Definition set_monitor_mode (v : bool) (self : t) : t :=
  {| interface := interface self; original_mode := original_mode self; monitor_mode := v |}.

Definition set_original_mode (v : option string) (self : t) : t :=
  {| interface := interface self; original_mode := v; monitor_mode := monitor_mode self |}.

Section WithOs.
Context (M : os_model).

(** Of the info dictionary only ['current_mode'] is used by the callers
    below; seeing [Mode:Monitor] also sets [self.monitor_mode]. *)
Definition get_interface_info (self : t) (w : os M) : string * t :=
  let mode := current_mode M w in
  (mode, if String.eqb mode "monitor" then set_monitor_mode true self else self).

Definition enable_monitor_mode (self : t) (w : os M) : bool * t * os M :=
  if monitor_mode self then (true, self, w)
  else
    let '(mode, self) := get_interface_info self w in
    let self := set_original_mode (Some mode) self in
    let '(w, ok) := run M ip_link_set_down w in
    if negb ok then (false, self, w) else
    let '(w, ok) := run M (iw_set_type "monitor") w in
    if negb ok then (false, self, w) else
    let '(w, ok) := run M ip_link_set_up w in
    if negb ok then (false, self, w) else
    let '(mode, self) := get_interface_info self w in
    if String.eqb mode "monitor" then (true, set_monitor_mode true self, w)
    else (false, self, w).

Definition disable_monitor_mode (self : t) (w : os M) : bool * t * os M :=
  if negb (monitor_mode self) then (true, self, w)
  else
    let '(w, ok) := run M ip_link_set_down w in
    if negb ok then (false, self, w) else
    let target_mode :=
      match original_mode self with
      | Some m => if String.eqb m "" then "managed" else m
      | None => "managed"
      end in
    let '(w, ok) := run M (iw_set_type target_mode) w in
    if negb ok then (false, self, w) else
    let '(w, ok) := run M ip_link_set_up w in
    if negb ok then (false, self, w) else
    (true, set_monitor_mode false self, w).
End WithOs.

End WiFiInterface.

(** ** [class WiFiScanner] *)

Module WiFiScanner.

(** An entry of [self.networks]; times are points of an abstract clock. *)
Record ap_record : Type := ApRecord {
  ap_bssid : string;
  ap_ssid : string;
  ap_channel : Z;
  ap_signal_strength : Z;
  ap_encryption : string;
  ap_vendor : string;
  first_seen : Z;
  last_seen : Z;
  beacon_count : Z;
  ap_clients : gset string
}.

Record client_record : Type := ClientRecord {
  mac_address : string;
  client_vendor : string;
  client_signal_strength : Z;
  client_first_seen : Z;
  client_last_seen : Z;
  probed_ssids : gset string;
  associated_bssid : option string
}.

Record t : Type := Make {
  interface : string;
  wifi_interface : WiFiInterface.t;
  scanning : bool;
  (** the worker thread, recorded by the channel plan it was started with;
      what the worker does concurrently is outside the model *)
  scan_thread : option (list Z);
  networks : gmap string ap_record;
  clients : gmap string client_record;
  packets_captured : Z;
  scan_start_time : option Z;
  current_channel : Z
}.

Definition channels_2_4ghz : list Z := map Z.of_nat (seq 1 14).
Definition channels_5ghz : list Z :=
  [36; 40; 44; 48; 52; 56; 60; 64; 100; 104; 108; 112; 116; 120; 124; 128;
   132; 136; 140; 149; 153; 157; 161; 165].

Definition init (interface : string) : t :=
  {| interface := interface;
     wifi_interface := WiFiInterface.Make interface None false;
     scanning := false;
     scan_thread := None;
     networks := ∅;
     clients := ∅;
     packets_captured := 0;
     scan_start_time := None;
     current_channel := 1 |}.

Definition vendor_db : list (string * string) :=
  [("00:11:22", "Cisco Systems"); ("00:1B:63", "Apple Inc.");
   ("00:26:BB", "Apple Inc."); ("28:CF:E9", "Apple Inc.");
   ("00:50:56", "VMware Inc."); ("08:00:27", "Oracle VirtualBox");
   ("00:0C:29", "VMware Inc."); ("00:1C:42", "Parallels Inc.")].

Definition upper_ascii (c : ascii) : ascii :=
  let n := N_of_ascii c in
  if ((97 <=? n) && (n <=? 122))%N then ascii_of_N (n - 32) else c.

Fixpoint upper (s : string) : string :=
  match s with
  | EmptyString => EmptyString
  | String c rest => String (upper_ascii c) (upper rest)
  end.

Definition get_vendor (mac_address : string) : string :=
  if (String.length mac_address <? 8)%nat then "Unknown"
  else get (dict_get (upper (String.substring 0 8 mac_address)) vendor_db) "Unknown".

(** What [process_beacon_frame] reads from a captured beacon: [dot11.addr3],
    the decoded [packet.info], and the radiotap attributes when present. *)
Record beacon : Type := Beacon {
  addr3 : option string;
  info : string;
  dBm_AntSignal : option Z;
  Channel : option Z
}.

Definition set_networks (v : gmap string ap_record) (self : t) : t :=
  {| interface := interface self;
     wifi_interface := wifi_interface self;
     scanning := scanning self;
     scan_thread := scan_thread self;
     networks := v;
     clients := clients self;
     packets_captured := packets_captured self;
     scan_start_time := scan_start_time self;
     current_channel := current_channel self |}.

Definition new_network (bssid ssid : string) (channel signal_strength timestamp : Z)
    : ap_record :=
  {| ap_bssid := bssid;
     ap_ssid := ssid;
     ap_channel := channel;
     ap_signal_strength := signal_strength;
     ap_encryption := "Open";
     ap_vendor := get_vendor bssid;
     first_seen := timestamp;
     last_seen := timestamp;
     beacon_count := 1;
     ap_clients := ∅ |}.

Definition update_network (network : ap_record) (ssid : string)
    (signal_strength timestamp : Z) : ap_record :=
  {| ap_bssid := ap_bssid network;
     ap_ssid := if negb (String.eqb ssid "") && String.eqb (ap_ssid network) ""
                then ssid else ap_ssid network;
     ap_channel := ap_channel network;
     ap_signal_strength := signal_strength;
     ap_encryption := ap_encryption network;
     ap_vendor := ap_vendor network;
     first_seen := first_seen network;
     last_seen := timestamp;
     beacon_count := beacon_count network + 1;
     ap_clients := ap_clients network |}.

Definition process_beacon_frame (self : t) (packet : beacon) (timestamp : Z) : t :=
  match addr3 packet with
  | None => self
  | Some bssid =>
      if String.eqb bssid "" then self
      else
        let ssid := info packet in
        let signal_strength := get (dBm_AntSignal packet) (-100) in
        let channel := get (Channel packet) 0 in
        match networks self !! bssid with
        | None =>
            set_networks
              (<[bssid := new_network bssid ssid channel signal_strength timestamp]>
                 (networks self)) self
        | Some network =>
            set_networks
              (<[bssid := update_network network ssid signal_strength timestamp]>
                 (networks self)) self
        end
  end.

(** What [process_probe_request] reads from a captured probe request:
    [dot11.addr2], the decoded [packet.info] and the radiotap signal. *)
Record probe_request : Type := ProbeRequest {
  addr2 : option string;
  probe_info : string;
  probe_dBm_AntSignal : option Z
}.

Definition set_clients (v : gmap string client_record) (self : t) : t :=
  {| interface := interface self;
     wifi_interface := wifi_interface self;
     scanning := scanning self;
     scan_thread := scan_thread self;
     networks := networks self;
     clients := v;
     packets_captured := packets_captured self;
     scan_start_time := scan_start_time self;
     current_channel := current_channel self |}.

Definition new_client (client_mac : string) (signal_strength timestamp : Z)
    : client_record :=
  {| mac_address := client_mac;
     client_vendor := get_vendor client_mac;
     client_signal_strength := signal_strength;
     client_first_seen := timestamp;
     client_last_seen := timestamp;
     probed_ssids := ∅;
     associated_bssid := None |}.

(** The three updates made on the entry, new or not:
    [last_seen], [signal_strength], and [probed_ssids.add] when the probed
    SSID is not empty. *)
Definition update_client (client : client_record) (probed_ssid : string)
    (signal_strength timestamp : Z) : client_record :=
  {| mac_address := mac_address client;
     client_vendor := client_vendor client;
     client_signal_strength := signal_strength;
     client_first_seen := client_first_seen client;
     client_last_seen := timestamp;
     probed_ssids := if String.eqb probed_ssid "" then probed_ssids client
                     else {[probed_ssid]} ∪ probed_ssids client;
     associated_bssid := associated_bssid client |}.

Definition process_probe_request (self : t) (packet : probe_request) (timestamp : Z) : t :=
  match addr2 packet with
  | None => self
  | Some client_mac =>
      if String.eqb client_mac "" then self
      else
        let probed_ssid := probe_info packet in
        let signal_strength := get (probe_dBm_AntSignal packet) (-100) in
        let client :=
          match clients self !! client_mac with
          | None => new_client client_mac signal_strength timestamp
          | Some client => client
          end in
        set_clients
          (<[client_mac := update_client client probed_ssid signal_strength timestamp]>
             (clients self)) self
  end.

(** A captured packet: without an 802.11 layer, or with one; the frame
    subtype is the first layer that [process_dot11_packet] finds. *)
Inductive dot11_frame : Type :=
| Dot11Beacon (b : beacon)
| Dot11ProbeReq (p : probe_request)
| Dot11ProbeResp
| Dot11Auth
| Dot11Deauth
| Dot11Other.

Inductive packet : Type :=
| NoDot11
| Dot11 (frame : dot11_frame).

(** [timestamp] is the [datetime.now()] taken for the packet. *)
Definition process_dot11_packet (self : t) (frame : dot11_frame) (timestamp : Z) : t :=
  match frame with
  | Dot11Beacon b => process_beacon_frame self b timestamp
  | Dot11ProbeReq p => process_probe_request self p timestamp
  | Dot11ProbeResp => self
  | Dot11Auth => self
  | Dot11Deauth => self
  | Dot11Other => self
  end.

Definition count_packet (self : t) : t :=
  {| interface := interface self;
     wifi_interface := wifi_interface self;
     scanning := scanning self;
     scan_thread := scan_thread self;
     networks := networks self;
     clients := clients self;
     packets_captured := packets_captured self + 1;
     scan_start_time := scan_start_time self;
     current_channel := current_channel self |}.

Definition packet_handler (self : t) (p : packet) (timestamp : Z) : t :=
  let self := count_packet self in
  match p with
  | NoDot11 => self
  | Dot11 frame => process_dot11_packet self frame timestamp
  end.

(** One [sniff(..., prn=self.packet_handler, timeout=...)]: the handler runs
    on each packet captured during the dwell, in order. *)
Definition sniff (self : t) (captured : list (packet * Z)) : t :=
  fold_left (fun s p => packet_handler s (fst p) (snd p)) captured self.

(** The snapshot handed to the analyzers: the keys of the stored dict that
    they read. *)
Definition snapshot (r : ap_record) : network :=
  {| bssid := ap_bssid r;
     ssid := Val (ap_ssid r);
     channel := Some (ap_channel r);
     signal_strength := Some (ap_signal_strength r);
     encryption := Some (ap_encryption r);
     vendor := Some (ap_vendor r) |}.

(** The ['scan_info'] entry of [get_scan_results]; the entries ['networks']
    and ['clients'] are copies of the two stores, with the sets as lists and
    the times as text. *)
Record scan_info_t : Type := ScanInfo {
  info_interface : string;
  info_scanning : bool;
  info_packets_captured : Z;
  networks_found : Z;
  clients_found : Z;
  info_current_channel : Z;
  info_scan_start_time : option Z
}.

Definition scan_info (self : t) : scan_info_t :=
  {| info_interface := interface self;
     info_scanning := scanning self;
     info_packets_captured := packets_captured self;
     networks_found := Z.of_nat (size (networks self));
     clients_found := Z.of_nat (size (clients self));
     info_current_channel := current_channel self;
     info_scan_start_time := scan_start_time self |}.

Section WithOs.
Context (M : os_model).

Definition start_monitor_scan (channels : option (list Z)) (now : Z)
    (self : t) (w : os M) : bool * t * os M :=
  if scanning self then (false, self, w)
  else
    let '(enabled, iface, w) :=
      WiFiInterface.enable_monitor_mode M (wifi_interface self) w in
    if negb enabled then
      (false,
       {| interface := interface self; wifi_interface := iface;
          scanning := scanning self; scan_thread := scan_thread self;
          networks := networks self; clients := clients self;
          packets_captured := packets_captured self;
          scan_start_time := scan_start_time self;
          current_channel := current_channel self |}, w)
    else
      let channels := get channels (channels_2_4ghz ++ channels_5ghz) in
      (true,
       {| interface := interface self; wifi_interface := iface;
          scanning := true; scan_thread := Some channels;
          networks := ∅; clients := ∅;
          packets_captured := 0;
          scan_start_time := Some now;
          current_channel := current_channel self |}, w).

(** [stop_scan] returns nothing; joining the worker changes nothing here. *)
Definition stop_scan (self : t) (w : os M) : t * os M :=
  if negb (scanning self) then (self, w)
  else
    let '(_, iface, w) :=
      WiFiInterface.disable_monitor_mode M (wifi_interface self) w in
    ({| interface := interface self; wifi_interface := iface;
        scanning := false; scan_thread := scan_thread self;
        networks := networks self; clients := clients self;
        packets_captured := packets_captured self;
        scan_start_time := scan_start_time self;
        current_channel := current_channel self |}, w).

Definition set_channel (channel : Z) (self : t) (w : os M) : bool * t * os M :=
  let '(w, ok) := run M (iw_set_channel channel) w in
  if ok then
    (true,
     {| interface := interface self; wifi_interface := wifi_interface self;
        scanning := scanning self; scan_thread := scan_thread self;
        networks := networks self; clients := clients self;
        packets_captured := packets_captured self;
        scan_start_time := scan_start_time self;
        current_channel := channel |}, w)
  else (false, self, w).

(** The loop of [_monitor_scan_worker].  [dwells] holds what each pass of
    the loop captures, one entry per pass made before the scanning flag is
    seen cleared; the loop also stops when it finds the flag cleared.  The
    result carries the local [channel_index]. *)
Fixpoint _monitor_scan_worker (channels : list Z) (channel_index : Z)
    (dwells : list (list (packet * Z))) (self : t) (w : os M) : Z * t * os M :=
  match dwells with
  | [] => (channel_index, self, w)
  | captured :: later =>
      if negb (scanning self) then (channel_index, self, w)
      else
        match channels with
        | [] => _monitor_scan_worker channels channel_index later (sniff self captured) w
        | _ =>
            match channels !! Z.to_nat (channel_index mod len channels) with
            | None => (channel_index, self, w)
            | Some channel =>
                let '(_, self, w) := set_channel channel self w in
                _monitor_scan_worker channels (channel_index + 1) later
                                     (sniff self captured) w
            end
        end
  end.
End WithOs.

End WiFiScanner.

(** ** [routes/wifi_api.py]: the [/scan/stop] route *)

Module WifiApi.

Record response : Type := Response {
  success : bool;
  detail : string;
  status : Z
}.

Section WithOs.
Context (M : os_model).

(** The global [scanner] is [None] until the first [/scan/start]. *)
Definition stop_scan (scanner : option WiFiScanner.t) (w : os M)
    : response * option WiFiScanner.t * os M :=
  match scanner with
  | Some s =>
      if WiFiScanner.scanning s then
        let '(s, w) := WiFiScanner.stop_scan M s w in
        ({| success := true; detail := "Scan stopped"; status := 200 |}, Some s, w)
      else
        ({| success := false; detail := "No scan in progress"; status := 400 |},
         scanner, w)
  | None =>
      ({| success := false; detail := "No scan in progress"; status := 400 |},
       scanner, w)
  end.
End WithOs.

End WifiApi.

(** * Reference definitions

    What the specification says, written independently of the code above,
    to be compared with it. *)

Module Reference.
Import ThreatDetector.

(** The record of the rogue-AP example: vendor "Unknown Corp", -20 dBm,
    SSID "Free WiFi"; the BSSID, the channel and the encryption vary. *)
Definition free_wifi (b : string) (c : option Z) (enc : option string) : network :=
  {| bssid := b;
     ssid := Val "Free WiFi";
     channel := c;
     signal_strength := Some (-20);
     encryption := enc;
     vendor := Some "Unknown Corp" |}.

(** The additive rogue-AP score and its reasons, signal by signal. *)
Definition points (fired : bool) (p : Z) : Z := if fired then p else 0.
Definition reason (fired : bool) (r : string) : list string := if fired then [r] else [].

Definition ssid_text (n : network) : string :=
  match ssid n with
  | Val s => s
  | _ => ""
  end.

Definition rogue_score_of (n : network) : Z :=
  points (open_signal n) 3 + points (vendor_signal n) 2 +
  points (strength_signal n) 1 + points (ssid_signal (lower (ssid_text n))) 2.

Definition rogue_reasons_of (n : network) : list string :=
  reason (open_signal n) "Open network detected" ++
  reason (vendor_signal n) "Unusual vendor" ++
  reason (strength_signal n) "Unusually strong signal" ++
  reason (ssid_signal (lower (ssid_text n))) "Suspicious SSID pattern".

Definition rogue_finding_of (n : network) : option rogue_finding :=
  if 4 <=? rogue_score_of n then
    Some {| rogue_type := rogue_ap;
            rogue_severity := if rogue_score_of n <? 6 then medium else high;
            rogue_network := n;
            rogue_score := rogue_score_of n;
            rogue_reasons := rogue_reasons_of n;
            rogue_description := "Potential rogue AP: " +:+ ssid_shown n |}
  else None.

(** A hidden open network as [data/sample_networks.py] writes it:
    ["ssid": None]. *)
Definition hidden_open : network :=
  {| bssid := "00:1B:63:0A:0B:0C";
     ssid := NoneVal;
     channel := Some 6;
     signal_strength := Some (-25);
     encryption := Some "Open";
     vendor := Some "Apple" |}.

(** The unordered pairs of a list, each once: the element met first is
    the first component. *)
Fixpoint all_pairs {A : Type} (l : list A) : list (A * A) :=
  match l with
  | [] => []
  | x :: rest => map (pair x) rest ++ all_pairs rest
  end.

(** The evil-twin condition on two records: the same non-empty SSID,
    different BSSIDs, signals less than 10 dBm apart. *)
Definition signal_of (n : network) : Z := default (-100) (signal_strength n).

Definition is_twin_pair (a b : network) : Prop :=
  (exists s, s <> "" /\ ssid a = Val s /\ ssid b = Val s) /\
  bssid a <> bssid b /\
  Z.abs (signal_of a - signal_of b) < 10.

Definition same_ssid (s : string) (n : network) : bool :=
  bool_decide (truthy_ssid n = Some s).

Definition twin_pair (p : network * network) : bool :=
  match truthy_ssid (fst p) with
  | Some s => same_ssid s (snd p) && twin_test (fst p) (snd p)
  | None => false
  end.

Definition twin_finding_of (p : network * network) : twin_finding :=
  make_twin (default "" (truthy_ssid (fst p))) (fst p) (snd p).

(** One finding for each pair of the input that meets the condition. *)
Definition twins_of (networks : list network) : list twin_finding :=
  map twin_finding_of (List.filter twin_pair (all_pairs networks)).

(** The findings a record met later adds to those of the records before it. *)
Definition later_twins (s : string) (x : network) (members : list network)
    : list twin_finding :=
  map (fun y => make_twin s y x) (List.filter (fun y => twin_test y x) members).

(** The three records of the evil-twin example. *)
Definition ap_A : network :=
  {| bssid := "00:00:00:00:00:01"; ssid := Val "X"; channel := None;
     signal_strength := Some (-40); encryption := None; vendor := None |}.
Definition ap_B : network :=
  {| bssid := "00:00:00:00:00:02"; ssid := Val "X"; channel := None;
     signal_strength := Some (-45); encryption := None; vendor := None |}.
Definition ap_C : network :=
  {| bssid := "00:00:00:00:00:03"; ssid := Val "Y"; channel := None;
     signal_strength := Some (-40); encryption := None; vendor := None |}.

(** Two findings are the same up to the order in which the pair is listed. *)
Definition same_finding (f g : twin_finding) : Prop :=
  twin_type f = twin_type g /\
  twin_severity f = twin_severity g /\
  twin_ssid f = twin_ssid g /\
  twin_description f = twin_description g /\
  Permutation (twin_networks f) (twin_networks g).

(** *** Channels *)

Import NetworkAnalytics.

(** The records on channel [c], and those that carry a channel at all (a
    channel that is present and not 0). *)
Definition on_channel (c : Z) (n : network) : bool := bool_decide (channel n = Some c).
Definition has_channel (n : network) : bool :=
  match channel n with
  | Some c => bool_decide (c <> 0)
  | None => false
  end.

(** The interference score of the records of one channel. *)
Definition abs_signals (nets : list network) : Z :=
  sumZ (map (fun n => Z.abs (signal_of n)) nets).
Definition interference_of (nets : list network) : Q :=
  Qmin 100 (inject_Z (len nets) * 10 + inject_Z (abs_signals nets) / 10).

(** The tag that goes with a score. *)
Definition tagged (score : Q) (tag : recommendation_t) : Prop :=
  match tag with
  | excellent => score < 20
  | good => 20 <= score /\ score < 50
  | poor => 50 <= score
  end%Q.

(** The congestion level that goes with the counts per occupied channel. *)
Definition mean_of (counts : list Z) : Q := inject_Z (sumZ counts) / inject_Z (len counts).
Definition congestion_for (counts : list Z) (level : congestion_t) : Prop :=
  match level with
  | congestion_none => counts = []
  | congestion_low => counts <> [] /\ mean_of counts < 2
  | congestion_moderate => counts <> [] /\ 2 <= mean_of counts /\ mean_of counts < 5
  | congestion_high => counts <> [] /\ 5 <= mean_of counts /\ mean_of counts < 10
  | congestion_severe => counts <> [] /\ 10 <= mean_of counts
  end%Q.

(** An entry of [optimal_channels] and the item of the map it reports. *)
Definition score_le (x y : optimal_channel) : Prop :=
  (opt_interference_score x <= opt_interference_score y)%Q.
Definition optimal_for (item : string * interference) (o : optimal_channel) : Prop :=
  fst item = str (opt_channel o) /\
  opt_interference_score o = interference_score (snd item) /\
  opt_network_count o = network_count (snd item) /\
  tagged (opt_interference_score o) (opt_recommendation o).

(** The order [sorted(..., key=key)] sorts by. *)
Definition by_key {A : Type} (key : A -> Q) (x y : A) : Prop := (key x <= key y)%Q.

(** *** Beacons *)

Import WiFiScanner.

(** A capture: the beacons with the time each was seen, oldest first. *)
Definition process_all (self : WiFiScanner.t) (frames : list (beacon * Z)) : WiFiScanner.t :=
  fold_left (fun s f => process_beacon_frame s (fst f) (snd f)) frames self.

Definition is_for (b : string) (f : beacon * Z) : bool :=
  bool_decide (addr3 (fst f) = Some b).

(** The number of beacon upserts a capture applies for the BSSID [b]. *)
Definition upserts (b : string) (frames : list (beacon * Z)) : Z :=
  len (List.filter (is_for b) frames).

(** [r2] is [r1] after [k] more upserts. *)
Record evolves (k : Z) (r1 r2 : ap_record) : Prop := Evolves {
  evolves_bssid : ap_bssid r2 = ap_bssid r1;
  evolves_first : first_seen r2 = first_seen r1;
  evolves_count : beacon_count r2 = beacon_count r1 + k;
  evolves_last : last_seen r1 <= last_seen r2;
  evolves_ssid : ap_ssid r1 <> "" -> ap_ssid r2 = ap_ssid r1
}.

(** A capture of one access point: hidden at first, then named, with a
    beacon of another station in between. *)
Definition example_bssid : string := "aa:bb:cc:dd:ee:ff".

Definition beacon_of (b ssid : string) (signal chan : option Z) : beacon :=
  {| addr3 := Some b; info := ssid; dBm_AntSignal := signal; Channel := chan |}.

Definition capture_before : list (beacon * Z) :=
  [(beacon_of example_bssid "" (Some (-60)) (Some 6), 1);
   (beacon_of "11:22:33:44:55:66" "Cafe" (Some (-70)) (Some 11), 1);
   (beacon_of example_bssid "Home" None None, 2)].

Definition capture_after : list (beacon * Z) :=
  [(beacon_of example_bssid "Other" (Some (-58)) (Some 6), 2);
   (beacon_of example_bssid "" (Some (-61)) (Some 6), 5)].

(** *** The scan lifecycle *)

(** A cooperative adapter: every command succeeds, the type can be set
    while the link is down only. *)
Record adapter : Type := Adapter {
  adapter_mode : string;
  adapter_up : bool;
  adapter_channel : Z
}.

Definition drive (c : command) (a : adapter) : adapter * bool :=
  match c with
  | ip_link_set_down => (Adapter (adapter_mode a) false (adapter_channel a), true)
  | ip_link_set_up => (Adapter (adapter_mode a) true (adapter_channel a), true)
  | iw_set_type mode =>
      if adapter_up a then (a, false)
      else (Adapter mode (adapter_up a) (adapter_channel a), true)
  | iw_set_channel ch => (Adapter (adapter_mode a) (adapter_up a) ch, true)
  end.

Definition cooperative : os_model :=
  {| os := adapter; run := drive; current_mode := adapter_mode |}.

Definition managed : adapter := Adapter "managed" true 1.

(** A scanner in the middle of a scan: started on the managed adapter,
    three beacons (of two access points) in. *)
Definition running_scanner : WiFiScanner.t :=
  process_all (snd (fst (start_monitor_scan cooperative None 0 (init "wlan0") managed)))
              capture_before.

Definition monitoring : adapter :=
  snd (start_monitor_scan cooperative None 0 (init "wlan0") managed).

(** The answer of the [/scan/stop] route when there is nothing to stop. *)
Definition no_scan_in_progress : WifiApi.response :=
  {| WifiApi.success := false; WifiApi.detail := "No scan in progress"; WifiApi.status := 400 |}.

(** The report of [analyze_channel_utilization] when no channel is occupied. *)
Definition empty_channel_report : channel_report :=
  {| utilization := []; interference_map := []; optimal_channels := [];
     congestion_level := congestion_none |}.

(** Records on a given channel (or with no channel key), for examples. *)
Definition on (chan : option Z) (signal : Z) : network :=
  {| bssid := "00:11:22:33:44:55"; ssid := Val "Office_WiFi"; channel := chan;
     signal_strength := Some signal; encryption := Some "WPA2";
     vendor := Some "Cisco Systems" |}.

(** *** Security posture *)

(** The encryption class of a record, and the number of records in a class. *)
Definition class_of (n : network) : string := default "Unknown" (encryption n).
Definition in_class (c : string) (n : network) : bool := bool_decide (class_of n = c).
Definition class_count (c : string) (networks : list network) : Z :=
  len (List.filter (in_class c) networks).
Definition known_classes : list string := ["WPA3"; "WPA2"; "WPA"; "WEP"; "Open"].
Definition other_count (networks : list network) : Z :=
  len (List.filter (fun n => bool_decide (class_of n ∉ known_classes)) networks).

(** The weighted average of the class weights, each class weighted by its
    share of the records. *)
Definition share (count : Z) (networks : list network) : Q :=
  inject_Z count / inject_Z (len networks).
Definition weighted_average (networks : list network) : Q :=
  100 * share (class_count "WPA3" networks) networks +
  80 * share (class_count "WPA2" networks) networks +
  60 * share (class_count "WPA" networks) networks +
  20 * share (class_count "WEP" networks) networks +
  0 * share (class_count "Open" networks) networks +
  50 * share (other_count networks) networks.

(** The level that goes with a score. *)
Definition level_for (score : Q) (level : security_level_t) : Prop :=
  match level with
  | level_excellent => 90 <= score
  | level_good => 70 <= score /\ score < 90
  | level_fair => 50 <= score /\ score < 70
  | level_poor => 30 <= score /\ score < 50
  | level_critical => score < 30
  end%Q.

(** Example inputs: eight WPA2 and two Open records; two WPA2 and one Open. *)
Definition secured (enc : option string) : network :=
  {| bssid := "00:11:22:33:44:55"; ssid := Val "Office_WiFi"; channel := Some 6;
     signal_strength := Some (-50); encryption := enc; vendor := Some "Cisco Systems" |}.
Definition ten_networks : list network :=
  repeat (secured (Some "WPA2")) 8 ++ repeat (secured (Some "Open")) 2.
Definition three_networks : list network :=
  [secured (Some "WPA2"); secured (Some "WPA2"); secured (Some "Open")].

(** The sum of the weights, record by record. *)
Definition weighted_sum (networks : list network) : Z :=
  sumZ (map (fun n => weight_of (class_of n)) networks).

(** 198 WPA3, 3 WPA2 and 49 records without encryption: the average is 89.96. *)
Definition near_ninety : list network :=
  repeat (secured (Some "WPA3")) 198 ++ repeat (secured (Some "WPA2")) 3 ++
  repeat (secured None) 49.

(** *** Signal statistics *)

Import SignalAnalyzer.

(** The samples: the absolute value of every signal that is there. *)
Definition signal_samples (networks : list network) : list Z :=
  omap (fun n => Z.abs <$> signal_strength n) networks.

(** The number of samples in [lo, hi). *)
Definition between (lo hi : Z) (data : list Z) : Z :=
  len (List.filter (fun x => (lo <=? x) && (x <? hi)) data).

(** The median: the middle element of the sorted samples, or the mean of
    the two middle ones. *)
Definition is_median (data : list Z) (m : Q) : Prop :=
  exists s, Permutation s data /\ StronglySorted Z.le s /\
    if Z.odd (len s)
    then exists x, s !! Z.to_nat (len s / 2) = Some x /\ m = inject_Z x
    else exists a b, s !! Z.to_nat (len s / 2 - 1) = Some a /\
                     s !! Z.to_nat (len s / 2) = Some b /\
                     m = (inject_Z (a + b) / 2)%Q.

Definition is_minimum (data : list Z) (m : Z) : Prop :=
  In m data /\ Forall (fun x => m <= x) data.
Definition is_maximum (data : list Z) (m : Z) : Prop :=
  In m data /\ Forall (fun x => x <= m) data.

(** *** Captures *)

(** The beacons and the probe requests of a capture, with their times. *)
Definition beacons_of (captured : list (packet * Z)) : list (beacon * Z) :=
  omap (fun p => match fst p with
                 | Dot11 (Dot11Beacon b) => Some (b, snd p)
                 | _ => None
                 end) captured.

Definition probes_of (captured : list (packet * Z)) : list (probe_request * Z) :=
  omap (fun p => match fst p with
                 | Dot11 (Dot11ProbeReq r) => Some (r, snd p)
                 | _ => None
                 end) captured.

Definition process_probes (self : WiFiScanner.t) (probes : list (probe_request * Z))
    : WiFiScanner.t :=
  fold_left (fun s f => process_probe_request s (fst f) (snd f)) probes self.

(** What holds of every stored access point and of every stored client. *)
Definition network_ok (b : string) (r : ap_record) : Prop :=
  ap_bssid r = b /\ b <> "" /\ ap_encryption r = "Open" /\
  ap_vendor r = get_vendor b /\ 1 <= beacon_count r /\ ap_clients r = ∅.

Definition client_ok (m : string) (c : client_record) : Prop :=
  mac_address c = m /\ m <> "" /\ client_vendor c = get_vendor m /\
  associated_bssid c = None /\ "" ∉ probed_ssids c.

Definition store_ok (self : WiFiScanner.t) : Prop :=
  map_Forall network_ok (networks self) /\ map_Forall client_ok (clients self).

(** What a beacon never changes in a record that is already stored. *)
Record same_identity (r r' : ap_record) : Prop := SameIdentity {
  same_bssid : ap_bssid r' = ap_bssid r;
  same_channel : ap_channel r' = ap_channel r;
  same_encryption : ap_encryption r' = ap_encryption r;
  same_vendor : ap_vendor r' = ap_vendor r;
  same_first_seen : first_seen r' = first_seen r
}.

(** The client [m] sent a probe request for the non-empty SSID [s]. *)
Definition probed_by (m s : string) (probes : list (probe_request * Z)) : Prop :=
  s <> "" /\ exists p ts, In (p, ts) probes /\ addr2 p = Some m /\ probe_info p = s.

(** A capture with beacons, probe requests and other packets. *)
Definition example_client : string := "66:77:88:99:aa:bb".

Definition probe_of (m ssid : string) (signal : option Z) : probe_request :=
  {| addr2 := Some m; probe_info := ssid; probe_dBm_AntSignal := signal |}.

Definition example_capture : list (packet * Z) :=
  [(Dot11 (Dot11Beacon (beacon_of example_bssid "" (Some (-60)) (Some 6))), 1);
   (Dot11 (Dot11ProbeReq (probe_of example_client "Home" (Some (-48)))), 2);
   (NoDot11, 3);
   (Dot11 (Dot11ProbeReq (probe_of example_client "" None)), 4);
   (Dot11 Dot11Deauth, 5);
   (Dot11 (Dot11Beacon (beacon_of example_bssid "Home" None (Some 11))), 6)].

(** The record of [example_bssid] after [capture_before]. *)
Definition example_record : ap_record :=
  {| ap_bssid := example_bssid; ap_ssid := "Home"; ap_channel := 6;
     ap_signal_strength := -100; ap_encryption := "Open"; ap_vendor := "Unknown";
     first_seen := 1; last_seen := 2; beacon_count := 2; ap_clients := ∅ |}.

(** *** The worker and the adapter *)

(** An adapter on which setting the channel never fails. *)
Definition channel_always_set (M : os_model) : Prop :=
  forall c w, snd (run M (iw_set_channel c) w) = true.


(** The simplest such adapter: its state is its mode. *)
Definition plain : os_model :=
  {| os := string;
     run := fun c w => (match c with iw_set_type mode => mode | _ => w end, true);
     current_mode := fun w => w |}.

(** The answer of the [/scan/stop] route when a scan was stopped. *)
Definition scan_stopped : WifiApi.response :=
  {| WifiApi.success := true; WifiApi.detail := "Scan stopped"; WifiApi.status := 200 |}.

(** A scanner with the scanning flag set, as the worker sees it. *)
Definition started_scanner : WiFiScanner.t :=
  snd (fst (start_monitor_scan plain (Some [1; 6; 11]) 0 (init "wlan0") "managed")).

(** *** The analyzers together *)

(** A record whose SSID is [None]. *)
Definition hidden_ssid (n : network) : bool :=
  match ssid n with NoneVal => true | _ => false end.

(** What every rogue-AP finding looks like. *)
Definition rogue_finding_ok (networks : list network) (f : rogue_finding) : Prop :=
  4 <= rogue_score f <= 8 /\
  (2 <= length (rogue_reasons f) <= 4)%nat /\
  (rogue_severity f = high <-> 6 <= rogue_score f) /\
  (rogue_severity f = medium <-> rogue_score f < 6) /\
  rogue_type f = rogue_ap /\
  In (rogue_network f) networks.

(** What every entry of [optimal_channels] looks like. *)
Definition optimal_ok (o : NetworkAnalytics.optimal_channel) : Prop :=
  NetworkAnalytics.opt_channel o <> 0 /\
  1 <= NetworkAnalytics.opt_network_count o /\
  (10 <= NetworkAnalytics.opt_interference_score o)%Q /\
  (NetworkAnalytics.opt_interference_score o <= 100)%Q /\
  (NetworkAnalytics.opt_recommendation o = NetworkAnalytics.excellent ->
     NetworkAnalytics.opt_network_count o = 1) /\
  (5 <= NetworkAnalytics.opt_network_count o ->
     NetworkAnalytics.opt_recommendation o = NetworkAnalytics.poor).

(** Two lists of findings are the same up to the order of the findings and
    the order in which each pair is listed. *)
Definition same_findings (fs gs : list twin_finding) : Prop :=
  exists hs, Permutation fs hs /\ Forall2 same_finding hs gs.

(** A pair, or the same pair the other way round. *)
Definition swapped {A : Type} (p q : A * A) : Prop :=
  q = p \/ q = (snd p, fst p).

(** *** Doubles *)

(** The exact value of a hardware double (a finite one). *)
Definition of_double (f : PrimFloat.float) : Q :=
  match FloatOps.Prim2SF f with
  | SpecFloat.S754_finite s m e =>
      Qred (inject_Z (if s then Z.neg m else Z.pos m) * Binary64.pow2 e)
  | _ => 0%Q
  end.

(** The hardware double of a natural number below 2^53. *)
Definition double_of (n : Z) : PrimFloat.float := PrimFloat.of_uint63 (Uint63.of_Z n).

(** One pass of the score loop on the processor and in [Binary64]: the
    share [a / b] of a class, its term with weight [w], and the term added to
    the term of the other records with weight 80. *)
Definition same_pass (a b w : Z) : bool :=
  let share := PrimFloat.div (double_of a) (double_of b) in
  let rest := PrimFloat.div (double_of (b - a)) (double_of b) in
  let term := PrimFloat.mul share (double_of w) in
  let other := PrimFloat.mul rest (double_of 80) in
  Qeq_bool (of_double share) (Binary64.fdiv (inject_Z a) (inject_Z b)) &&
  Qeq_bool (of_double term)
           (Binary64.fmul (Binary64.fdiv (inject_Z a) (inject_Z b)) (Binary64.of_int w)) &&
  Qeq_bool (of_double (PrimFloat.add term other))
           (Binary64.fadd
              (Binary64.fmul (Binary64.fdiv (inject_Z a) (inject_Z b)) (Binary64.of_int w))
              (Binary64.fmul (Binary64.fdiv (inject_Z (b - a)) (inject_Z b))
                             (Binary64.of_int 80))).

(** *** The security score in double precision *)

(** The elements of a list, each once, in order of first occurrence. *)
Fixpoint distinct (l : list string) : list string :=
  match l with
  | [] => []
  | x :: rest => x :: List.filter (fun y => negb (String.eqb y x)) (distinct rest)
  end.

(** The encryption classes that occur, in order of first occurrence. *)
Definition classes (networks : list network) : list string :=
  distinct (map class_of networks).

(** One term of the score: the share of the class (a rounded division)
    times its weight (a rounded product). *)
Definition float_term (c : string) (networks : list network) : Q :=
  Binary64.fmul (Binary64.fdiv (inject_Z (class_count c networks)) (inject_Z (len networks)))
                (Binary64.of_int (NetworkAnalytics.weight_of c)).

(** The weighted average as it is evaluated in double precision: the
    terms of the classes, added one by one (each sum rounded) in order of
    first occurrence. *)
Definition float_average (networks : list network) : Q :=
  fold_left (fun acc c => Binary64.fadd acc (float_term c networks)) (classes networks) 0%Q.

(** One WPA3, one Open and one record without encryption: the weighted
    average is 50. *)
Definition fifty : list network :=
  [secured (Some "WPA3"); secured (Some "Open"); secured None].

(** Four WPA3, one WPA2 and one WPA record: their weights average 90. *)
Definition ninety : list network :=
  repeat (secured (Some "WPA3")) 4 ++ [secured (Some "WPA2"); secured (Some "WPA")].

(** 9 WPA3, 8 WPA2 and 7 records without encryption: the weighted average
    is 78.75. *)
Definition three_quarters : list network :=
  repeat (secured (Some "WPA3")) 9 ++ repeat (secured (Some "WPA2")) 8 ++
  repeat (secured None) 7.

(** *** Signals, floats as binary64 *)

(** What the report shows for the mean: a whole mean as it is, any other
    as the nearest double, rounded to one decimal. *)
Definition reported_mean (data : list Z) : Q :=
  if sumZ data mod len data =? 0 then inject_Z (sumZ data / len data)
  else Binary64.round1 (Binary64.rn (mean_of data)).

(** Records that carry a signal and nothing else. *)
Definition with_signals (signals : list Z) : list network :=
  map (fun s => {| bssid := ""; ssid := Missing; channel := None;
                   signal_strength := Some s; encryption := None; vendor := None |})
      signals.

Definition three_signals : list network := with_signals [-64; -64; -65].
Definition three_samples : list Z := [64; 64; 65].
Definition twenty_signals : list network := with_signals (repeat (-64) 19 ++ [-71]).

(** *** The rogue-AP check on records that hold [None] *)

(** A record of the first kind among the records of the second. *)
Definition raw_of (n : network) : ThreatDetectorRaw.raw_network :=
  {| ThreatDetectorRaw.raw_bssid := bssid n;
     ThreatDetectorRaw.raw_ssid := ssid n;
     ThreatDetectorRaw.raw_channel := channel n;
     ThreatDetectorRaw.raw_signal_strength :=
       match signal_strength n with Some s => Val s | None => Missing end;
     ThreatDetectorRaw.raw_encryption := encryption n;
     ThreatDetectorRaw.raw_vendor :=
       match vendor n with Some v => Val v | None => Missing end |}.

Definition raw_finding_of (f : rogue_finding) : ThreatDetectorRaw.finding :=
  {| ThreatDetectorRaw.finding_type := rogue_type f;
     ThreatDetectorRaw.finding_severity := rogue_severity f;
     ThreatDetectorRaw.finding_network := raw_of (rogue_network f);
     ThreatDetectorRaw.finding_score := rogue_score f;
     ThreatDetectorRaw.finding_reasons := rogue_reasons f;
     ThreatDetectorRaw.finding_description := rogue_description f |}.

(** The exception a record makes the loop raise: the tests run in the order
    vendor, signal, SSID. *)
Definition failure (n : ThreatDetectorRaw.raw_network) : option exn :=
  match ThreatDetectorRaw.raw_vendor n with
  | NoneVal => Some AttributeError
  | _ =>
      match ThreatDetectorRaw.raw_signal_strength n with
      | NoneVal => Some TypeError
      | _ =>
          match ThreatDetectorRaw.raw_ssid n with
          | NoneVal => Some AttributeError
          | _ => None
          end
      end
  end.

(** The exception of the first record that has one. *)
Fixpoint first_failure (networks : list ThreatDetectorRaw.raw_network) : option exn :=
  match networks with
  | [] => None
  | n :: rest =>
      match failure n with
      | Some e => Some e
      | None => first_failure rest
      end
  end.

Definition holds_none (n : ThreatDetectorRaw.raw_network) : Prop :=
  ThreatDetectorRaw.raw_vendor n = NoneVal \/
  ThreatDetectorRaw.raw_signal_strength n = NoneVal \/
  ThreatDetectorRaw.raw_ssid n = NoneVal.

(** What every finding looks like. *)
Definition raw_finding_ok (networks : list ThreatDetectorRaw.raw_network)
    (f : ThreatDetectorRaw.finding) : Prop :=
  4 <= ThreatDetectorRaw.finding_score f <= 8 /\
  (2 <= length (ThreatDetectorRaw.finding_reasons f) <= 4)%nat /\
  (ThreatDetectorRaw.finding_severity f = high <-> 6 <= ThreatDetectorRaw.finding_score f) /\
  (ThreatDetectorRaw.finding_severity f = medium <-> ThreatDetectorRaw.finding_score f < 6) /\
  ThreatDetectorRaw.finding_type f = rogue_ap /\
  In (ThreatDetectorRaw.finding_network f) networks.

(** An open network with a strong signal, its vendor and then its signal
    [None]. *)
Definition open_strong (v : pyfield string) (s : pyfield Z) : ThreatDetectorRaw.raw_network :=
  {| ThreatDetectorRaw.raw_bssid := "00:11:22:33:44:55";
     ThreatDetectorRaw.raw_ssid := Val "Guest";
     ThreatDetectorRaw.raw_channel := Some 6;
     ThreatDetectorRaw.raw_signal_strength := s;
     ThreatDetectorRaw.raw_encryption := Some "Open";
     ThreatDetectorRaw.raw_vendor := v |}.

End Reference.

(** * Properties *)

(** ** The Python prelude *)

Lemma app_String (c : ascii) (s t : string) : String c s +:+ t = String c (s +:+ t).
Proof. reflexivity. Qed.

Lemma prefix_app (needle hay : string) :
  String.prefix needle hay = true <-> exists post, hay = needle +:+ post.
Proof.
  revert hay. induction needle as [|c needle IH]; intros hay; simpl.
  - destruct hay; simpl; split; eauto.
  - destruct hay as [|d hay]; simpl.
    + split; [discriminate | intros [post H]; discriminate].
    + destruct (ascii_dec c d) as [->|Hne].
      * rewrite IH. split; intros [post H]; exists post;
          rewrite app_String in *; congruence.
      * split; [discriminate | intros [post H]; rewrite app_String in H; congruence].
Qed.

(** [contains] is the substring relation. *)
Lemma contains_spec (needle hay : string) :
  contains needle hay = true <-> exists pre post, hay = pre +:+ needle +:+ post.
Proof.
  induction hay as [|d hay IH].
  - cbn [contains]. rewrite orb_false_r, prefix_app. split.
    + intros [post H]. exists "", post. done.
    + intros [pre [post H]]. destruct pre; [eauto | discriminate].
  - cbn [contains]. rewrite orb_true_iff, prefix_app, IH. split.
    + intros [[post H] | [pre [post H]]].
      * exists "", post. done.
      * exists (String d pre), post. rewrite app_String. by rewrite H.
    + intros [pre [post H]]. destruct pre as [|e pre].
      * left. eauto.
      * right. exists pre, post. rewrite app_String in H. congruence.
Qed.

Lemma int_str (n : Z) : int (str n) = Ok n.
Proof.
  unfold int, str. rewrite NilZero.isi.
  - by rewrite DecimalZ.of_to.
  - destruct n as [|p|p]; cbn; try discriminate.
    intros [= H]. by apply (DecimalPos.Unsigned.to_uint_nonnil p).
  - destruct n as [|p|p]; cbn; try discriminate.
    intros [= H]. by apply (DecimalPos.Unsigned.to_uint_nonnil p).
Qed.

Lemma str_inj (m n : Z) : str m = str n -> m = n.
Proof.
  intros H. assert (int (str m) = int (str n)) as Hi by (by rewrite H).
  rewrite !int_str in Hi. congruence.
Qed.

Lemma Qltb_lt x y : Qltb x y = true <-> (x < y)%Q.
Proof. unfold Qltb. rewrite Qlt_alt. by destruct (x ?= y)%Q. Qed.

Lemma Qltb_ge x y : Qltb x y = false <-> (y <= x)%Q.
Proof.
  unfold Qltb. rewrite Qle_alt, <- (Qcompare_antisym x y).
  destruct (x ?= y)%Q; cbn; split; congruence.
Qed.


(** ** Rogue access points *)

Section RogueAp.
Import ThreatDetector Reference.

Lemma bump_points fired p r acc :
  bump fired p r acc = (fst acc + points fired p, snd acc ++ reason fired r).
Proof.
  destruct fired, acc as [score reasons]; simpl.
  - reflexivity.
  - by rewrite Z.add_0_r, app_nil_r.
Qed.

(** On a record whose SSID is a string or is absent, the loop body computes
    the additive score and reports it from 4 points on. *)
Lemma rogue_check_score (n : network) :
  ssid n <> NoneVal -> rogue_check n = Ok (rogue_finding_of n).
Proof.
  intros Hssid. unfold rogue_check, rogue_finding_of, rogue_score_of, rogue_reasons_of.
  assert (ssid_lower n = Ok (lower (ssid_text n))) as ->.
  { unfold ssid_lower, ssid_text. by destruct (ssid n). }
  cbn [rbind]. rewrite !bump_points. cbn [fst snd app].
  rewrite Z.add_0_l, <- !app_assoc.
  by destruct (4 <=? _).
Qed.

Lemma rogue_check_none (n : network) :
  ssid n = NoneVal -> rogue_check n = Raise AttributeError.
Proof. intros H. unfold rogue_check, ssid_lower. by rewrite H. Qed.

(** One finding per record that reaches 4 points, in input order. *)
Lemma detect_rogue_ap_score (networks : list network) :
  Forall (fun n => ssid n <> NoneVal) networks ->
  detect_rogue_ap networks = Ok (omap rogue_finding_of networks).
Proof.
  induction 1 as [|n rest Hn _ IH]; [done|].
  cbn [detect_rogue_ap omap list_omap]. rewrite (rogue_check_score n Hn), IH. cbn [rbind].
  by destruct (rogue_finding_of n).
Qed.

(** One record whose SSID is [None] makes the whole call raise: no finding
    comes back for any record of the list. *)
Lemma detect_rogue_ap_raises (networks : list network) :
  Exists (fun n => ssid n = NoneVal) networks ->
  detect_rogue_ap networks = Raise AttributeError.
Proof.
  induction networks as [|n rest IH]; intros Hex; [by apply Exists_nil in Hex|].
  cbn [detect_rogue_ap]. destruct (ssid n) eqn:Hs.
  - apply Exists_cons in Hex as [Hex|Hex]; [congruence|].
    rewrite rogue_check_score by congruence. cbn [rbind]. by rewrite IH.
  - by rewrite rogue_check_none.
  - apply Exists_cons in Hex as [Hex|Hex]; [congruence|].
    rewrite rogue_check_score by congruence. cbn [rbind]. by rewrite IH.
Qed.

(** C1 (as amended): the example record with Open encryption scores
    3+2+1+2 = 8 and yields one finding of severity high; with any other
    encryption (or none recorded) the same record still scores 2+1+2 = 5,
    which reaches the threshold of 4, and yields one finding of severity
    medium whose reasons are the vendor, the signal and the SSID. *)
Theorem rogue_ap_example (b : string) (c : option Z) (enc : option string) :
  (exists f, detect_rogue_ap [free_wifi b c (Some "Open")] = Ok [f] /\
             rogue_score f = 3 + 2 + 1 + 2 /\ rogue_severity f = high /\
             rogue_network f = free_wifi b c (Some "Open")) /\
  (enc <> Some "Open" ->
   exists f, detect_rogue_ap [free_wifi b c enc] = Ok [f] /\
             rogue_score f = 2 + 1 + 2 /\ rogue_severity f = medium /\
             rogue_network f = free_wifi b c enc /\
             rogue_reasons f = ["Unusual vendor"; "Unusually strong signal";
                                "Suspicious SSID pattern"]).
Proof.
  split.
  - eexists. split; [reflexivity|]. by vm_compute.
  - intros Henc.
    assert (open_signal (free_wifi b c enc) = false) as Hopen.
    { unfold open_signal. cbn. destruct enc as [e|]; [|done].
      apply String.eqb_neq. congruence. }
    rewrite detect_rogue_ap_score by (repeat constructor; done).
    cbn [omap list_omap]. unfold rogue_finding_of, rogue_score_of, rogue_reasons_of.
    rewrite Hopen. eexists. split; [reflexivity|]. by vm_compute.
Qed.

Lemma rogue_ap_example_witness :
  Some "WPA2" <> Some "Open" /\
  exists f, detect_rogue_ap [free_wifi "aa:bb:cc:dd:ee:ff" (Some 6) (Some "WPA2")] = Ok [f] /\
            rogue_score f = 2 + 1 + 2 /\ rogue_severity f = medium /\
            rogue_network f = free_wifi "aa:bb:cc:dd:ee:ff" (Some 6) (Some "WPA2") /\
            rogue_reasons f = ["Unusual vendor"; "Unusually strong signal";
                               "Suspicious SSID pattern"].
Proof.
  split; [discriminate|].
  apply (rogue_ap_example "aa:bb:cc:dd:ee:ff" (Some 6) (Some "WPA2")). discriminate.
Defined.

(** C1, as stated, fails: without the Open flag the example record is not
    below the threshold, a finding is produced. *)
Lemma rogue_ap_example_not_dropped :
  ~ (forall enc, enc <> Some "Open" ->
       detect_rogue_ap [free_wifi "aa:bb:cc:dd:ee:ff" (Some 6) enc] = Ok []).
Proof.
  intros H. specialize (H (Some "WPA2") ltac:(discriminate)).
  vm_compute in H. discriminate H.
Qed.

(** C2: the score is the sum of the four weighted signals and a finding is
    emitted exactly from 4 points on ([detect_rogue_ap_score]) only while no
    record has [None] as its SSID.  On the hidden open network below the
    additive score is 3+1 = 4, which calls for a finding of severity medium;
    the code raises instead, and takes the findings of every other record of
    the list with it. *)
Theorem detect_rogue_ap_hidden_ssid :
  rogue_score_of hidden_open = 4 /\
  detect_rogue_ap [hidden_open] = Raise AttributeError /\
  detect_rogue_ap [free_wifi "aa:bb:cc:dd:ee:ff" (Some 6) (Some "Open"); hidden_open]
    = Raise AttributeError.
Proof. by vm_compute. Qed.

End RogueAp.

(** ** Insertion-ordered dictionaries *)

Section DictFacts.
Context {K V : Type} `{EqDecision K}.
Implicit Types (d : list (K * V)).

Lemma dict_get_upsert key f init d :
  dict_get key (dict_upsert key f init d) =
  Some (match dict_get key d with Some v => f v | None => init end).
Proof.
  induction d as [|[k v] d IH]; simpl.
  - by destruct (decide (key = key)).
  - destruct (decide (k = key)) as [Heq|Hne]; simpl;
      by destruct (decide (k = key)).
Qed.

Lemma dict_get_upsert_ne key key' f init d :
  key <> key' -> dict_get key' (dict_upsert key f init d) = dict_get key' d.
Proof.
  intros Hne. induction d as [|[k v] d IH]; simpl.
  - by destruct (decide (key = key')).
  - destruct (decide (k = key)) as [->|]; simpl.
    + by destruct (decide (key = key')).
    + by rewrite IH.
Qed.
End DictFacts.

Lemma filter_snoc {A : Type} (f : A -> bool) (l : list A) (x : A) :
  List.filter f (l ++ [x]) = List.filter f l ++ (if f x then [x] else []).
Proof. by rewrite List.filter_app. Qed.

Lemma filter_Permutation_bool {A : Type} (f : A -> bool) (l1 l2 : list A) :
  Permutation l1 l2 -> Permutation (List.filter f l1) (List.filter f l2).
Proof.
  induction 1 as [|a l1 l2 _ IH|a b l|l1 l2 l3 _ IH1 _ IH2]; cbn [List.filter].
  - done.
  - destruct (f a); by rewrite IH.
  - destruct (f a), (f b); try done. apply perm_swap.
  - by rewrite IH1.
Qed.

Section DictKeys.
Context {K V : Type} `{EqDecision K}.
Implicit Types (d : list (K * V)).

Lemma dict_get_In key v d : dict_get key d = Some v -> In (key, v) d.
Proof.
  induction d as [|[k w] d IH]; cbn [dict_get]; [done|].
  destruct (decide (k = key)) as [->|Hne].
  - intros [= ->]. by left.
  - intros Hg. right. by apply IH.
Qed.

Lemma dict_get_None key d : dict_get key d = None <-> ~ In key (map fst d).
Proof.
  induction d as [|[k w] d IH]; cbn [dict_get map fst]; [by split; [intros _ []|]|].
  destruct (decide (k = key)) as [->|Hne].
  - split; [done | intros Hn; destruct Hn; by left].
  - rewrite IH. split; [intros Hn [Hk|Hk]; done | intros Hn Hk; apply Hn; by right].
Qed.

Lemma dict_get_NoDup key v d :
  NoDup (map fst d) -> In (key, v) d -> dict_get key d = Some v.
Proof.
  induction d as [|[k w] d IH]; cbn [dict_get map fst]; [done|].
  intros Hnd [Hin|Hin]; apply NoDup_cons in Hnd as [Hk Hnd].
  - injection Hin as -> ->. by destruct (decide (key = key)).
  - destruct (decide (k = key)) as [->|Hne]; [|by apply IH].
    destruct Hk. apply list_elem_of_In, in_map_iff. by exists (key, v).
Qed.

Lemma dict_upsert_keys key f init d :
  map fst (dict_upsert key f init d) =
  match dict_get key d with
  | Some _ => map fst d
  | None => map fst d ++ [key]
  end.
Proof.
  induction d as [|[k w] d IH]; cbn [dict_get dict_upsert map fst]; [done|].
  destruct (decide (k = key)) as [->|Hne]; [done|].
  cbn [map fst]. rewrite IH. by destruct (dict_get key d).
Qed.

Lemma dict_upsert_NoDup key f init d :
  NoDup (map fst d) -> NoDup (map fst (dict_upsert key f init d)).
Proof.
  intros Hnd. rewrite dict_upsert_keys.
  destruct (dict_get key d) eqn:Hg; [done|].
  apply dict_get_None in Hg. apply NoDup_app. split; [done|]. split.
  - intros k Hk Hk'. apply list_elem_of_In in Hk. apply list_elem_of_singleton in Hk'. by subst.
  - apply NoDup_singleton.
Qed.

Lemma dict_get_map {W : Type} (g : V -> W) key d :
  dict_get key (map (fun item : K * V => (fst item, g (snd item))) d) =
  g <$> dict_get key d.
Proof.
  induction d as [|[k w] d IH]; cbn [dict_get map fst snd]; [done|].
  by destruct (decide (k = key)).
Qed.
End DictKeys.

(** ** The grouping loop *)

Section GroupFacts.
Context {K : Type} `{EqDecision K} (key : network -> option K).

Lemma group_by_snoc l x :
  group_by key (l ++ [x]) = group_step key (group_by key l) x.
Proof. unfold group_by. by rewrite fold_left_app. Qed.

(** A key owns the records that carry it, in input order, and is in the
    dictionary only if there is one. *)
Lemma group_by_get k l :
  dict_get k (group_by key l) =
  match List.filter (fun n => bool_decide (key n = Some k)) l with
  | [] => None
  | members => Some members
  end.
Proof.
  induction l as [|x l IH] using rev_ind; [done|].
  rewrite group_by_snoc, filter_snoc. unfold group_step.
  destruct (key x) as [k'|] eqn:Hx.
  - destruct (decide (k' = k)) as [->|Hne].
    + rewrite dict_get_upsert, bool_decide_eq_true_2, IH by done.
      by destruct (List.filter _ l).
    + rewrite dict_get_upsert_ne, bool_decide_eq_false_2, IH by congruence.
      by rewrite app_nil_r.
  - rewrite bool_decide_eq_false_2, IH by congruence. by rewrite app_nil_r.
Qed.
End GroupFacts.

Section GroupKeys.
Context {K : Type} `{EqDecision K} (key : network -> option K).

Lemma group_by_NoDup l : NoDup (map fst (group_by key l)).
Proof.
  induction l as [|x l IH] using rev_ind; [constructor|].
  rewrite group_by_snoc. unfold group_step. destruct (key x); [|done].
  by apply dict_upsert_NoDup.
Qed.

Lemma group_by_In k members l :
  In (k, members) (group_by key l) ->
  members = List.filter (fun n => bool_decide (key n = Some k)) l /\ members <> [].
Proof.
  intros Hin. apply dict_get_NoDup in Hin; [|apply group_by_NoDup].
  rewrite group_by_get in Hin.
  destruct (List.filter _ l) eqn:Hf; [done|]. by injection Hin as <-.
Qed.

Lemma group_by_sizes l :
  sumZ (map (fun item : K * list network => len (snd item)) (group_by key l)) =
  len (List.filter (fun n => bool_decide (is_Some (key n))) l).
Proof.
  induction l as [|x l IH] using rev_ind; [done|].
  rewrite group_by_snoc, filter_snoc. unfold group_step.
  destruct (key x) as [k|] eqn:Hx.
  - rewrite bool_decide_eq_true_2 by done. unfold len in *. rewrite length_app. cbn [length].
    rewrite Nat2Z.inj_add, <- IH. generalize (group_by key l). intros d.
    induction d as [|[k' m] d IHd]; cbn [dict_upsert map sumZ fold_right snd length]; [done|].
    destruct (decide (k' = k)); cbn [map sumZ fold_right snd].
    + rewrite length_app. cbn [length]. unfold sumZ. lia.
    + unfold sumZ in *. rewrite IHd. lia.
  - rewrite bool_decide_eq_false_2 by (by intros [? ?]). by rewrite app_nil_r.
Qed.
End GroupKeys.

(** ** Sorting *)

Section SortedFacts.
Import Reference.
Context {A : Type} (key : A -> Q).

Lemma insert_sorted_perm x l : Permutation (insert_sorted key x l) (x :: l).
Proof.
  induction l as [|y l IH]; cbn [insert_sorted]; [done|].
  destruct (Qle_bool (key x) (key y)); [done|].
  rewrite IH. apply perm_swap.
Qed.

Lemma sorted_perm l : Permutation (sorted key l) l.
Proof.
  induction l as [|x l IH]; [done|].
  cbn [sorted fold_right]. fold (sorted key l). by rewrite insert_sorted_perm, IH.
Qed.

Lemma insert_sorted_sorted x l :
  StronglySorted (by_key key) l -> StronglySorted (by_key key) (insert_sorted key x l).
Proof.
  induction 1 as [|y l Hs IH Hall]; cbn [insert_sorted]; [repeat constructor|].
  destruct (Qle_bool (key x) (key y)) eqn:Hle.
  - apply Qle_bool_iff in Hle. constructor; [by constructor|].
    constructor; [done|]. eapply Forall_impl; [apply Hall|].
    intros z Hz. unfold by_key in *. by eapply Qle_trans.
  - assert (key y <= key x)%Q as Hyx.
    { apply Qlt_le_weak, Qnot_le_lt. intros Hxy. apply Qle_bool_iff in Hxy. congruence. }
    constructor; [done|].
    eapply Permutation_Forall; [symmetry; apply insert_sorted_perm|].
    by constructor.
Qed.

Lemma sorted_sorted l : StronglySorted (by_key key) (sorted key l).
Proof.
  induction l as [|x l IH]; [constructor|].
  cbn [sorted fold_right]. by apply insert_sorted_sorted.
Qed.
End SortedFacts.

(** ** Evil twins *)

Section EvilTwin.
Import ThreatDetector Reference.

Lemma twins_with_app s a l1 l2 :
  twins_with s a (l1 ++ l2) = twins_with s a l1 ++ twins_with s a l2.
Proof.
  induction l1 as [|b l1 IH]; simpl; [done|].
  destruct (twin_test a b); simpl; by rewrite IH.
Qed.

Lemma twins_in_group_snoc s members x :
  Permutation (twins_in_group s (members ++ [x]))
              (twins_in_group s members ++ later_twins s x members).
Proof.
  induction members as [|a members IH]; simpl; [done|].
  rewrite twins_with_app, IH. unfold later_twins. cbn [List.filter twins_with].
  destruct (twin_test a x) eqn:Ht; cbn [map].
  - rewrite <- !app_assoc. apply Permutation_app_head. cbn [app].
    by rewrite <- Permutation_middle.
  - rewrite app_nil_r. by rewrite <- app_assoc.
Qed.

(** The test [len(network_list) > 1] only skips groups without a pair. *)
Lemma twins_guard s members :
  (if (1 <? length members)%nat then twins_in_group s members else []) =
  twins_in_group s members.
Proof. by destruct members as [|a [|b members]]. Qed.

Lemma twins_of_groups_upsert s x groups :
  Permutation
    (twins_of_groups (dict_upsert s (fun members => members ++ [x]) [x] groups))
    (twins_of_groups groups ++ later_twins s x (default [] (dict_get s groups))).
Proof.
  unfold twins_of_groups.
  induction groups as [|[k members] groups IH]; cbn [dict_upsert dict_get flat_map].
  - done.
  - destruct (decide (k = s)) as [->|Hne]; cbn [flat_map fst snd default].
    + rewrite !twins_guard, twins_in_group_snoc.
      rewrite <- !app_assoc. apply Permutation_app_head, Permutation_app_comm.
    + rewrite IH. by rewrite app_assoc.
Qed.

(** The group of an SSID holds the records of that SSID, in input order. *)
Lemma group_by_ssid_get s l :
  default [] (dict_get s (group_by_ssid l)) = List.filter (same_ssid s) l.
Proof.
  unfold group_by_ssid. rewrite group_by_get. unfold same_ssid.
  by destruct (List.filter _ l).
Qed.

Lemma all_pairs_snoc {A : Type} (l : list A) (x : A) :
  Permutation (all_pairs (l ++ [x])) (all_pairs l ++ map (fun y => (y, x)) l).
Proof.
  induction l as [|a l IH]; [done|].
  cbn [all_pairs app map]. rewrite map_app, IH. cbn [map].
  rewrite <- !app_assoc. apply Permutation_app_head. cbn [app].
  rewrite <- Permutation_middle. done.
Qed.

Lemma twins_of_later x l :
  map twin_finding_of (List.filter twin_pair (map (fun y => (y, x)) l)) =
  match truthy_ssid x with
  | Some s => later_twins s x (List.filter (same_ssid s) l)
  | None => []
  end.
Proof.
  induction l as [|y l IH]; cbn [map List.filter].
  - by destruct (truthy_ssid x).
  - unfold twin_pair at 1. cbn [fst snd]. unfold later_twins in *.
    destruct (truthy_ssid x) as [s|] eqn:Hx; cbn [List.filter].
    + unfold same_ssid at 2. destruct (truthy_ssid y) as [s'|] eqn:Hy.
      * unfold same_ssid at 1. rewrite Hx.
        destruct (decide (s = s')) as [->|Hne].
        -- rewrite !bool_decide_eq_true_2 by done. cbn [andb List.filter].
           destruct (twin_test y x); cbn [map]; [|done].
           rewrite IH. unfold twin_finding_of. cbn [fst snd]. by rewrite Hy.
        -- rewrite !bool_decide_eq_false_2 by congruence. done.
      * rewrite bool_decide_eq_false_2 by congruence. done.
    + destruct (truthy_ssid y) as [s'|]; [|done].
      unfold same_ssid. rewrite Hx, bool_decide_eq_false_2 by congruence. done.
Qed.

(** The findings are those of the qualifying pairs, each pair once. *)
Lemma detect_evil_twin_pairs networks :
  Permutation (detect_evil_twin networks) (twins_of networks).
Proof.
  induction networks as [|x l IH] using rev_ind; [done|].
  unfold detect_evil_twin, twins_of in *.
  unfold group_by_ssid at 1. rewrite group_by_snoc. fold (group_by_ssid l).
  rewrite (filter_Permutation_bool _ _ _ (all_pairs_snoc l x)).
  rewrite List.filter_app, map_app, twins_of_later. unfold group_step.
  destruct (truthy_ssid x) as [s|].
  - rewrite twins_of_groups_upsert, group_by_ssid_get. by rewrite IH.
  - by rewrite app_nil_r.
Qed.

Lemma truthy_ssid_spec n s :
  truthy_ssid n = Some s <-> ssid n = Val s /\ s <> "".
Proof.
  unfold truthy_ssid. destruct (ssid n) as [| |s'].
  - split; [discriminate | intros [[=] _]].
  - split; [discriminate | intros [[=] _]].
  - destruct (String.eqb_spec s' "") as [->|Hne].
    + split; [discriminate | intros [[= <-] Hs]; done].
    + split; [intros [= <-]; done | intros [[= <-] _]; done].
Qed.

Lemma twin_test_spec a b :
  twin_test a b = true <->
  bssid a <> bssid b /\ Z.abs (signal_of a - signal_of b) < 10.
Proof.
  unfold twin_test, signal_of, get, default.
  rewrite andb_true_iff, negb_true_iff, String.eqb_neq, Z.ltb_lt. done.
Qed.

Lemma twin_pair_spec a b : twin_pair (a, b) = true <-> is_twin_pair a b.
Proof.
  unfold twin_pair, is_twin_pair, same_ssid. cbn [fst snd]. split.
  - destruct (truthy_ssid a) as [s|] eqn:Ha; [|done].
    rewrite andb_true_iff, bool_decide_eq_true, twin_test_spec.
    intros [Hb Ht]. apply truthy_ssid_spec in Ha as [Ha Hs], Hb as [Hb _].
    split; [exists s; done | done].
  - intros [(s & Hs & Ha & Hb) Ht].
    assert (truthy_ssid a = Some s) as -> by (by apply truthy_ssid_spec).
    rewrite andb_true_iff, bool_decide_eq_true, twin_test_spec.
    split; [by apply truthy_ssid_spec | done].
Qed.

Lemma all_pairs_spec {A : Type} (l : list A) (a b : A) :
  In (a, b) (all_pairs l) <->
  exists i j : nat, (i < j)%nat /\ l !! i = Some a /\ l !! j = Some b.
Proof.
  induction l as [|x l IH]; cbn [all_pairs].
  - split; [done | intros (i & j & _ & H & _); done].
  - rewrite in_app_iff, in_map_iff, IH. split.
    + intros [(y & [= <- <-] & Hy) | (i & j & Hij & Hi & Hj)].
      * apply list_elem_of_In, list_elem_of_lookup in Hy as [j Hj].
        exists 0%nat, (S j). split; [lia | done].
      * exists (S i), (S j). split; [lia | done].
    + intros (i & j & Hij & Hi & Hj). destruct i as [|i], j as [|j]; try lia.
      * left. exists b. cbn in Hi, Hj. split; [congruence|].
        apply list_elem_of_In, list_elem_of_lookup. eauto.
      * right. exists i, j. split; [lia | done].
Qed.

Lemma all_pairs_length {A : Type} (l : list A) :
  (2 * length (all_pairs l) = length l * (length l - 1))%nat.
Proof.
  induction l as [|x l IH]; [done|].
  cbn [all_pairs length]. rewrite length_app, length_map. nia.
Qed.

(** C3: the findings of [detect_evil_twin] are, up to their order, exactly
    one finding of severity high for each pair of records of the input
    (positions i < j, all N(N-1)/2 of them) that have the same non-empty SSID,
    different BSSIDs and signals less than 10 dBm apart; a record whose SSID
    is empty, [None] or absent is in no finding; and on the three records A,
    B, C of the example the only finding is the pair A, B. *)
Theorem detect_evil_twin_exhaustive (networks : list network) :
  Permutation (detect_evil_twin networks) (twins_of networks) /\
  length (detect_evil_twin networks) =
    length (List.filter twin_pair (all_pairs networks)) /\
  (forall f, In f (detect_evil_twin networks) ->
     twin_type f = evil_twin /\ twin_severity f = high /\
     exists a b, In (a, b) (all_pairs networks) /\ is_twin_pair a b /\
                 twin_networks f = [a; b] /\ ssid a = Val (twin_ssid f)) /\
  (forall a b, In (a, b) (all_pairs networks) -> is_twin_pair a b ->
     exists f, In f (detect_evil_twin networks) /\
               twin_networks f = [a; b] /\ twin_severity f = high) /\
  (forall f n, In f (detect_evil_twin networks) -> In n (twin_networks f) ->
     exists s, ssid n = Val s /\ s <> "") /\
  (2 * length (all_pairs networks) = length networks * (length networks - 1))%nat /\
  detect_evil_twin [ap_A; ap_B; ap_C] = [make_twin "X" ap_A ap_B].
Proof.
  pose proof (detect_evil_twin_pairs networks) as Hperm.
  assert (forall f, In f (detect_evil_twin networks) ->
     twin_type f = evil_twin /\ twin_severity f = high /\
     exists a b, In (a, b) (all_pairs networks) /\ is_twin_pair a b /\
                 twin_networks f = [a; b] /\ ssid a = Val (twin_ssid f)) as Hall.
  { intros f Hf. apply (Permutation_in _ Hperm) in Hf.
    unfold twins_of in Hf. apply in_map_iff in Hf as ([a b] & <- & Hp).
    apply List.filter_In in Hp as [Hin Hp].
    split; [done|]. split; [done|]. exists a, b.
    pose proof Hp as Hp'. apply twin_pair_spec in Hp' as [(s & Hs & Ha & Hb) _].
    repeat split; try done; try by apply twin_pair_spec.
    cbn. assert (truthy_ssid a = Some s) as -> by (by apply truthy_ssid_spec). done. }
  split; [done|]. split.
  { rewrite (Permutation_length Hperm). unfold twins_of. by rewrite length_map. }
  split; [done|]. split.
  { intros a b Hin Hp. exists (twin_finding_of (a, b)). split; [|done].
    apply (Permutation_in _ (Permutation_sym Hperm)). unfold twins_of.
    apply in_map, List.filter_In. split; [done | by apply twin_pair_spec]. }
  split; [|split; [apply all_pairs_length | by vm_compute]].
  intros f n Hf Hn. apply Hall in Hf as (_ & _ & a & b & _ & Hp & Hnet & _).
  destruct Hp as [(s & Hs & Ha & Hb) _]. rewrite Hnet in Hn.
  exists s. destruct Hn as [<-|[<-|[]]]; done.
Qed.

(** C4: on the example, the input with A before B and the input with B
    before A each give one finding, of the same kind, severity, SSID and
    description, implicating the same two records. *)
Theorem detect_evil_twin_swap :
  exists f g,
    detect_evil_twin [ap_A; ap_B; ap_C] = [f] /\
    detect_evil_twin [ap_B; ap_A; ap_C] = [g] /\
    same_finding f g.
Proof.
  eexists _, _. split; [by vm_compute|]. split; [by vm_compute|].
  repeat split. apply perm_swap.
Qed.

(** The two findings list the pair in the order of the input. *)
Lemma detect_evil_twin_swap_order :
  map twin_networks (detect_evil_twin [ap_A; ap_B; ap_C]) = [[ap_A; ap_B]] /\
  map twin_networks (detect_evil_twin [ap_B; ap_A; ap_C]) = [[ap_B; ap_A]].
Proof. by vm_compute. Qed.

End EvilTwin.

(** ** Channel utilization *)

Section Channels.
Import NetworkAnalytics Reference.

Lemma recommend_tagged score : tagged score (recommend score).
Proof.
  unfold recommend, tagged.
  destruct (Qltb score 20) eqn:H1; [by apply Qltb_lt|].
  destruct (Qltb score 50) eqn:H2; [split; [by apply Qltb_ge | by apply Qltb_lt]|].
  by apply Qltb_ge.
Qed.

Lemma congestion_level_for utilization :
  exists level, _calculate_congestion_level utilization = Ok level /\
                congestion_for (map snd utilization) level.
Proof.
  destruct utilization as [|item rest]; [by exists congestion_none|].
  unfold _calculate_congestion_level, mean. cbn [map]. cbv iota. cbn [rbind].
  set (counts := snd item :: map snd rest).
  assert (counts <> []) as Hne by done.
  change (inject_Z (sumZ counts) / inject_Z (len counts))%Q with (mean_of counts).
  eexists. split; [reflexivity|].
  destruct (Qltb (mean_of counts) 2) eqn:H1; [split; [done | by apply Qltb_lt]|].
  apply Qltb_ge in H1.
  destruct (Qltb (mean_of counts) 5) eqn:H2; [repeat split; [done.. | by apply Qltb_lt]|].
  apply Qltb_ge in H2.
  destruct (Qltb (mean_of counts) 10) eqn:H3; [repeat split; [done.. | by apply Qltb_lt]|].
  apply Qltb_ge in H3. done.
Qed.

Lemma for_each_optimal items :
  Forall (fun item : string * interference => exists c, fst item = str c) items ->
  exists os, for_each optimal_entry items = Ok os /\ Forall2 optimal_for items os.
Proof.
  induction 1 as [|item items [c Hc] _ (os & Hos & Hall)]; [by exists []|].
  cbn [for_each]. unfold optimal_entry at 1. rewrite Hc, int_str. cbn [rbind].
  rewrite Hos. cbn [rbind]. eexists. split; [reflexivity|].
  constructor; [|done]. repeat split; cbn; [done|]. apply recommend_tagged.
Qed.

Lemma channel_key_on c n :
  c <> 0 -> bool_decide (channel_key n = Some (str c)) = on_channel c n.
Proof.
  intros Hc. unfold channel_key, truthy_channel, on_channel.
  destruct (channel n) as [c'|]; [|done].
  destruct (Z.eqb_spec c' 0) as [->|Hc'].
  - rewrite !bool_decide_eq_false_2; [done | congruence | done].
  - destruct (decide (c' = c)) as [->|Hne].
    + by rewrite !bool_decide_eq_true_2.
    + rewrite !bool_decide_eq_false_2; [done | congruence |].
      intros [= H]. by apply str_inj in H.
Qed.

Lemma channel_key_has n : bool_decide (is_Some (channel_key n)) = has_channel n.
Proof.
  unfold channel_key, truthy_channel, has_channel.
  destruct (channel n) as [c|].
  - destruct (Z.eqb_spec c 0) as [->|Hc].
    + rewrite (bool_decide_eq_false_2 (0 <> 0)) by (intros H; by apply H).
      apply bool_decide_eq_false_2. by intros [? ?].
    + by rewrite !bool_decide_eq_true_2.
  - apply bool_decide_eq_false_2. by intros [? ?].
Qed.

Lemma channel_key_str n k :
  channel_key n = Some k -> exists c, c <> 0 /\ k = str c /\ channel n = Some c.
Proof.
  unfold channel_key, truthy_channel. destruct (channel n) as [c|]; [|done].
  destruct (Z.eqb_spec c 0); [done|]. intros [= <-]. by exists c.
Qed.

Lemma filter_ext_bool {A} (f g : A -> bool) l :
  (forall x, f x = g x) -> List.filter f l = List.filter g l.
Proof. intros H. apply List.filter_ext. done. Qed.

Lemma group_by_channel_get c networks :
  c <> 0 ->
  dict_get (str c) (group_by_channel networks) =
  match List.filter (on_channel c) networks with
  | [] => None
  | nets => Some nets
  end.
Proof.
  intros Hc. unfold group_by_channel. rewrite group_by_get.
  by rewrite (filter_ext_bool _ (on_channel c)) by (intros n; by apply channel_key_on).
Qed.

Lemma group_by_channel_keys k nets networks :
  In (k, nets) (group_by_channel networks) ->
  exists c, c <> 0 /\ k = str c /\ nets = List.filter (on_channel c) networks /\ nets <> [].
Proof.
  intros Hin. apply group_by_In in Hin as [Hnets Hne].
  destruct nets as [|n nets]; [done|].
  assert (In n (List.filter (fun n => bool_decide (channel_key n = Some k)) networks)) as Hn.
  { rewrite <- Hnets. by left. }
  apply List.filter_In in Hn as [_ Hn]. apply bool_decide_eq_true in Hn.
  apply channel_key_str in Hn as (c & Hc & -> & _). exists c.
  split; [done|]. split; [done|]. split; [|done].
  rewrite Hnets. apply filter_ext_bool. intros x. by apply channel_key_on.
Qed.

Lemma total_signal_abs nets : total_signal nets = abs_signals nets.
Proof. reflexivity. Qed.

Lemma take_drop_sorted {A} (key : A -> Q) (n : nat) (l : list A) :
  Permutation l (take n (sorted key l) ++ drop n (sorted key l)) /\
  StronglySorted (by_key key) (take n (sorted key l)) /\
  (forall x y, In x (take n (sorted key l)) -> In y (drop n (sorted key l)) ->
               (key x <= key y)%Q).
Proof.
  pose proof (sorted_sorted key l) as Hs.
  rewrite <- (take_drop n (sorted key l)) in Hs at 1.
  apply StronglySorted_app in Hs as (Hcross & Hs1 & _).
  split; [by rewrite take_drop, sorted_perm|]. split; [done|].
  intros x y Hx Hy. apply Hcross; by apply list_elem_of_In.
Qed.

(** C7: [analyze_channel_utilization] always returns a report, in which
    every channel other than 0 that some record is on has one entry with the
    count of its records and the interference score
    min(100, count*10 + (sum of absolute signals)/10), and no other channel
    has an entry; [optimal_channels] reports the first five (all, when
    there are fewer) of the entries in ascending order of score, no entry
    left out scoring lower, with the channel number, the score, the count
    and the tag excellent (score < 20), good (< 50) or poor; the congestion
    level follows the mean count per occupied channel (< 2 low, < 5
    moderate, < 10 high, else severe, none without occupied channel); the
    counts {1:1, 6:1, 11:1} give low and {1:6, 6:6, 11:6} give high. *)
Theorem analyze_channel_utilization_spec (networks : list network) :
  exists r, analyze_channel_utilization networks = Ok r /\
  (forall c, c <> 0 ->
     match List.filter (on_channel c) networks with
     | [] => dict_get (str c) (utilization r) = None /\
             dict_get (str c) (interference_map r) = None
     | nets =>
         dict_get (str c) (utilization r) = Some (len nets) /\
         exists e, dict_get (str c) (interference_map r) = Some e /\
                   network_count e = len nets /\
                   total_signal_power e = abs_signals nets /\
                   interference_score e = interference_of nets
     end) /\
  NoDup (map fst (utilization r)) /\
  map fst (interference_map r) = map fst (utilization r) /\
  (forall k, In k (map fst (utilization r)) -> exists c, c <> 0 /\ k = str c) /\
  (exists chosen rest,
     Permutation (interference_map r) (chosen ++ rest) /\
     length chosen = Nat.min 5 (length (interference_map r)) /\
     Forall2 optimal_for chosen (optimal_channels r) /\
     StronglySorted score_le (optimal_channels r) /\
     (forall x y, In x chosen -> In y rest ->
        (interference_score (snd x) <= interference_score (snd y))%Q)) /\
  congestion_for (map snd (utilization r)) (congestion_level r) /\
  sumZ (map snd (utilization r)) = len (List.filter has_channel networks) /\
  _calculate_congestion_level [("1", 1); ("6", 1); ("11", 1)] = Ok congestion_low /\
  _calculate_congestion_level [("1", 6); ("6", 6); ("11", 6)] = Ok congestion_high.
Proof.
  unfold analyze_channel_utilization.
  set (channel_data := group_by_channel networks).
  set (util := map (fun item : string * list network => (fst item, len (snd item))) channel_data).
  set (imap := map (fun item : string * list network =>
                      (fst item, channel_interference (snd item))) channel_data).
  set (score := fun item : string * interference => interference_score (snd item)).
  assert (map fst util = map fst channel_data) as Hkeys_u.
  { unfold util. rewrite map_map. done. }
  assert (map fst imap = map fst channel_data) as Hkeys_i.
  { unfold imap. rewrite map_map. done. }
  assert (forall k, In k (map fst channel_data) -> exists c, c <> 0 /\ k = str c) as Hstr.
  { intros k Hk. apply in_map_iff in Hk as ([k' nets] & <- & Hin).
    apply group_by_channel_keys in Hin as (c & Hc & -> & _). by exists c. }
  destruct (take_drop_sorted score 5 imap) as (Hperm & Hsorted & Hcross).
  destruct (for_each_optimal (take 5 (sorted score imap))) as (os & Hos & Hall).
  { apply List.Forall_forall. intros item Hitem.
    assert (In item imap) as Hin.
    { eapply Permutation_in; [symmetry; apply Hperm|]. apply in_or_app. by left. }
    destruct (Hstr (fst item)) as (c & _ & Hc); [|by exists c].
    rewrite <- Hkeys_i. by apply in_map. }
  destruct (congestion_level_for util) as (level & Hlevel & Hcong).
  unfold _find_optimal_channels. fold score. rewrite Hos, Hlevel. cbn [rbind].
  eexists. split; [reflexivity|].
  cbn [utilization interference_map optimal_channels congestion_level].
  split.
  { intros c Hc. unfold util, imap. rewrite !dict_get_map.
    unfold channel_data. rewrite group_by_channel_get by done.
    destruct (List.filter (on_channel c) networks) as [|n nets]; [done|].
    split; [done|]. eexists. split; [reflexivity|]. done. }
  split; [rewrite Hkeys_u; apply group_by_NoDup|].
  split; [congruence|].
  split; [by rewrite Hkeys_u|].
  split.
  { exists (take 5 (sorted score imap)), (drop 5 (sorted score imap)).
    split; [done|]. split.
    { rewrite length_take. by rewrite (Permutation_length (sorted_perm score imap)). }
    split; [done|]. split; [|done].
    clear Hos Hperm Hcross. induction Hall as [|item o items os' [_ [Ho _]] Hall IH];
      [constructor|].
    apply StronglySorted_inv in Hsorted as [Hs Hfa]. constructor; [by apply IH|].
    clear IH Hs. induction Hall as [|item' o' items' os'' [_ [Ho' _]] Hall' IH']; [constructor|].
    apply Forall_cons in Hfa as [H1 H2]. constructor; [|by apply IH'].
    unfold score_le. rewrite Ho, Ho'. done. }
  split; [done|]. split; [|by vm_compute].
  unfold util. rewrite map_map. cbn [snd]. unfold channel_data, group_by_channel.
  rewrite group_by_sizes. f_equal. apply filter_ext_bool, channel_key_has.
Qed.

End Channels.

(** ** Beacon upserts *)

Section Beacons.
Import WiFiScanner Reference.

Lemma step_other b self packet ts :
  addr3 packet <> Some b ->
  networks (process_beacon_frame self packet ts) !! b = networks self !! b.
Proof.
  intros Hne. unfold process_beacon_frame.
  destruct (addr3 packet) as [b'|]; [|done].
  destruct (String.eqb b' ""); [done|].
  assert (b' <> b) by congruence.
  destruct (networks self !! b'); cbn; by rewrite lookup_insert_ne.
Qed.

Lemma step_new b self packet ts :
  b <> "" -> addr3 packet = Some b -> networks self !! b = None ->
  networks (process_beacon_frame self packet ts) !! b =
  Some (new_network b (info packet) (get (Channel packet) 0)
                    (get (dBm_AntSignal packet) (-100)) ts).
Proof.
  intros Hb Ha Hn. unfold process_beacon_frame. rewrite Ha.
  apply String.eqb_neq in Hb. rewrite Hb, Hn. cbn. by rewrite lookup_insert_eq.
Qed.

Lemma step_update b self packet ts r :
  b <> "" -> addr3 packet = Some b -> networks self !! b = Some r ->
  networks (process_beacon_frame self packet ts) !! b =
  Some (update_network r (info packet) (get (dBm_AntSignal packet) (-100)) ts).
Proof.
  intros Hb Ha Hn. unfold process_beacon_frame. rewrite Ha.
  apply String.eqb_neq in Hb. rewrite Hb, Hn. cbn. by rewrite lookup_insert_eq.
Qed.

Lemma update_evolves r ssid sig ts :
  last_seen r <= ts -> evolves 1 r (update_network r ssid sig ts).
Proof.
  intros Hts. split; cbn; try done.
  intros Hs. apply String.eqb_neq in Hs. rewrite Hs. by rewrite andb_false_r.
Qed.

Lemma evolves_trans j k r1 r2 r3 :
  evolves j r1 r2 -> evolves k r2 r3 -> evolves (j + k) r1 r3.
Proof.
  intros [] []. split; try congruence; try lia.
  intros Hs. rewrite evolves_ssid1; rewrite evolves_ssid0; done.
Qed.

Lemma upserts_cons b f frames :
  upserts b (f :: frames) = (if is_for b f then 1 else 0) + upserts b frames.
Proof.
  unfold upserts, len. cbn [List.filter]. destruct (is_for b f); cbn [length]; lia.
Qed.

Lemma upserts_app b l1 l2 : upserts b (l1 ++ l2) = upserts b l1 + upserts b l2.
Proof. unfold upserts, len. rewrite List.filter_app, length_app. lia. Qed.

Lemma upserts_nonneg b frames : 0 <= upserts b frames.
Proof. unfold upserts, len. lia. Qed.

Lemma process_known b frames : forall self r,
  b <> "" -> networks self !! b = Some r ->
  StronglySorted Z.le (last_seen r :: map snd frames) ->
  exists r', networks (process_all self frames) !! b = Some r' /\
             evolves (upserts b frames) r r' /\
             In (last_seen r') (last_seen r :: map snd frames).
Proof.
  induction frames as [|[packet ts] frames IH]; intros self r Hb Hr Hs.
  - exists r. split; [done|]. split; [|by left]. split; try done; try lia.
    change (upserts b []) with 0. lia.
  - cbn [process_all fold_left fst snd]. rewrite upserts_cons. unfold is_for. cbn [fst].
    apply StronglySorted_inv in Hs as [Hs Hall]. cbn [map snd] in Hs, Hall.
    apply Forall_cons in Hall as [Hts Hall].
    destruct (decide (addr3 packet = Some b)) as [Ha|Ha].
    + rewrite bool_decide_eq_true_2 by done.
      destruct (IH (process_beacon_frame self packet ts)
                   (update_network r (info packet) (get (dBm_AntSignal packet) (-100)) ts))
        as (r' & Hr' & Hev & Hin); [done | by apply step_update | done |].
      exists r'. split; [done|]. split; [|by right].
      eapply evolves_trans; [by apply update_evolves | done].
    + rewrite bool_decide_eq_false_2 by done.
      destruct (IH (process_beacon_frame self packet ts) r)
        as (r' & Hr' & Hev & Hin); [done | by rewrite step_other | |].
      { apply StronglySorted_inv in Hs as [Hs _]. by constructor. }
      exists r'. split; [done|]. split; [done|].
      destruct Hin as [Hin|Hin]; [by left | by right; right].
Qed.

Lemma process_unknown b frames : forall self,
  b <> "" -> networks self !! b = None -> upserts b frames = 0 ->
  networks (process_all self frames) !! b = None.
Proof.
  induction frames as [|[packet ts] frames IH]; intros self Hb Hn Hk; [done|].
  rewrite upserts_cons in Hk. pose proof (upserts_nonneg b frames).
  unfold is_for in Hk. cbn [fst] in Hk.
  destruct (decide (addr3 packet = Some b)) as [Ha|Ha].
  - rewrite bool_decide_eq_true_2 in Hk by done. lia.
  - cbn [process_all fold_left fst snd]. apply IH; [done | by rewrite step_other | ].
    rewrite bool_decide_eq_false_2 in Hk by done. lia.
Qed.

Lemma process_first b frames : forall self,
  b <> "" -> networks self !! b = None ->
  StronglySorted Z.le (map snd frames) -> 0 < upserts b frames ->
  exists r, networks (process_all self frames) !! b = Some r /\
            ap_bssid r = b /\ beacon_count r = upserts b frames /\
            first_seen r <= last_seen r /\ In (last_seen r) (map snd frames).
Proof.
  induction frames as [|[packet ts] frames IH]; intros self Hb Hn Hs Hk.
  - change (upserts b []) with 0 in Hk. lia.
  - rewrite upserts_cons in *. unfold is_for in *. cbn [fst] in *.
    cbn [process_all fold_left fst snd]. cbn [map snd] in Hs.
    destruct (decide (addr3 packet = Some b)) as [Ha|Ha].
    + rewrite bool_decide_eq_true_2 in * by done.
      destruct (process_known b frames (process_beacon_frame self packet ts)
                  (new_network b (info packet) (get (Channel packet) 0)
                               (get (dBm_AntSignal packet) (-100)) ts))
        as (r & Hr & [H1 H2 H3 H4 _] & Hin); [done | by apply step_new | done |].
      exists r. split; [done|]. cbn in H1, H2, H3, H4.
      repeat split; [done | lia | lia | done].
    + rewrite bool_decide_eq_false_2 in * by done.
      apply StronglySorted_inv in Hs as [Hs _].
      destruct (IH (process_beacon_frame self packet ts)) as (r & Hr & H1 & H2 & H3 & Hin);
        [done | by rewrite step_other | done | lia |].
      exists r. split; [done|]. repeat split; [done | lia | done | by right].
Qed.

Lemma process_all_app self l1 l2 :
  process_all self (l1 ++ l2) = process_all (process_all self l1) l2.
Proof. unfold process_all. by rewrite fold_left_app. Qed.

(** C5: take any capture with non-decreasing timestamps, applied to a store
    that does not know the BSSID [b] yet, and look at the record of [b] at
    two moments, after [before] (which holds at least one beacon of [b]) and
    after [before ++ after]: each time the beacon count is the number of
    beacon upserts applied for [b] so far, the BSSID field is [b],
    first-seen has not moved and is at most last-seen, last-seen has not
    gone back, and an SSID that was non-empty at the first moment is
    unchanged at the second (so it is filled in at most once and never
    reverts to empty). *)
Theorem beacon_upserts (b : string) (self : WiFiScanner.t) (before after : list (beacon * Z)) :
  b <> "" ->
  networks self !! b = None ->
  Sorted Z.le (map snd (before ++ after)) ->
  0 < upserts b before ->
  exists r1 r2,
    networks (process_all self before) !! b = Some r1 /\
    networks (process_all self (before ++ after)) !! b = Some r2 /\
    beacon_count r1 = upserts b before /\
    beacon_count r2 = upserts b (before ++ after) /\
    ap_bssid r1 = b /\ ap_bssid r2 = b /\
    first_seen r2 = first_seen r1 /\
    first_seen r1 <= last_seen r1 /\
    last_seen r1 <= last_seen r2 /\
    (ap_ssid r1 <> "" -> ap_ssid r2 = ap_ssid r1).
Proof.
  intros Hb Hn Hs Hk.
  apply Sorted_StronglySorted in Hs; [|intros x y z; apply Z.le_trans].
  rewrite map_app in Hs. apply StronglySorted_app in Hs as (Hcross & Hs1 & Hs2).
  destruct (process_first b before self) as (r1 & Hr1 & Hb1 & Hc1 & Hf1 & Hin);
    [done..|].
  destruct (process_known b after (process_all self before) r1)
    as (r2 & Hr2 & [H1 H2 H3 H4 H5] & _); [done | done | |].
  { constructor; [done|]. apply List.Forall_forall. intros y Hy.
    apply Hcross; by apply list_elem_of_In. }
  exists r1, r2. rewrite process_all_app, upserts_app.
  repeat split; try done; congruence.
Qed.

Lemma beacon_upserts_witness :
  exists r1 r2,
    networks (process_all (init "wlan0") capture_before) !! example_bssid = Some r1 /\
    networks (process_all (init "wlan0") (capture_before ++ capture_after)) !! example_bssid
      = Some r2 /\
    beacon_count r1 = upserts example_bssid capture_before /\
    beacon_count r2 = upserts example_bssid (capture_before ++ capture_after) /\
    ap_bssid r1 = example_bssid /\ ap_bssid r2 = example_bssid /\
    first_seen r2 = first_seen r1 /\
    first_seen r1 <= last_seen r1 /\
    last_seen r1 <= last_seen r2 /\
    (ap_ssid r1 <> "" -> ap_ssid r2 = ap_ssid r1).
Proof.
  apply (beacon_upserts example_bssid (init "wlan0") capture_before capture_after).
  - discriminate.
  - reflexivity.
  - repeat constructor; cbn; lia.
  - reflexivity.
Defined.

End Beacons.

(** ** The scan lifecycle *)

Section Lifecycle.
Import WiFiScanner Reference.

Example running_scanner_state :
  scanning running_scanner = true /\
  WiFiInterface.monitor_mode (wifi_interface running_scanner) = true /\
  adapter_mode monitoring = "monitor" /\
  size (networks running_scanner) = 2%nat.
Proof. by vm_compute. Qed.

(** C9 (as amended): while a scan is active, [start_monitor_scan] returns
    failure and leaves the scanner (networks, clients, packet counter, start
    time, current channel, interface object) and the adapter exactly as they
    were; when no scan is running, [WiFiScanner.stop_scan] returns without a
    value, changing nothing and issuing no command to the adapter, and the
    [/scan/stop] route answers with success false and status 400 ("No scan
    in progress"), again changing nothing. *)
Theorem scan_guards (M : os_model) (channels : option (list Z)) (now : Z)
    (running idle : WiFiScanner.t) (w : os M) :
  scanning running = true ->
  scanning idle = false ->
  start_monitor_scan M channels now running w = (false, running, w) /\
  stop_scan M idle w = (idle, w) /\
  WifiApi.stop_scan M (Some idle) w = (no_scan_in_progress, Some idle, w) /\
  WifiApi.stop_scan M None w = (no_scan_in_progress, None, w).
Proof.
  intros Hrun Hidle. unfold start_monitor_scan, stop_scan, WifiApi.stop_scan.
  rewrite Hrun, Hidle. done.
Qed.

Lemma scan_guards_witness :
  start_monitor_scan cooperative (Some [1; 6; 11]) 7 running_scanner monitoring
    = (false, running_scanner, monitoring) /\
  stop_scan cooperative (init "wlan0") monitoring = (init "wlan0", monitoring) /\
  WifiApi.stop_scan cooperative (Some (init "wlan0")) monitoring
    = (no_scan_in_progress, Some (init "wlan0"), monitoring) /\
  WifiApi.stop_scan cooperative None monitoring = (no_scan_in_progress, None, monitoring).
Proof.
  apply (scan_guards cooperative (Some [1; 6; 11]) 7 running_scanner (init "wlan0") monitoring).
  - by vm_compute.
  - reflexivity.
Defined.

(** C9, as stated, fails: the stop request with no scan running is not
    reported as a success. *)
Lemma stop_without_scan_reported_as_failure :
  ~ (WifiApi.success (fst (fst (WifiApi.stop_scan cooperative (Some (init "wlan0")) managed)))
     = true).
Proof. by vm_compute. Qed.

End Lifecycle.

(** ** Records without a channel *)

Section NoChannel.
Import NetworkAnalytics WiFiScanner Reference.

Lemma fold_group_filter {K : Type} `{EqDecision K} (key : network -> option K) l :
  forall groups,
    fold_left (group_step key) l groups =
    fold_left (group_step key)
              (List.filter (fun n => bool_decide (is_Some (key n))) l) groups.
Proof.
  induction l as [|x l IH]; intros groups; [done|].
  cbn [fold_left List.filter]. destruct (key x) as [k|] eqn:Hx.
  - rewrite bool_decide_eq_true_2 by done. cbn [fold_left]. by rewrite IH.
  - rewrite bool_decide_eq_false_2 by (by intros [? ?]).
    rewrite IH. unfold group_step at 2. by rewrite Hx.
Qed.

Lemma group_by_channel_filter networks :
  group_by_channel networks = group_by_channel (List.filter has_channel networks).
Proof.
  unfold group_by_channel, group_by. rewrite fold_group_filter. f_equal.
  apply filter_ext_bool, channel_key_has.
Qed.

Lemma filter_has_channel_nil networks :
  Forall (fun n => channel n = None \/ channel n = Some 0) networks ->
  List.filter has_channel networks = [].
Proof.
  induction 1 as [|n networks Hn _ IH]; [done|].
  cbn [List.filter]. unfold has_channel at 1.
  destruct Hn as [-> | ->]; [done|].
  by rewrite bool_decide_eq_false_2 by (intros H; by apply H).
Qed.

(** C10: records whose channel is 0 or absent have no part in the report of
    [analyze_channel_utilization]: it is the report of the input without
    them; an input made of such records only gives empty utilization and
    interference maps, no optimal channel and congestion "none"; and a
    beacon that carries no channel is stored by the scanner with channel 0,
    so its snapshot is such a record. *)
Theorem channel_zero_excluded (networks excluded : list network)
    (self : WiFiScanner.t) (packet : beacon) (timestamp : Z) (b : string) :
  Forall (fun n => channel n = None \/ channel n = Some 0) excluded ->
  b <> "" -> addr3 packet = Some b -> Channel packet = None ->
  WiFiScanner.networks self !! b = None ->
  analyze_channel_utilization networks =
    analyze_channel_utilization (List.filter has_channel networks) /\
  analyze_channel_utilization (excluded ++ networks) =
    analyze_channel_utilization networks /\
  analyze_channel_utilization excluded = Ok empty_channel_report /\
  exists r,
    WiFiScanner.networks (process_beacon_frame self packet timestamp) !! b = Some r /\
    ap_channel r = 0 /\
    analyze_channel_utilization (snapshot r :: networks) =
      analyze_channel_utilization networks.
Proof.
  intros Hex Hb Haddr Hchan Hnew.
  assert (forall l, analyze_channel_utilization l =
                    analyze_channel_utilization (List.filter has_channel l)) as Hfilter.
  { intros l. unfold analyze_channel_utilization.
    by rewrite (group_by_channel_filter l). }
  split; [apply Hfilter|]. split.
  { rewrite (Hfilter (excluded ++ networks)), (Hfilter networks).
    by rewrite List.filter_app, filter_has_channel_nil. }
  split.
  { rewrite Hfilter, filter_has_channel_nil by done. reflexivity. }
  eexists. split; [by apply step_new|]. rewrite Hchan. split; [reflexivity|].
  rewrite (Hfilter (_ :: networks)), (Hfilter networks). cbn [List.filter].
  reflexivity.
Qed.

Lemma channel_zero_excluded_witness :
  analyze_channel_utilization [on (Some 0) (-40); on (Some 6) (-50); on None (-60)] =
    analyze_channel_utilization
      (List.filter has_channel [on (Some 0) (-40); on (Some 6) (-50); on None (-60)]) /\
  analyze_channel_utilization
      ([on (Some 0) (-40); on None (-70)] ++ [on (Some 0) (-40); on (Some 6) (-50); on None (-60)]) =
    analyze_channel_utilization [on (Some 0) (-40); on (Some 6) (-50); on None (-60)] /\
  analyze_channel_utilization [on (Some 0) (-40); on None (-70)] = Ok empty_channel_report /\
  exists r,
    WiFiScanner.networks
      (process_beacon_frame (init "wlan0") (beacon_of example_bssid "Home" (Some (-50)) None) 1)
      !! example_bssid = Some r /\
    ap_channel r = 0 /\
    analyze_channel_utilization
      (snapshot r :: [on (Some 0) (-40); on (Some 6) (-50); on None (-60)]) =
      analyze_channel_utilization [on (Some 0) (-40); on (Some 6) (-50); on None (-60)].
Proof.
  apply (channel_zero_excluded [on (Some 0) (-40); on (Some 6) (-50); on None (-60)]
           [on (Some 0) (-40); on None (-70)] (init "wlan0")
           (beacon_of example_bssid "Home" (Some (-50)) None) 1 example_bssid).
  - constructor; [by right|]. constructor; [by left|]. constructor.
  - discriminate.
  - reflexivity.
  - reflexivity.
  - reflexivity.
Defined.

End NoChannel.

(** ** Security posture *)

Section Posture.
Import NetworkAnalytics Reference.

Lemma encryption_counter_snoc l x :
  encryption_counter (l ++ [x]) = count_step (encryption_counter l) x.
Proof. unfold encryption_counter. by rewrite fold_left_app. Qed.

Lemma counted_class c l : counted (encryption_counter l) c = class_count c l.
Proof.
  unfold counted, class_count, get.
  induction l as [|x l IH] using rev_ind; [done|].
  rewrite encryption_counter_snoc, filter_snoc. unfold count_step, in_class at 2.
  fold (class_of x). unfold get. fold (class_of x).
  change (match encryption x with Some v => v | None => "Unknown" end) with (class_of x).
  destruct (decide (class_of x = c)) as [<-|Hne].
  - rewrite dict_get_upsert, bool_decide_eq_true_2 by done.
    unfold len in *. rewrite length_app. cbn [length].
    destruct (dict_get (class_of x) (encryption_counter l)); lia.
  - rewrite dict_get_upsert_ne, bool_decide_eq_false_2 by done.
    by rewrite app_nil_r.
Qed.

(** The loop adds up [count * weight / total] over the counter. *)
Lemma score_loop total counts : forall acc,
  (fold_left (score_step total) counts acc ==
   acc + inject_Z (sumZ (map (fun item : string * Z => (snd item * weight_of (fst item))%Z) counts))
         / inject_Z total)%Q.
Proof.
  induction counts as [|[k c] counts IH]; intros acc; cbn [fold_left map sumZ fold_right fst snd].
  - unfold Qdiv. generalize (/ inject_Z total)%Q. intros t. change (inject_Z 0) with 0%Q. ring.
  - rewrite IH. unfold score_step. cbn [fst snd].
    rewrite inject_Z_plus, inject_Z_mult. unfold Qdiv, sumZ.
    generalize (/ inject_Z total)%Q. intros t.
    generalize (inject_Z (foldr Z.add 0 (map (fun item : string * Z => (snd item * weight_of (fst item))%Z) counts))).
    intros rest. ring.
Qed.

Lemma counter_weighted l :
  sumZ (map (fun item : string * Z => snd item * weight_of (fst item)) (encryption_counter l)) =
  weighted_sum l.
Proof.
  unfold weighted_sum.
  induction l as [|x l IH] using rev_ind; [done|].
  rewrite encryption_counter_snoc, map_app. unfold count_step.
  change (get (encryption x) "Unknown") with (class_of x).
  assert (forall l1 l2, sumZ (l1 ++ l2) = sumZ l1 + sumZ l2) as Happ.
  { intros l1 l2. induction l1 as [|a l1 IH1]; cbn; [done|]. unfold sumZ in *. rewrite IH1. lia. }
  rewrite Happ, <- IH. cbn [map sumZ fold_right].
  generalize (encryption_counter l). intros d.
  induction d as [|[k c] d IHd]; cbn [dict_upsert map sumZ fold_right fst snd]; [lia|].
  destruct (decide (k = class_of x)) as [->|Hne]; cbn [map sumZ fold_right fst snd].
  - unfold sumZ. lia.
  - unfold sumZ in *. rewrite IHd. lia.
Qed.

Lemma raw_security_score_sum networks :
  (raw_security_score networks == inject_Z (weighted_sum networks) / inject_Z (len networks))%Q.
Proof.
  unfold raw_security_score. rewrite score_loop, counter_weighted. apply Qplus_0_l.
Qed.

Lemma class_count_cons c x l :
  class_count c (x :: l) = (if in_class c x then 1 else 0) + class_count c l.
Proof.
  unfold class_count, len. cbn [List.filter]. destruct (in_class c x); cbn [length]; lia.
Qed.





Lemma round_half_even_comp x y : (x == y)%Q -> round_half_even x = round_half_even y.
Proof.
  intros Hxy. unfold round_half_even.
  rewrite (Qfloor_comp _ _ Hxy).
  assert ((x - inject_Z (Qfloor y) ?= 1 # 2) = (y - inject_Z (Qfloor y) ?= 1 # 2))%Q as ->.
  { apply Qcompare_comp; [|reflexivity]. by rewrite Hxy. }
  done.
Qed.

Lemma round1_comp x y : (x == y)%Q -> round1 x = round1 y.
Proof.
  intros Hxy. unfold round1. rewrite (round_half_even_comp (x * 10) (y * 10)); [done|].
  by rewrite Hxy.
Qed.



Lemma level_for_comp x y level : (x == y)%Q -> level_for x level -> level_for y level.
Proof. intros Hxy. unfold level_for. destruct level; by rewrite Hxy. Qed.

End Posture.

(** ** Signal statistics *)

Section Signals.
Import SignalAnalyzer Reference.

Lemma collect_signals_samples networks :
  collect_signals networks = signal_samples networks.
Proof.
  unfold signal_samples.
  induction networks as [|n networks IH]; [done|].
  cbn [collect_signals omap list_omap]. destruct (signal_strength n); cbn; by rewrite IH.
Qed.

Lemma signal_samples_nil networks :
  signal_samples networks = [] <-> Forall (fun n => signal_strength n = None) networks.
Proof.
  unfold signal_samples. induction networks as [|n networks IH]; cbn [omap list_omap].
  - split; [constructor | done].
  - destruct (signal_strength n) eqn:Hs; cbn.
    + split; [done | intros H; apply Forall_cons in H as [H _]; congruence].
    + rewrite IH. split; [by constructor | intros H; by apply Forall_cons in H as [_ H]].
Qed.

Lemma mean_ok data : data <> [] -> mean data = Ok (mean_of data).
Proof. by destruct data. Qed.

Lemma fold_min_spec rest : forall x,
  is_minimum (x :: rest) (fold_left Z.min rest x).
Proof.
  induction rest as [|y rest IH]; intros x; cbn [fold_left].
  - split; [by left | by repeat constructor].
  - destruct (IH (Z.min x y)) as [Hin Hall]. split.
    + destruct Hin as [Hin|Hin]; [|by right; right].
      rewrite <- Hin. destruct (Z.min_spec x y) as [[_ ->]|[_ ->]]; [by left | by right; left].
    + apply Forall_cons in Hall as [H1 Hall].
      constructor; [lia|]. constructor; [lia | done].
Qed.

Lemma fold_max_spec rest : forall x,
  is_maximum (x :: rest) (fold_left Z.max rest x).
Proof.
  induction rest as [|y rest IH]; intros x; cbn [fold_left].
  - split; [by left | by repeat constructor].
  - destruct (IH (Z.max x y)) as [Hin Hall]. split.
    + destruct Hin as [Hin|Hin]; [|by right; right].
      rewrite <- Hin. destruct (Z.max_spec x y) as [[_ ->]|[_ ->]]; [by right; left | by left].
    + apply Forall_cons in Hall as [H1 Hall].
      constructor; [lia|]. constructor; [lia | done].
Qed.

Lemma categorize_counts data : forall c,
  let c' := fold_left categorize data c in
  cat_excellent c' = cat_excellent c + len (List.filter (fun x => x <? 50) data) /\
  cat_good c' = cat_good c + between 50 70 data /\
  cat_fair c' = cat_fair c + between 70 85 data /\
  cat_poor c' = cat_poor c + len (List.filter (fun x => 85 <=? x) data).
Proof.
  unfold between, len.
  induction data as [|x data IH]; intros c; cbn [fold_left List.filter]; [cbn; lia|].
  destruct (IH (categorize c x)) as (H1 & H2 & H3 & H4). cbn zeta in *.
  rewrite H1, H2, H3, H4. unfold categorize.
  destruct (Z.ltb_spec x 50), (Z.ltb_spec x 70), (Z.ltb_spec x 85),
    (Z.leb_spec 50 x), (Z.leb_spec 70 x), (Z.leb_spec 85 x);
    try lia; cbn [andb cat_excellent cat_good cat_fair cat_poor length]; lia.
Qed.

Lemma sorted_Z data :
  Permutation (sorted inject_Z data) data /\ StronglySorted Z.le (sorted inject_Z data).
Proof.
  split; [apply sorted_perm|].
  pose proof (sorted_sorted inject_Z data) as Hs.
  induction Hs as [|x l Hs IH Hall]; constructor; [done|].
  eapply Forall_impl; [apply Hall|]. intros y Hy. rewrite Zle_Qle. exact Hy.
Qed.

Lemma item_ok {A : Type} (l : list A) (i : Z) :
  0 <= i < len l -> exists x, item l i = Ok x /\ l !! Z.to_nat i = Some x.
Proof.
  intros Hi. unfold item.
  destruct (lookup_lt_is_Some_2 l (Z.to_nat i)) as [x Hx]; [unfold len in Hi; lia|].
  exists x. by rewrite Hx.
Qed.

Lemma median_spec data :
  data <> [] -> exists m, median data = Ok m /\ is_median data m.
Proof.
  intros Hne. destruct (sorted_Z data) as [Hperm Hsorted].
  unfold median. set (s := sorted inject_Z data) in *.
  assert (0 < len s) as Hlen.
  { unfold len. rewrite (Permutation_length Hperm). destruct data; [done|]. cbn [length]. lia. }
  assert ((len s =? 0) = false) as -> by (apply Z.eqb_neq; lia).
  rewrite Zmod_odd. unfold is_median.
  destruct (Z.odd (len s)) eqn:Hodd.
  - change (1 =? 1) with true. cbv iota.
    destruct (item_ok s (len s / 2)) as (x & -> & Hx).
    { split; [apply Z.div_pos; lia | apply Z.div_lt_upper_bound; lia]. }
    cbn [rbind]. eexists. split; [reflexivity|].
    exists s. rewrite Hodd. split; [done|]. split; [done|]. by exists x.
  - change (0 =? 1) with false. cbv iota.
    assert (2 <= len s) as Htwo.
    { destruct (Z.eq_dec (len s) 1) as [H1|H1]; [rewrite H1 in Hodd; discriminate | lia]. }
    destruct (item_ok s (len s / 2 - 1)) as (a & -> & Ha).
    { assert (1 <= len s / 2) by (apply Z.div_le_lower_bound; lia).
      assert (len s / 2 < len s) by (apply Z.div_lt_upper_bound; lia). lia. }
    destruct (item_ok s (len s / 2)) as (b & -> & Hb).
    { split; [apply Z.div_pos; lia | apply Z.div_lt_upper_bound; lia]. }
    cbn [rbind]. eexists. split; [reflexivity|].
    exists s. rewrite Hodd. split; [done|]. split; [done|]. by exists a, b.
Qed.

Lemma stdev_ok data :
  2 <= len data -> exists d, stdev data = Ok d.
Proof.
  intros Hlen. unfold stdev, variance.
  assert ((len data <? 2) = false) as -> by (apply Z.ltb_ge; lia).
  rewrite mean_ok by (intros ->; unfold len in Hlen; cbn in Hlen; lia). cbn [rbind]. eauto.
Qed.

End Signals.

(** ** The vendor lookup *)

Section Vendor.
Import WiFiScanner Reference.

Lemma upper_lower_ascii c : upper_ascii (lower_ascii c) = upper_ascii c.
Proof. destruct c as [[] [] [] [] [] [] [] []]; reflexivity. Qed.

Lemma upper_upper_ascii c : upper_ascii (upper_ascii c) = upper_ascii c.
Proof. destruct c as [[] [] [] [] [] [] [] []]; reflexivity. Qed.

Lemma upper_lower s : upper (lower s) = upper s.
Proof. induction s as [|c s IH]; cbn; [done|]. by rewrite upper_lower_ascii, IH. Qed.

Lemma upper_upper s : upper (upper s) = upper s.
Proof. induction s as [|c s IH]; cbn; [done|]. by rewrite upper_upper_ascii, IH. Qed.

Lemma length_upper s : String.length (upper s) = String.length s.
Proof. induction s as [|c s IH]; cbn; [done|]. by rewrite IH. Qed.

Lemma length_lower s : String.length (lower s) = String.length s.
Proof. induction s as [|c s IH]; cbn; [done|]. by rewrite IH. Qed.

Lemma substring_upper n s : forall m,
  String.substring m n (upper s) = upper (String.substring m n s).
Proof.
  revert n. induction s as [|c s IH]; intros n m.
  - by destruct m, n.
  - destruct m as [|m]; cbn.
    + destruct n as [|n]; cbn; [done|]. by rewrite IH.
    + apply IH.
Qed.

Lemma substring_lower n s : forall m,
  String.substring m n (lower s) = lower (String.substring m n s).
Proof.
  revert n. induction s as [|c s IH]; intros n m.
  - by destruct m, n.
  - destruct m as [|m]; cbn.
    + destruct n as [|n]; cbn; [done|]. by rewrite IH.
    + apply IH.
Qed.

Lemma substring_prefix_length n : forall s,
  (n <= String.length s)%nat -> String.length (String.substring 0 n s) = n.
Proof.
  induction n as [|n IH]; intros s Hn.
  - by destruct s.
  - destruct s as [|c s]; cbn in *; [lia|]. rewrite IH; lia.
Qed.

Lemma substring_prefix_idem n : forall s,
  String.substring 0 n (String.substring 0 n s) = String.substring 0 n s.
Proof.
  induction n as [|n IH]; intros s.
  - by destruct s.
  - destruct s as [|c s]; cbn; [done|]. by rewrite IH.
Qed.

(** X1: [get_vendor] does not look at the case of the address nor at
    anything after its first eight characters, and an address shorter than
    eight characters (the empty one included) has the vendor "Unknown". *)
Theorem get_vendor_case_insensitive (mac : string) :
  get_vendor (upper mac) = get_vendor mac /\
  get_vendor (lower mac) = get_vendor mac /\
  get_vendor mac =
    (if (String.length mac <? 8)%nat then "Unknown"
     else get_vendor (String.substring 0 8 mac)).
Proof.
  unfold get_vendor. rewrite length_upper, length_lower.
  rewrite substring_upper, substring_lower, upper_upper, upper_lower.
  repeat split. destruct (Nat.ltb_spec (String.length mac) 8) as [Hlt|Hge]; [done|].
  rewrite substring_prefix_length by done. by rewrite substring_prefix_idem.
Qed.

End Vendor.

(** ** Packet capture *)

Section Capture.
Import WiFiScanner Reference.

Lemma sniff_app self l1 l2 : sniff self (l1 ++ l2) = sniff (sniff self l1) l2.
Proof. unfold sniff. by rewrite fold_left_app. Qed.

Lemma sniff_cons self p l :
  sniff self (p :: l) = sniff (packet_handler self (fst p) (snd p)) l.
Proof. reflexivity. Qed.

Lemma beacon_keeps self b ts :
  clients (process_beacon_frame self b ts) = clients self /\
  packets_captured (process_beacon_frame self b ts) = packets_captured self /\
  scanning (process_beacon_frame self b ts) = scanning self /\
  current_channel (process_beacon_frame self b ts) = current_channel self /\
  scan_start_time (process_beacon_frame self b ts) = scan_start_time self /\
  wifi_interface (process_beacon_frame self b ts) = wifi_interface self /\
  scan_thread (process_beacon_frame self b ts) = scan_thread self /\
  interface (process_beacon_frame self b ts) = interface self.
Proof.
  unfold process_beacon_frame. destruct (addr3 b) as [k|]; [|done].
  destruct (String.eqb k ""); [done|]. by destruct (networks self !! k).
Qed.

Lemma probe_keeps self r ts :
  networks (process_probe_request self r ts) = networks self /\
  packets_captured (process_probe_request self r ts) = packets_captured self /\
  scanning (process_probe_request self r ts) = scanning self /\
  current_channel (process_probe_request self r ts) = current_channel self /\
  scan_start_time (process_probe_request self r ts) = scan_start_time self /\
  wifi_interface (process_probe_request self r ts) = wifi_interface self /\
  scan_thread (process_probe_request self r ts) = scan_thread self /\
  interface (process_probe_request self r ts) = interface self.
Proof.
  unfold process_probe_request. destruct (addr2 r) as [k|]; [|done].
  by destruct (String.eqb k "").
Qed.

Lemma packet_handler_keeps self p ts :
  packets_captured (packet_handler self p ts) = packets_captured self + 1 /\
  scanning (packet_handler self p ts) = scanning self /\
  current_channel (packet_handler self p ts) = current_channel self /\
  scan_start_time (packet_handler self p ts) = scan_start_time self /\
  wifi_interface (packet_handler self p ts) = wifi_interface self /\
  scan_thread (packet_handler self p ts) = scan_thread self /\
  interface (packet_handler self p ts) = interface self.
Proof.
  unfold packet_handler.
  destruct p as [|[b|r| | | |]]; cbn [process_dot11_packet]; try done.
  - by destruct (beacon_keeps (count_packet self) b ts) as (_ & -> & -> & -> & -> & -> & -> & ->).
  - by destruct (probe_keeps (count_packet self) r ts) as (_ & -> & -> & -> & -> & -> & -> & ->).
Qed.

Lemma sniff_keeps (captured : list (packet * Z)) : forall self,
  packets_captured (sniff self captured) = packets_captured self + len captured /\
  scanning (sniff self captured) = scanning self /\
  current_channel (sniff self captured) = current_channel self /\
  scan_start_time (sniff self captured) = scan_start_time self /\
  wifi_interface (sniff self captured) = wifi_interface self /\
  scan_thread (sniff self captured) = scan_thread self /\
  interface (sniff self captured) = interface self.
Proof.
  induction captured as [|[p ts] captured IH]; intros self.
  - unfold len. cbn. repeat split. lia.
  - rewrite sniff_cons. cbn [fst snd].
    destruct (IH (packet_handler self p ts)) as (H1 & H2 & H3 & H4 & H5 & H6 & H7).
    destruct (packet_handler_keeps self p ts) as (G1 & G2 & G3 & G4 & G5 & G6 & G7).
    rewrite H1, H2, H3, H4, H5, H6, H7. unfold len. cbn [length].
    repeat split; try done. lia.
Qed.

Lemma beacon_networks_only self other b ts :
  networks self = networks other ->
  networks (process_beacon_frame self b ts) = networks (process_beacon_frame other b ts).
Proof.
  intros H. unfold process_beacon_frame. destruct (addr3 b) as [k|]; [|done].
  destruct (String.eqb k ""); [done|]. rewrite H.
  by destruct (networks other !! k).
Qed.

Lemma probe_clients_only self other r ts :
  clients self = clients other ->
  clients (process_probe_request self r ts) = clients (process_probe_request other r ts).
Proof.
  intros H. unfold process_probe_request. destruct (addr2 r) as [k|]; [|done].
  destruct (String.eqb k ""); [done|]. cbn. by rewrite H.
Qed.

Lemma sniff_networks captured : forall self other,
  networks self = networks other ->
  networks (sniff self captured) = networks (process_all other (beacons_of captured)).
Proof.
  induction captured as [|[p ts] captured IH]; intros self other Heq; [done|].
  rewrite sniff_cons. cbn [fst snd]. unfold beacons_of. cbn [omap list_omap fst snd].
  fold (beacons_of captured). unfold packet_handler.
  destruct p as [|[b|r| | | |]]; cbn [process_dot11_packet]; try (by apply IH).
  - unfold process_all. cbn [fold_left fst snd]. apply IH.
    by apply beacon_networks_only.
  - apply IH. by destruct (probe_keeps (count_packet self) r ts) as (-> & _).
Qed.

Lemma sniff_clients captured : forall self other,
  clients self = clients other ->
  clients (sniff self captured) = clients (process_probes other (probes_of captured)).
Proof.
  induction captured as [|[p ts] captured IH]; intros self other Heq; [done|].
  rewrite sniff_cons. cbn [fst snd]. unfold probes_of. cbn [omap list_omap fst snd].
  fold (probes_of captured). unfold packet_handler.
  destruct p as [|[b|r| | | |]]; cbn [process_dot11_packet]; try (by apply IH).
  - apply IH. by destruct (beacon_keeps (count_packet self) b ts) as (-> & _).
  - unfold process_probes. cbn [fold_left fst snd]. apply IH.
    by apply probe_clients_only.
Qed.

Lemma sniff_same_stores captured : forall self other,
  networks self = networks other -> clients self = clients other ->
  networks (sniff self captured) = networks (sniff other captured) /\
  clients (sniff self captured) = clients (sniff other captured).
Proof.
  intros self other Hn Hc.
  rewrite (sniff_networks captured self other Hn), (sniff_clients captured self other Hc).
  by rewrite (sniff_networks captured other other), (sniff_clients captured other other).
Qed.

(** X2: every captured packet is counted, whatever it is (no 802.11 layer,
    a frame subtype that is ignored, a beacon without BSSID, ...), and a
    capture changes neither the scanning flag, the current channel, the start
    time, the interface object nor the worker. *)
Theorem sniff_counts (captured : list (packet * Z)) (self : WiFiScanner.t) :
  packets_captured (sniff self captured) = packets_captured self + len captured /\
  scanning (sniff self captured) = scanning self /\
  current_channel (sniff self captured) = current_channel self /\
  scan_start_time (sniff self captured) = scan_start_time self /\
  wifi_interface (sniff self captured) = wifi_interface self /\
  scan_thread (sniff self captured) = scan_thread self /\
  interface (sniff self captured) = interface self.
Proof. apply sniff_keeps. Qed.

(** X3: the two stores are independent: the access points after a capture
    are those that its beacons alone give, in their order, and the clients
    those that its probe requests alone give; no other packet has a part. *)
Theorem sniff_stores (captured : list (packet * Z)) (self : WiFiScanner.t) :
  networks (sniff self captured) = networks (process_all self (beacons_of captured)) /\
  clients (sniff self captured) = clients (process_probes self (probes_of captured)).
Proof. split; [by apply sniff_networks | by apply sniff_clients]. Qed.

Lemma beacon_store_ok self b ts :
  map_Forall network_ok (networks self) ->
  map_Forall network_ok (networks (process_beacon_frame self b ts)).
Proof.
  intros Hok. unfold process_beacon_frame. destruct (addr3 b) as [k|]; [|done].
  destruct (String.eqb_spec k "") as [|Hk]; [done|].
  destruct (networks self !! k) as [r|] eqn:Hr; cbn; (apply map_Forall_insert_2; [|done]).
  - destruct (Hok k r Hr) as (H1 & H2 & H3 & H4 & H5 & H6).
    repeat split; cbn; try done. lia.
  - repeat split; cbn; done.
Qed.

Lemma probe_store_ok self r ts :
  map_Forall client_ok (clients self) ->
  map_Forall client_ok (clients (process_probe_request self r ts)).
Proof.
  intros Hok. unfold process_probe_request. destruct (addr2 r) as [k|]; [|done].
  destruct (String.eqb_spec k "") as [|Hk]; [done|]. cbn.
  apply map_Forall_insert_2; [|done].
  assert (client_ok k (match clients self !! k with
                       | Some c => c
                       | None => new_client k (get (probe_dBm_AntSignal r) (-100)) ts
                       end)) as (H1 & H2 & H3 & H4 & H5).
  { destruct (clients self !! k) as [c|] eqn:Hc; [by apply (Hok k c)|].
    repeat split; cbn; done. }
  repeat split; cbn; try done.
  destruct (String.eqb_spec (probe_info r) "") as [|Hi]; [done|].
  rewrite elem_of_union, elem_of_singleton. intros [Heq|Hin]; [by apply Hi | done].
Qed.

(** X4: an invariant of the stores under capture.  Every access point is
    stored under its own BSSID, which is not empty, with encryption "Open"
    (the capture never sets anything else), the vendor of its BSSID, at least
    one beacon counted and no client; every client is stored under its own
    MAC address, which is not empty, with the vendor of that address, no
    associated BSSID, and never the empty SSID among its probed SSIDs. *)
Theorem sniff_store_ok (captured : list (packet * Z)) (self : WiFiScanner.t) :
  store_ok self -> store_ok (sniff self captured).
Proof.
  revert self. induction captured as [|[p ts] captured IH]; intros self Hok; [done|].
  rewrite sniff_cons. apply IH. cbn [fst snd]. destruct Hok as [Hn Hc].
  unfold packet_handler. destruct p as [|[b|r| | | |]]; cbn [process_dot11_packet]; try done.
  - split.
    + by apply beacon_store_ok.
    + by destruct (beacon_keeps (count_packet self) b ts) as (-> & _).
  - split.
    + by destruct (probe_keeps (count_packet self) r ts) as (-> & _).
    + by apply probe_store_ok.
Qed.

Lemma sniff_store_ok_witness :
  store_ok (init "wlan0") /\ store_ok (sniff (init "wlan0") example_capture).
Proof.
  assert (store_ok (init "wlan0")) as Hinit by (split; apply map_Forall_empty).
  split; [exact Hinit | exact (sniff_store_ok example_capture (init "wlan0") Hinit)].
Defined.

Lemma process_all_identity b frames : forall self r,
  networks self !! b = Some r ->
  exists r', networks (process_all self frames) !! b = Some r' /\ same_identity r r'.
Proof.
  induction frames as [|[packet ts] frames IH]; intros self r Hr.
  - exists r. by split.
  - cbn [process_all fold_left fst snd].
    assert (exists r1, networks (process_beacon_frame self packet ts) !! b = Some r1 /\
                       same_identity r r1) as (r1 & Hr1 & [H1 H2 H3 H4 H5]).
    { unfold process_beacon_frame. destruct (addr3 packet) as [k|]; [|by exists r].
      destruct (String.eqb k ""); [by exists r|].
      destruct (decide (k = b)) as [->|Hne].
      - rewrite Hr. cbn. rewrite lookup_insert_eq. eexists. split; [done|]. by split.
      - destruct (networks self !! k); cbn; rewrite lookup_insert_ne by done; by exists r. }
    destruct (IH _ _ Hr1) as (r' & Hr' & [G1 G2 G3 G4 G5]).
    exists r'. split; [done|]. split; congruence.
Qed.

(** X5: once an access point is stored, no capture changes its channel,
    its encryption, its vendor or its first-seen time (a later beacon on
    another channel does not move it), and no capture removes it; what a
    later beacon does set is the signal strength, -100 when the beacon
    carries none, and the last-seen time. *)
Theorem channel_pinned (captured : list (packet * Z)) (self : WiFiScanner.t)
    (b : string) (r : ap_record) (last : beacon) (ts : Z) :
  networks self !! b = Some r -> b <> "" -> addr3 last = Some b ->
  exists r1 r2,
    networks (sniff self captured) !! b = Some r1 /\
    ap_channel r1 = ap_channel r /\ ap_encryption r1 = ap_encryption r /\
    ap_vendor r1 = ap_vendor r /\ first_seen r1 = first_seen r /\
    networks (sniff self (captured ++ [(Dot11 (Dot11Beacon last), ts)])) !! b = Some r2 /\
    ap_channel r2 = ap_channel r /\
    ap_signal_strength r2 = get (dBm_AntSignal last) (-100) /\
    last_seen r2 = ts.
Proof.
  intros Hr Hb Hlast.
  destruct (process_all_identity b (beacons_of captured) self r Hr)
    as (r1 & Hr1 & [H1 H2 H3 H4 H5]).
  rewrite <- (sniff_networks captured self self eq_refl) in Hr1.
  exists r1. eexists. split; [done|]. repeat (split; [done|]).
  rewrite sniff_app. cbn [sniff fold_left fst snd packet_handler process_dot11_packet].
  split.
  - rewrite (beacon_networks_only _ (sniff self captured)) by done.
    by apply step_update.
  - cbn. by rewrite H2.
Qed.

Lemma channel_pinned_witness :
  exists r1 r2,
    networks (sniff (process_all (init "wlan0") capture_before) example_capture)
      !! example_bssid = Some r1 /\
    ap_channel r1 = ap_channel example_record /\
    ap_encryption r1 = ap_encryption example_record /\
    ap_vendor r1 = ap_vendor example_record /\
    first_seen r1 = first_seen example_record /\
    networks (sniff (process_all (init "wlan0") capture_before)
                (example_capture ++
                 [(Dot11 (Dot11Beacon (beacon_of example_bssid "" None (Some 1))), 9)]))
      !! example_bssid = Some r2 /\
    ap_channel r2 = ap_channel example_record /\
    ap_signal_strength r2 =
      get (dBm_AntSignal (beacon_of example_bssid "" None (Some 1))) (-100) /\
    last_seen r2 = 9.
Proof.
  apply (channel_pinned example_capture (process_all (init "wlan0") capture_before)
           example_bssid example_record (beacon_of example_bssid "" None (Some 1)) 9).
  - by vm_compute.
  - discriminate.
  - reflexivity.
Defined.

Lemma probed_by_cons m s p ts probes :
  probed_by m s ((p, ts) :: probes) <->
  (s <> "" /\ addr2 p = Some m /\ probe_info p = s) \/ probed_by m s probes.
Proof.
  unfold probed_by. split.
  - intros [Hs (q & t & [Heq|Hin] & Hq & Hi)].
    + injection Heq as <- <-. by left.
    + right. split; [done|]. by exists q, t.
  - intros [(Hs & Hq & Hi) | [Hs (q & t & Hin & Hq & Hi)]].
    + split; [done|]. exists p, ts. split; [by left | done].
    + split; [done|]. exists q, t. split; [by right | done].
Qed.

Lemma probe_step m self p ts :
  m <> "" ->
  match clients self !! m with
  | Some c =>
      exists c', clients (process_probe_request self p ts) !! m = Some c' /\
        client_first_seen c' = client_first_seen c /\
        forall s, s ∈ probed_ssids c' <->
                  s ∈ probed_ssids c \/ (s <> "" /\ addr2 p = Some m /\ probe_info p = s)
  | None =>
      if bool_decide (addr2 p = Some m) then
        exists c', clients (process_probe_request self p ts) !! m = Some c' /\
          client_first_seen c' = ts /\
          forall s, s ∈ probed_ssids c' <-> s <> "" /\ probe_info p = s
      else clients (process_probe_request self p ts) !! m = None
  end.
Proof.
  intros Hm. unfold process_probe_request.
  destruct (addr2 p) as [k|] eqn:Hk.
  2:{ destruct (clients self !! m) as [c|] eqn:Hc.
      - exists c. split; [done|]. split; [done|]. intros s. split; [by left|].
        intros [?|(_ & ? & _)]; done.
      - by rewrite bool_decide_eq_false_2. }
  destruct (String.eqb_spec k "") as [->|Hne].
  { destruct (clients self !! m) as [c|] eqn:Hc.
    - exists c. split; [done|]. split; [done|]. intros s. split; [by left|].
      intros [?|(_ & ? & _)]; [done | congruence].
    - rewrite bool_decide_eq_false_2 by congruence. done. }
  destruct (decide (k = m)) as [->|Hkm].
  - destruct (clients self !! m) as [c|] eqn:Hc; cbn.
    + rewrite lookup_insert_eq. eexists. split; [done|]. cbn. split; [done|].
      intros s. destruct (String.eqb_spec (probe_info p) "") as [Hi|Hi].
      * split; [by left|]. intros [?|(Hs & _ & Heq)]; [done | congruence].
      * rewrite elem_of_union, elem_of_singleton. split.
        -- intros [->|?]; [right | by left]. done.
        -- intros [?|(_ & _ & <-)]; [by right | by left].
    + rewrite bool_decide_eq_true_2 by done. rewrite lookup_insert_eq.
      eexists. split; [done|]. cbn. split; [done|].
      intros s. destruct (String.eqb_spec (probe_info p) "") as [Hi|Hi].
      * split; [intros Hin; by apply elem_of_empty in Hin | intros [Hs Heq]; congruence].
      * rewrite elem_of_union, elem_of_singleton. split.
        -- intros [->|Hin]; [done | by apply elem_of_empty in Hin].
        -- intros [_ <-]. by left.
  - cbn. rewrite lookup_insert_ne by done.
    destruct (clients self !! m) as [c|] eqn:Hc.
    + exists c. split; [done|]. split; [done|]. intros s. split; [by left|].
      intros [?|(_ & ? & _)]; [done | congruence].
    + by rewrite bool_decide_eq_false_2 by congruence.
Qed.

Lemma probes_known m probes : forall self c,
  m <> "" -> clients self !! m = Some c ->
  exists c', clients (process_probes self probes) !! m = Some c' /\
    client_first_seen c' = client_first_seen c /\
    forall s, s ∈ probed_ssids c' <-> s ∈ probed_ssids c \/ probed_by m s probes.
Proof.
  induction probes as [|[p ts] probes IH]; intros self c Hm Hc.
  - exists c. split; [done|]. split; [done|]. intros s. split; [by left|].
    intros [?|[_ (? & ? & [] & _)]]; done.
  - pose proof (probe_step m self p ts Hm) as Hstep. rewrite Hc in Hstep.
    destruct Hstep as (c1 & Hc1 & Hf1 & Hs1).
    destruct (IH _ _ Hm Hc1) as (c' & Hc' & Hf' & Hs').
    exists c'. split; [done|]. split; [congruence|].
    intros s. rewrite Hs', Hs1, probed_by_cons. tauto.
Qed.

(** X6: for a client that the store does not know yet, the probed SSIDs
    after a capture are exactly the non-empty SSIDs that the client's probe
    requests of the capture asked for; and the client is missing from the
    store afterwards only if the capture holds no probe request of it. *)
Theorem probed_ssids_exact (captured : list (packet * Z)) (self : WiFiScanner.t) (m : string) :
  m <> "" -> clients self !! m = None ->
  match clients (sniff self captured) !! m with
  | Some c => forall s, s ∈ probed_ssids c <-> probed_by m s (probes_of captured)
  | None => Forall (fun p => addr2 (fst p) <> Some m) (probes_of captured)
  end.
Proof.
  intros Hm. rewrite (sniff_clients captured self self eq_refl).
  generalize (probes_of captured). intros probes. revert self.
  induction probes as [|[p ts] probes IH]; intros self Hc.
  - cbn. rewrite Hc. constructor.
  - pose proof (probe_step m self p ts Hm) as Hstep. rewrite Hc in Hstep.
    unfold process_probes. cbn [fold_left fst snd].
    fold (process_probes (process_probe_request self p ts) probes).
    destruct (decide (addr2 p = Some m)) as [Hp|Hp].
    + rewrite bool_decide_eq_true_2 in Hstep by done.
      destruct Hstep as (c1 & Hc1 & _ & Hs1).
      destruct (probes_known m probes _ _ Hm Hc1) as (c' & -> & _ & Hs').
      intros s. rewrite Hs', Hs1, probed_by_cons. tauto.
    + rewrite bool_decide_eq_false_2 in Hstep by done.
      specialize (IH _ Hstep).
      destruct (clients (process_probes (process_probe_request self p ts) probes) !! m).
      * intros s. rewrite IH, probed_by_cons. tauto.
      * by constructor.
Qed.

Lemma probed_ssids_exact_witness :
  match clients (sniff (init "wlan0") example_capture) !! example_client with
  | Some c => forall s, s ∈ probed_ssids c <->
                        probed_by example_client s (probes_of example_capture)
  | None => Forall (fun p => addr2 (fst p) <> Some example_client)
                   (probes_of example_capture)
  end.
Proof.
  apply (probed_ssids_exact example_capture (init "wlan0") example_client).
  - discriminate.
  - reflexivity.
Defined.

Lemma insert_sizes {A : Type} (k : string) (x : A) (m : gmap string A) :
  (size m <= size (<[k:=x]> m) <= size m + 1)%nat /\
  (forall j, is_Some (m !! j) -> is_Some (<[k:=x]> m !! j)).
Proof.
  split.
  - rewrite map_size_insert. destruct (m !! k); cbn; lia.
  - intros j Hj. apply lookup_insert_is_Some. destruct (decide (k = j)); [by left | by right].
Qed.

Lemma packet_handler_sizes self p ts :
  (size (networks self) <= size (networks (packet_handler self p ts)))%nat /\
  (size (clients self) <= size (clients (packet_handler self p ts)))%nat /\
  (size (networks (packet_handler self p ts)) + size (clients (packet_handler self p ts))
     <= size (networks self) + size (clients self) + 1)%nat /\
  (forall b, is_Some (networks self !! b) ->
             is_Some (networks (packet_handler self p ts) !! b)) /\
  (forall m, is_Some (clients self !! m) ->
             is_Some (clients (packet_handler self p ts) !! m)).
Proof.
  unfold packet_handler.
  destruct p as [|[b|r| | | |]]; cbn [process_dot11_packet];
    try (cbn; repeat split; try done; lia).
  - destruct (beacon_keeps (count_packet self) b ts) as (-> & _).
    unfold process_beacon_frame. cbn [networks clients count_packet].
    destruct (addr3 b) as [k|]; [|cbn; repeat split; try done; lia].
    destruct (String.eqb k ""); [cbn; repeat split; try done; lia|].
    destruct (networks self !! k) as [r|] eqn:Hr; cbn;
      match goal with
      | |- context [size (<[k:=?x]> (networks self))] =>
          destruct (insert_sizes k x (networks self)) as [Hsz Hkeep]
      end; repeat split; try done; lia.
  - destruct (probe_keeps (count_packet self) r ts) as (-> & _).
    unfold process_probe_request. cbn [networks clients count_packet].
    destruct (addr2 r) as [k|]; [|cbn; repeat split; try done; lia].
    destruct (String.eqb k ""); [cbn; repeat split; try done; lia|]. cbn.
    match goal with
    | |- context [size (<[k:=?x]> (clients self))] =>
        destruct (insert_sizes k x (clients self)) as [Hsz Hkeep]
    end; repeat split; try done; lia.
Qed.

(** X7: what [get_scan_results] reports under ['scan_info'] after a
    capture.  The packet counter has grown by the number of packets; no
    access point and no client has left its store, so [networks_found] and
    [clients_found] have not gone down; and together they have grown by at
    most the number of packets, each packet adding one record at most. *)
Theorem scan_info_after_capture (captured : list (packet * Z)) (self : WiFiScanner.t) :
  info_packets_captured (scan_info (sniff self captured))
    = info_packets_captured (scan_info self) + len captured /\
  (forall b, is_Some (networks self !! b) -> is_Some (networks (sniff self captured) !! b)) /\
  (forall m, is_Some (clients self !! m) -> is_Some (clients (sniff self captured) !! m)) /\
  networks_found (scan_info self) <= networks_found (scan_info (sniff self captured)) /\
  clients_found (scan_info self) <= clients_found (scan_info (sniff self captured)) /\
  networks_found (scan_info (sniff self captured)) +
    clients_found (scan_info (sniff self captured))
    <= networks_found (scan_info self) + clients_found (scan_info self) + len captured.
Proof.
  split; [apply sniff_keeps|]. unfold scan_info. cbn [networks_found clients_found].
  revert self. induction captured as [|[p ts] captured IH]; intros self.
  - unfold len. cbn. repeat split; try done; lia.
  - rewrite sniff_cons. cbn [fst snd].
    destruct (IH (packet_handler self p ts)) as (H1 & H2 & H3 & H4 & H5).
    destruct (packet_handler_sizes self p ts) as (G1 & G2 & G3 & G4 & G5).
    unfold len in *. cbn [length].
    split; [intros b Hb; by apply H1, G4|]. split; [intros m Hm; by apply H2, G5|].
    lia.
Qed.

End Capture.

(** ** The scan worker *)

Section Worker.
Import WiFiScanner Reference.

Lemma plan_lookup (channels : list Z) (i : Z) :
  channels <> [] -> exists c, channels !! Z.to_nat (i mod len channels) = Some c.
Proof.
  intros Hne. apply lookup_lt_is_Some_2.
  assert (0 < len channels) as Hlen.
  { unfold len. destruct channels; [done|]. cbn [length]. lia. }
  pose proof (Z.mod_pos_bound i (len channels) Hlen). unfold len in *. lia.
Qed.

Lemma set_channel_keeps M c self w :
  exists ok self' w', set_channel M c self w = (ok, self', w') /\
    networks self' = networks self /\ clients self' = clients self /\
    packets_captured self' = packets_captured self /\
    scanning self' = scanning self /\
    (current_channel self' = if ok then c else current_channel self) /\
    ok = snd (run M (iw_set_channel c) w).
Proof.
  unfold set_channel. destruct (run M (iw_set_channel c) w) as [w' ok].
  destruct ok; eexists _, _, _; (split; [reflexivity|]); by repeat split.
Qed.

(** X8: while the scanning flag stays set, the worker makes one pass per
    dwell, and hopping channels has no part in what is stored: the stores
    are those of one capture of all the dwells in a row, every packet of
    every dwell is counted, the flag is still set, the channel is the one
    the scanner started on or one of the plan; [channel_index] has advanced
    by the number of passes, unless the plan is empty, in which case it has
    not moved and no command reached the adapter. *)
Theorem worker_stores (M : os_model) (channels : list Z) (dwells : list (list (packet * Z)))
    (channel_index : Z) (self : WiFiScanner.t) (w : os M) :
  scanning self = true ->
  exists index' self' w',
    _monitor_scan_worker M channels channel_index dwells self w = (index', self', w') /\
    networks self' = networks (sniff self (concat dwells)) /\
    clients self' = clients (sniff self (concat dwells)) /\
    packets_captured self' = packets_captured self + len (concat dwells) /\
    scanning self' = true /\
    index' = channel_index + (if channels is [] then 0 else len dwells) /\
    (current_channel self' = current_channel self \/ In (current_channel self') channels) /\
    (channels = [] -> w' = w /\ current_channel self' = current_channel self).
Proof.
  revert channel_index self w.
  induction dwells as [|captured dwells IH]; intros idx self w Hscan.
  - eexists _, _, _. split; [reflexivity|]. cbn [concat]. unfold len. cbn.
    repeat split; try done; try lia; try (by left). destruct channels; lia.
  - cbn [_monitor_scan_worker]. rewrite Hscan. cbn [negb].
    destruct channels as [|c0 channels'] eqn:Hch.
    + destruct (sniff_keeps captured self) as (Hp & Hs & Hcur & _).
      destruct (IH idx (sniff self captured) w)
        as (i' & s' & w' & -> & Hn & Hc & Hpk & Hsc & Hi & Hcc & Hw); [congruence|].
      eexists _, _, _. split; [reflexivity|]. cbn [concat]. rewrite sniff_app.
      unfold len in *. rewrite length_app.
      destruct (Hw eq_refl) as [-> Hcur'].
      repeat split; try done; try lia.
    + rewrite <- Hch in *.
      destruct (plan_lookup channels idx) as [c Hlook]; [by rewrite Hch|]. rewrite Hlook.
      destruct (set_channel_keeps M c self w)
        as (ok & s1 & w1 & -> & Hn1 & Hc1 & Hp1 & Hs1 & Hcur1 & _).
      destruct (sniff_keeps captured s1) as (Hp & Hs & Hcur & _).
      destruct (sniff_same_stores captured s1 self Hn1 Hc1) as [Hn2 Hc2].
      destruct (IH (idx + 1) (sniff s1 captured) w1)
        as (i' & s' & w' & -> & Hn & Hc & Hpk & Hsc & Hi & Hcc & Hw); [congruence|].
      eexists _, _, _. split; [reflexivity|]. cbn [concat]. rewrite !sniff_app.
      unfold len in *. rewrite length_app.
      destruct (sniff_same_stores (concat dwells) (sniff s1 captured) (sniff self captured)
                  Hn2 Hc2) as [Hn3 Hc3].
      split; [congruence|]. split; [congruence|]. split; [lia|]. split; [done|].
      split; [rewrite Hi; cbn [length]; lia|]. split; [|by rewrite Hch].
      destruct Hcc as [Hcc|Hcc]; [|by right]. rewrite Hcc, Hcur, Hcur1.
      destruct ok; [right | by left].
      by eapply list_elem_of_In, list_elem_of_lookup_2.
Qed.

Lemma worker_stores_witness :
  exists index' self' w',
    _monitor_scan_worker plain [1; 6; 11] 0 [example_capture; []; example_capture]
      started_scanner "monitor" = (index', self', w') /\
    networks self' =
      networks (sniff started_scanner (concat [example_capture; []; example_capture])) /\
    clients self' =
      clients (sniff started_scanner (concat [example_capture; []; example_capture])) /\
    packets_captured self' =
      packets_captured started_scanner +
      len (concat [example_capture; []; example_capture]) /\
    scanning self' = true /\
    index' = 0 + (if [1; 6; 11] is [] then 0
                  else len [example_capture; []; example_capture]) /\
    (current_channel self' = current_channel started_scanner \/
     In (current_channel self') [1; 6; 11]) /\
    ([1; 6; 11] = [] -> w' = "monitor" /\
       current_channel self' = current_channel started_scanner).
Proof.
  apply (worker_stores plain [1; 6; 11] [example_capture; []; example_capture] 0
           started_scanner "monitor").
  reflexivity.
Defined.

(** X9: on an adapter that never refuses a channel, with a non-empty plan,
    the worker hops round-robin: after its passes the current channel is the
    entry of the plan at the index of the last pass, modulo the length of
    the plan. *)
Theorem worker_hops (M : os_model) (channels : list Z) (dwells : list (list (packet * Z)))
    (channel_index : Z) (self : WiFiScanner.t) (w : os M) :
  channel_always_set M -> scanning self = true -> channels <> [] -> dwells <> [] ->
  exists index' self' w',
    _monitor_scan_worker M channels channel_index dwells self w = (index', self', w') /\
    channels !! Z.to_nat ((channel_index + len dwells - 1) mod len channels)
      = Some (current_channel self').
Proof.
  intros Hset. revert channel_index self w.
  induction dwells as [|captured dwells IH]; intros idx self w Hscan Hch Hdw; [done|].
  cbn [_monitor_scan_worker]. rewrite Hscan. cbn [negb].
  destruct channels as [|c0 channels'] eqn:Heq; [done|]. rewrite <- Heq in *.
  destruct (plan_lookup channels idx) as [c Hlook]; [done|]. rewrite Hlook.
  destruct (set_channel_keeps M c self w)
    as (ok & s1 & w1 & -> & _ & _ & _ & Hs1 & Hcur1 & Hok).
  rewrite Hset in Hok. subst ok.
  destruct (sniff_keeps captured s1) as (_ & Hs & Hcur & _).
  destruct dwells as [|d dwells].
  - cbn [_monitor_scan_worker]. eexists _, _, _. split; [reflexivity|].
    unfold len at 1. cbn [length]. replace (idx + Z.of_nat 1 - 1) with idx by lia.
    by rewrite Hcur, Hcur1.
  - destruct (IH (idx + 1) (sniff s1 captured) w1) as (i' & s' & w' & -> & Hlast);
      [congruence | done | done |].
    eexists _, _, _. split; [reflexivity|].
    rewrite <- Hlast. do 3 f_equal. unfold len. cbn [length]. lia.
Qed.

Lemma worker_hops_witness :
  exists index' self' w',
    _monitor_scan_worker plain [1; 6; 11] 0
      [example_capture; []; example_capture; []] started_scanner "monitor"
      = (index', self', w') /\
    [1; 6; 11] !! Z.to_nat ((0 + len [example_capture; []; example_capture; []] - 1)
                            mod len [1; 6; 11])
      = Some (current_channel self').
Proof.
  apply (worker_hops plain [1; 6; 11] [example_capture; []; example_capture; []] 0
           started_scanner "monitor").
  - intros c w. reflexivity.
  - reflexivity.
  - discriminate.
  - discriminate.
Defined.

End Worker.

(** ** Monitor mode and the scan, start to stop *)

Section MonitorMode.
Import WiFiScanner Reference.

(** X10: [enable_monitor_mode] on any adapter.  If it reports success the
    monitor flag is set, asking again is a no-op that reports success, and
    when the flag was set already nothing was done at all; if it reports
    failure the flag was not set before, and the mode read from the adapter
    at the start has been recorded as the original mode. *)
Theorem monitor_mode_outcome (M : os_model) (self : WiFiInterface.t) (w : os M) :
  (exists self' w', WiFiInterface.enable_monitor_mode M self w = (true, self', w') /\
     WiFiInterface.monitor_mode self' = true /\
     WiFiInterface.enable_monitor_mode M self' w' = (true, self', w') /\
     (WiFiInterface.monitor_mode self = true -> self' = self /\ w' = w)) \/
  (exists self' w', WiFiInterface.enable_monitor_mode M self w = (false, self', w') /\
     WiFiInterface.monitor_mode self = false /\
     WiFiInterface.original_mode self' = Some (current_mode M w)).
Proof.
  unfold WiFiInterface.enable_monitor_mode at 1 3.
  destruct (WiFiInterface.monitor_mode self) eqn:Hm.
  { left. exists self, w. split; [done|]. split; [done|]. split; [|done].
    unfold WiFiInterface.enable_monitor_mode. by rewrite Hm. }
  unfold WiFiInterface.get_interface_info.
  destruct (run M ip_link_set_down w) as [w1 ok1]. destruct ok1; cbn [negb].
  2:{ right. eexists _, _. split; [reflexivity|]. split; [done|].
      by destruct (String.eqb (current_mode M w) "monitor"). }
  destruct (run M (iw_set_type "monitor") w1) as [w2 ok2]. destruct ok2; cbn [negb].
  2:{ right. eexists _, _. split; [reflexivity|]. split; [done|].
      by destruct (String.eqb (current_mode M w) "monitor"). }
  destruct (run M ip_link_set_up w2) as [w3 ok3]. destruct ok3; cbn [negb].
  2:{ right. eexists _, _. split; [reflexivity|]. split; [done|].
      by destruct (String.eqb (current_mode M w) "monitor"). }
  destruct (String.eqb (current_mode M w3) "monitor") eqn:Hmode.
  - left. eexists _, _. split; [reflexivity|]. split; [done|]. split; [|done].
    unfold WiFiInterface.enable_monitor_mode. done.
  - right. eexists _, _. split; [reflexivity|]. split; [done|].
    by destruct (String.eqb (current_mode M w) "monitor").
Qed.

Lemma enable_cases (M : os_model) (self : WiFiInterface.t) (w : os M) :
  exists ok self' w', WiFiInterface.enable_monitor_mode M self w = (ok, self', w') /\
    (ok = true -> WiFiInterface.monitor_mode self' = true).
Proof.
  unfold WiFiInterface.enable_monitor_mode, WiFiInterface.get_interface_info.
  destruct (WiFiInterface.monitor_mode self) eqn:Hm; [by eexists _, _, _|].
  destruct (run M ip_link_set_down w) as [w1 []]; cbn [negb]; [|by eexists _, _, _].
  destruct (run M (iw_set_type "monitor") w1) as [w2 []]; cbn [negb]; [|by eexists _, _, _].
  destruct (run M ip_link_set_up w2) as [w3 []]; cbn [negb]; [|by eexists _, _, _].
  destruct (String.eqb (current_mode M w3) "monitor"); by eexists _, _, _.
Qed.

(** X11: [start_monitor_scan] when no scan is running.  Either it reports
    success, and then the scan starts clean: the flag is set, both stores
    are empty, the packet counter is 0, the start time is now, the worker
    has the given plan (the 2.4 GHz channels followed by the 5 GHz ones when
    none is given) and the adapter object is in monitor mode; or it reports
    failure, and then the flag is still clear and the stores, the counter,
    the start time and the worker are untouched.  The current channel is
    kept either way. *)
Theorem start_monitor_scan_outcome (M : os_model) (channels : option (list Z)) (now : Z)
    (self : WiFiScanner.t) (w : os M) :
  scanning self = false ->
  (exists self' w', start_monitor_scan M channels now self w = (true, self', w') /\
     scanning self' = true /\ networks self' = ∅ /\ clients self' = ∅ /\
     packets_captured self' = 0 /\ scan_start_time self' = Some now /\
     scan_thread self' = Some (default (channels_2_4ghz ++ channels_5ghz) channels) /\
     WiFiInterface.monitor_mode (wifi_interface self') = true /\
     current_channel self' = current_channel self) \/
  (exists self' w', start_monitor_scan M channels now self w = (false, self', w') /\
     scanning self' = false /\ networks self' = networks self /\
     clients self' = clients self /\ packets_captured self' = packets_captured self /\
     scan_start_time self' = scan_start_time self /\ scan_thread self' = scan_thread self /\
     current_channel self' = current_channel self).
Proof.
  intros Hscan. unfold start_monitor_scan. rewrite Hscan.
  destruct (enable_cases M (wifi_interface self) w) as (ok & i' & w' & -> & Hflag).
  destruct ok; cbn [negb].
  - left. eexists _, _. split; [reflexivity|]. cbn.
    repeat split; try done; by apply Hflag.
  - right. eexists _, _. split; [reflexivity|]. cbn. by repeat split.
Qed.

Lemma start_monitor_scan_outcome_witness :
  (exists self' w',
     start_monitor_scan cooperative None 3
       (sniff (init "wlan0") example_capture) managed = (true, self', w') /\
     scanning self' = true /\ networks self' = ∅ /\ clients self' = ∅ /\
     packets_captured self' = 0 /\ scan_start_time self' = Some 3 /\
     scan_thread self' = Some (default (channels_2_4ghz ++ channels_5ghz) None) /\
     WiFiInterface.monitor_mode (wifi_interface self') = true /\
     current_channel self' = current_channel (sniff (init "wlan0") example_capture)) \/
  (exists self' w',
     start_monitor_scan cooperative None 3
       (sniff (init "wlan0") example_capture) managed = (false, self', w') /\
     scanning self' = false /\
     networks self' = networks (sniff (init "wlan0") example_capture) /\
     clients self' = clients (sniff (init "wlan0") example_capture) /\
     packets_captured self' = packets_captured (sniff (init "wlan0") example_capture) /\
     scan_start_time self' = scan_start_time (sniff (init "wlan0") example_capture) /\
     scan_thread self' = scan_thread (sniff (init "wlan0") example_capture) /\
     current_channel self' = current_channel (sniff (init "wlan0") example_capture)).
Proof.
  apply (start_monitor_scan_outcome cooperative None 3
           (sniff (init "wlan0") example_capture) managed).
  reflexivity.
Defined.

(** X12: [stop_scan] while a scan is running, on any adapter.  The
    scanning flag is cleared even when the adapter refuses to leave monitor
    mode; the stores, the packet counter and the start time are kept; the
    adapter object is either out of monitor mode, or unchanged because a
    command failed; and a second [stop_scan] does nothing. *)
Theorem stop_scan_outcome (M : os_model) (self : WiFiScanner.t) (w : os M) :
  scanning self = true ->
  exists self' w',
    stop_scan M self w = (self', w') /\
    scanning self' = false /\
    networks self' = networks self /\ clients self' = clients self /\
    packets_captured self' = packets_captured self /\
    scan_start_time self' = scan_start_time self /\
    current_channel self' = current_channel self /\
    (WiFiInterface.monitor_mode (wifi_interface self') = false \/
     wifi_interface self' = wifi_interface self) /\
    stop_scan M self' w' = (self', w').
Proof.
  intros Hscan. unfold stop_scan at 1. rewrite Hscan. cbn [negb].
  assert (exists ok i' w', WiFiInterface.disable_monitor_mode M (wifi_interface self) w
                           = (ok, i', w') /\
            (WiFiInterface.monitor_mode i' = false \/ i' = wifi_interface self))
    as (ok & i' & w' & -> & Hi).
  { unfold WiFiInterface.disable_monitor_mode.
    destruct (WiFiInterface.monitor_mode (wifi_interface self)) eqn:Hm; cbn [negb].
    2:{ eexists _, _, _. split; [reflexivity | by left]. }
    destruct (run M ip_link_set_down w) as [w1 ok1]. destruct ok1; cbn [negb].
    2:{ eexists _, _, _. split; [reflexivity | by right]. }
    destruct (run M (iw_set_type _) w1) as [w2 ok2]. destruct ok2; cbn [negb].
    2:{ eexists _, _, _. split; [reflexivity | by right]. }
    destruct (run M ip_link_set_up w2) as [w3 ok3]. destruct ok3; cbn [negb].
    2:{ eexists _, _, _. split; [reflexivity | by right]. }
    eexists _, _, _. split; [reflexivity | by left]. }
  eexists _, _. split; [reflexivity|]. cbn. repeat split; try done.
Qed.

Lemma stop_scan_outcome_witness :
  exists self' w',
    stop_scan cooperative running_scanner monitoring = (self', w') /\
    scanning self' = false /\
    networks self' = networks running_scanner /\ clients self' = clients running_scanner /\
    packets_captured self' = packets_captured running_scanner /\
    scan_start_time self' = scan_start_time running_scanner /\
    current_channel self' = current_channel running_scanner /\
    (WiFiInterface.monitor_mode (wifi_interface self') = false \/
     wifi_interface self' = wifi_interface running_scanner) /\
    stop_scan cooperative self' w' = (self', w').
Proof.
  apply (stop_scan_outcome cooperative running_scanner monitoring). by vm_compute.
Defined.



(** X14: the [/scan/stop] route answers with success exactly when there is
    a scanner and it is scanning, with status 200 then and 400 otherwise; a
    refused request changes nothing; after any request no scan is running,
    so that a second request is always refused and changes nothing. *)
Theorem stop_route_twice (M : os_model) (scanner : option WiFiScanner.t) (w : os M) :
  exists resp scanner' w',
    WifiApi.stop_scan M scanner w = (resp, scanner', w') /\
    (WifiApi.success resp = true <-> exists s, scanner = Some s /\ scanning s = true) /\
    (resp = scan_stopped \/ resp = no_scan_in_progress) /\
    (WifiApi.success resp = false -> scanner' = scanner /\ w' = w) /\
    (forall s', scanner' = Some s' -> scanning s' = false) /\
    (is_Some scanner' <-> is_Some scanner) /\
    WifiApi.stop_scan M scanner' w' = (no_scan_in_progress, scanner', w').
Proof.
  unfold WifiApi.stop_scan at 1.
  destruct scanner as [s|].
  2:{ exists no_scan_in_progress, None, w. split; [reflexivity|].
      split; [split; [cbn; discriminate | intros (s & [=] & _)]|].
      split; [by right|]. split; [done|]. split; [intros s' [=]|]. split; [done|].
      reflexivity. }
  destruct (scanning s) eqn:Hs.
  - unfold stop_scan. rewrite Hs. cbn [negb].
    destruct (WiFiInterface.disable_monitor_mode M (wifi_interface s) w) as [[ok i'] w'].
    eexists _, _, _. split; [reflexivity|].
    split; [split; [intros _; by exists s | done]|].
    split; [by left|]. split; [cbn; discriminate|].
    split; [intros s' [= <-]; done|]. split; [split; eauto|].
    reflexivity.
  - eexists _, _, _. split; [reflexivity|].
    split; [split; [cbn; discriminate | intros (s' & [= <-] & Hs'); congruence]|].
    split; [by right|]. split; [done|]. split; [intros s' [= <-]; done|].
    split; [done|]. unfold WifiApi.stop_scan. by rewrite Hs.
Qed.

End MonitorMode.

(** ** The analyzers together *)

Section Comprehensive.
Import ThreatDetector Reference AdvancedWiFiAnalyzer.

Lemma hidden_ssid_spec n : hidden_ssid n = true <-> ssid n = NoneVal.
Proof. unfold hidden_ssid. by destruct (ssid n). Qed.

Lemma rogue_finding_of_ok n f :
  rogue_finding_of n = Some f ->
  4 <= rogue_score f <= 8 /\
  (2 <= length (rogue_reasons f) <= 4)%nat /\
  (rogue_severity f = high <-> 6 <= rogue_score f) /\
  (rogue_severity f = medium <-> rogue_score f < 6) /\
  rogue_type f = rogue_ap /\
  rogue_network f = n.
Proof.
  unfold rogue_finding_of, rogue_score_of, rogue_reasons_of, points, reason.
  destruct (open_signal n), (vendor_signal n), (strength_signal n),
    (ssid_signal (lower (ssid_text n))); cbn; intros [= <-]; cbn;
    repeat split; try done; try lia.
Qed.

Lemma detect_rogue_ap_hidden networks :
  existsb hidden_ssid networks = true -> detect_rogue_ap networks = Raise AttributeError.
Proof.
  intros Hh. apply detect_rogue_ap_raises.
  apply existsb_exists in Hh as (n & Hin & Hn). apply List.Exists_exists.
  exists n. split; [done | by apply hidden_ssid_spec].
Qed.

Lemma detect_rogue_ap_visible networks :
  existsb hidden_ssid networks = false ->
  detect_rogue_ap networks = Ok (omap rogue_finding_of networks).
Proof.
  intros Hh. apply detect_rogue_ap_score.
  apply List.Forall_forall. intros n Hin Hn.
  assert (existsb hidden_ssid networks = true); [|congruence].
  apply existsb_exists. exists n. split; [done | by apply hidden_ssid_spec].
Qed.

Lemma rogue_findings_ok networks :
  Forall (rogue_finding_ok networks) (omap rogue_finding_of networks).
Proof.
  apply List.Forall_forall. intros f Hf.
  apply list_elem_of_In, list_elem_of_omap in Hf as (n & Hin & Hn).
  destruct (rogue_finding_of_ok n f Hn) as (H1 & H2 & H3 & H4 & H5 & H6).
  repeat split; try tauto; try lia. rewrite H6. by apply list_elem_of_In.
Qed.

Lemma rogue_findings_sublist networks :
  sublist (map rogue_network (omap rogue_finding_of networks)) networks.
Proof.
  induction networks as [|n networks IH]; [done|].
  cbn [omap list_omap]. destruct (rogue_finding_of n) as [f|] eqn:Hf; cbn.
  - destruct (rogue_finding_of_ok n f Hf) as (_ & _ & _ & _ & _ & ->).
    by apply sublist_skip.
  - by apply sublist_cons.
Qed.

Lemma analyze_channel_utilization_ok networks :
  exists os level,
    let channel_data := NetworkAnalytics.group_by_channel networks in
    let util := map (fun item : string * list network => (fst item, len (snd item)))
                    channel_data in
    let imap := map (fun item : string * list network =>
                       (fst item, NetworkAnalytics.channel_interference (snd item)))
                    channel_data in
    NetworkAnalytics.analyze_channel_utilization networks =
      Ok {| NetworkAnalytics.utilization := util;
            NetworkAnalytics.interference_map := imap;
            NetworkAnalytics.optimal_channels := os;
            NetworkAnalytics.congestion_level := level |} /\
    Forall2 optimal_for
      (take 5 (sorted (fun item : string * NetworkAnalytics.interference =>
                         NetworkAnalytics.interference_score (snd item)) imap)) os /\
    congestion_for (map snd util) level.
Proof.
  unfold NetworkAnalytics.analyze_channel_utilization.
  set (channel_data := NetworkAnalytics.group_by_channel networks).
  set (util := map (fun item : string * list network => (fst item, len (snd item)))
                   channel_data).
  set (imap := map (fun item : string * list network =>
                      (fst item, NetworkAnalytics.channel_interference (snd item)))
                   channel_data).
  set (score := fun item : string * NetworkAnalytics.interference =>
                  NetworkAnalytics.interference_score (snd item)).
  destruct (take_drop_sorted score 5 imap) as (Hperm & _ & _).
  destruct (for_each_optimal (take 5 (sorted score imap))) as (os & Hos & Hall).
  { apply List.Forall_forall. intros item Hitem.
    assert (In item imap) as Hin.
    { eapply Permutation_in; [symmetry; apply Hperm|]. apply in_or_app. by left. }
    unfold imap in Hin. apply in_map_iff in Hin as ([k nets] & <- & Hin).
    apply group_by_channel_keys in Hin as (c & _ & -> & _). by exists c. }
  unfold NetworkAnalytics._find_optimal_channels. fold score. rewrite Hos. cbn [rbind].
  destruct (congestion_level_for util) as (lv & -> & Hlv). cbn [rbind].
  exists os, lv. by cbv zeta.
Qed.

Lemma analyze_signal_patterns_ok networks :
  match signal_samples networks with
  | [] => SignalAnalyzer.analyze_signal_patterns networks =
            Ok (SignalAnalyzer.SignalError "No signal data available")
  | data =>
      exists a, SignalAnalyzer.analyze_signal_patterns networks =
                  Ok (SignalAnalyzer.SignalAnalysis a) /\
        SignalAnalyzer._assess_signal_quality data = Ok (SignalAnalyzer.quality_assessment a)
  end.
Proof.
  unfold SignalAnalyzer.analyze_signal_patterns. rewrite collect_signals_samples.
  destruct (signal_samples networks) as [|x rest] eqn:Hdata; [done|].
  set (data := x :: rest) in *.
  assert (data <> []) as Hne by done.
  rewrite mean_ok by done. cbn [rbind].
  destruct (median_spec data Hne) as (m & -> & _). cbn [rbind].
  unfold SignalAnalyzer.minimum, SignalAnalyzer.maximum. subst data. cbn [rbind].
  set (data := x :: rest) in *.
  destruct (SignalAnalyzer._assess_signal_quality data) as [q|e] eqn:Hq.
  2:{ unfold SignalAnalyzer._assess_signal_quality in Hq.
      rewrite mean_ok in Hq by done. done. }
  cbn [rbind].
  destruct (Z.ltb_spec 1 (len data)) as [Hlen|Hlen].
  - destruct (stdev_ok data) as [d ->]; [lia|]. cbn [rbind]. eauto.
  - cbn [rbind]. eauto.
Qed.

Lemma perform_comprehensive_analysis_ok networks :
  networks <> [] -> existsb hidden_ssid networks = false ->
  exists channel signal,
    NetworkAnalytics.analyze_channel_utilization networks = Ok channel /\
    SignalAnalyzer.analyze_signal_patterns networks = Ok signal /\
    let evil := detect_evil_twin networks in
    let rogue := omap rogue_finding_of networks in
    let threats :=
      {| evil_twins := evil; rogue_aps := rogue;
         total_threats := len evil + len rogue;
         threat_level := _calculate_threat_level evil rogue |} in
    let security := NetworkAnalytics.analyze_security_posture networks in
    perform_comprehensive_analysis networks =
      Analysis
        {| total_networks := len networks;
           threat_analysis := Some threats; channel_analysis := Some channel;
           security_analysis := Some security; signal_analysis := Some signal;
           recommendations :=
             _generate_recommendations
               {| total_networks := len networks;
                  threat_analysis := Some threats; channel_analysis := Some channel;
                  security_analysis := Some security; signal_analysis := Some signal;
                  recommendations := []; error := None |};
           error := None |}.
Proof.
  intros Hne Hh. unfold perform_comprehensive_analysis.
  destruct networks as [|n0 rest] eqn:Heq; [done|]. rewrite <- Heq in *. clear Hne.
  rewrite detect_rogue_ap_visible by done.
  destruct (analyze_channel_utilization_ok networks) as (os & lv & Hch & _).
  cbv zeta in Hch. rewrite Hch.
  pose proof (analyze_signal_patterns_ok networks) as Hsig.
  destruct (signal_samples networks) as [|x data].
  - rewrite Hsig. eexists _, _. by repeat split.
  - destruct Hsig as (a & -> & _). eexists _, _. by repeat split.
Qed.



(** Both kinds of report: the ten records of the score example give one
    without an error; with the hidden open network in front the report has
    the error only. *)
Example comprehensive_report_kinds :
  (exists r, perform_comprehensive_analysis ten_networks = Analysis r /\ error r = None) /\
  (exists r, perform_comprehensive_analysis (hidden_open :: ten_networks) = Analysis r /\
             error r = Some AttributeError /\ threat_analysis r = None).
Proof. split; eexists; (split; [by vm_compute|]); by vm_compute. Qed.

Lemma twin_severity_high networks f :
  In f (detect_evil_twin networks) -> twin_severity f = high.
Proof.
  intros Hf. apply (Permutation_in _ (detect_evil_twin_pairs networks)) in Hf.
  unfold twins_of in Hf. by apply in_map_iff in Hf as (p & <- & _).
Qed.

Lemma count_high_medium (sev : list severity_t) :
  Forall (fun s => s <> low) sev ->
  len (List.filter is_high sev) + len (List.filter is_medium sev) = len sev.
Proof.
  unfold len. induction 1 as [|s sev Hs _ IH]; [done|].
  cbn [List.filter length]. destruct s; cbn [is_high is_medium length]; [done|lia|lia].
Qed.

Lemma len_nil {A : Type} (l : list A) : len l = 0 <-> l = [].
Proof. unfold len. destruct l; cbn [length]; split; try done; lia. Qed.

Lemma len_nonneg {A : Type} (l : list A) : 0 <= len l.
Proof. unfold len. lia. Qed.

Lemma detect_rogue_ap_ok networks rogue :
  detect_rogue_ap networks = Ok rogue -> rogue = omap rogue_finding_of networks.
Proof.
  intros Hr. destruct (existsb hidden_ssid networks) eqn:Hh.
  - rewrite detect_rogue_ap_hidden in Hr by done. discriminate.
  - rewrite detect_rogue_ap_visible in Hr by done. congruence.
Qed.

(** X17: the threat level of what the two detectors find.  Every evil-twin
    finding is "high" and no finding is "low", so the level is "none" exactly
    when nothing was found, "high" exactly when there is an evil twin or a
    rogue AP of score 6 or more; "medium" takes at least three rogue APs and
    "low" means one or two of them, none of score 6. *)
Theorem threat_level_of_findings (networks : list network) (rogue : list rogue_finding) :
  detect_rogue_ap networks = Ok rogue ->
  (_calculate_threat_level (detect_evil_twin networks) rogue = threat_none <->
     detect_evil_twin networks = [] /\ rogue = []) /\
  (_calculate_threat_level (detect_evil_twin networks) rogue = threat_high <->
     detect_evil_twin networks <> [] \/ Exists (fun f => 6 <= rogue_score f) rogue) /\
  (_calculate_threat_level (detect_evil_twin networks) rogue = threat_medium ->
     3 <= len rogue) /\
  (_calculate_threat_level (detect_evil_twin networks) rogue = threat_low ->
     1 <= len rogue <= 2).
Proof.
  intros Hrogue. set (evil := detect_evil_twin networks).
  pose proof (rogue_findings_ok networks) as Hok.
  rewrite <- (detect_rogue_ap_ok _ _ Hrogue) in Hok.
  assert (Forall (fun s => s = high) (map twin_severity evil)) as Hevil.
  { apply List.Forall_forall. intros s Hs. apply in_map_iff in Hs as (f & <- & Hin).
    by eapply twin_severity_high. }
  clearbody evil.
  assert (Forall (fun s => s <> low) (severities evil rogue)) as Hnolow.
  { unfold severities. apply Forall_app. split.
    - eapply Forall_impl; [apply Hevil|]. by intros s ->.
    - apply List.Forall_forall. intros s Hs. apply in_map_iff in Hs as (f & <- & Hin).
      rewrite List.Forall_forall in Hok. destruct (Hok f Hin) as (_ & _ & Hh & Hm & _).
      intros Hlow. destruct (Z.lt_ge_cases (rogue_score f) 6) as [Hlt|Hge].
      + apply Hm in Hlt. congruence.
      + apply Hh in Hge. congruence. }
  pose proof (count_high_medium _ Hnolow) as Hcount.
  assert (len (severities evil rogue) = len evil + len rogue) as Hlen.
  { unfold severities, len. rewrite length_app, !length_map. lia. }
  assert (len (List.filter is_medium (severities evil rogue)) <= len rogue) as Hmed.
  { unfold severities. rewrite List.filter_app. unfold len. rewrite length_app.
    assert (List.filter is_medium (map twin_severity evil) = []) as ->.
    { clear -Hevil. induction Hevil as [|s l -> _ IH]; [done|]. by cbn. }
    cbn [length]. pose proof (List.filter_length_le is_medium (map rogue_severity rogue)) as Hle.
    rewrite length_map in Hle. lia. }
  assert (0 < len (List.filter is_high (severities evil rogue)) <->
          evil <> [] \/ Exists (fun f => 6 <= rogue_score f) rogue) as Hhigh.
  { unfold severities. rewrite List.filter_app. unfold len. rewrite length_app.
    assert (List.filter is_high (map twin_severity evil) = map twin_severity evil) as ->.
    { clear -Hevil. induction Hevil as [|s l -> _ IH]; [done|]. cbn. by rewrite IH. }
    rewrite length_map. split.
    - intros Hpos. destruct evil as [|e evil']; [|by left]. right. cbn [length] in Hpos.
      destruct (List.filter is_high (map rogue_severity rogue)) as [|s l] eqn:Hfil;
        [cbn in Hpos; lia|].
      assert (In s (List.filter is_high (map rogue_severity rogue))) as Hs
        by (rewrite Hfil; by left).
      apply List.filter_In in Hs as [Hs Hhi]. apply in_map_iff in Hs as (f & <- & Hin).
      apply List.Exists_exists. exists f. split; [done|].
      rewrite List.Forall_forall in Hok. destruct (Hok f Hin) as (_ & _ & Hh & _).
      apply Hh. by destruct (rogue_severity f).
    - intros [Hev|Hex].
      + destruct evil; [done|]. cbn [length]. lia.
      + apply List.Exists_exists in Hex as (f & Hin & Hsc).
        rewrite List.Forall_forall in Hok. destruct (Hok f Hin) as (_ & _ & Hh & _).
        apply Hh in Hsc.
        assert (In (rogue_severity f) (List.filter is_high (map rogue_severity rogue))) as Hs.
        { apply List.filter_In. split; [by apply in_map | by rewrite Hsc]. }
        destruct (List.filter is_high (map rogue_severity rogue)); [done|].
        cbn [length]. lia. }
  pose proof (len_nonneg (List.filter is_high (severities evil rogue))) as Hnn.
  pose proof (len_nonneg (List.filter is_medium (severities evil rogue))) as Hnn'.
  pose proof (len_nonneg evil) as He.
  pose proof (len_nonneg rogue) as Hr.
  unfold _calculate_threat_level.
  destruct (Z.ltb_spec 0 (len (List.filter is_high (severities evil rogue)))) as [H1|H1].
  { apply Hhigh in H1 as Hcause.
    split; [split; [done|]|].
    - intros [He0 Hr0]. rewrite He0, Hr0 in H1. unfold len, severities in H1. cbn in H1. lia.
    - split; [done|]. split; done. }
  assert (evil = []) as Hevil0.
  { destruct (decide (evil = [])) as [|Hne]; [done|].
    assert (0 < len (List.filter is_high (severities evil rogue))); [|lia].
    apply Hhigh. by left. }
  assert (len evil = 0) as He0 by (by apply len_nil).
  destruct (Z.ltb_spec 2 (len (List.filter is_medium (severities evil rogue)))) as [H2|H2].
  { split; [split; [done|]|].
    - intros [_ Hr0]. apply len_nil in Hr0. lia.
    - split; [split; [done|]|].
      + intros Hc. apply Hhigh in Hc. lia.
      + split; [intros _; lia | done]. }
  destruct (Z.ltb_spec 0 (len (List.filter is_medium (severities evil rogue)))) as [H3|H3].
  { split; [split; [done|]|].
    - intros [_ Hr0]. apply len_nil in Hr0. lia.
    - split; [split; [done|]|].
      + intros Hc. apply Hhigh in Hc. lia.
      + split; [done | intros _; lia]. }
  split; [split; [intros _|done]|].
  - split; [done|]. apply len_nil. lia.
  - split; [split; [done|]|].
    + intros Hc. apply Hhigh in Hc. lia.
    + split; done.
Qed.

Lemma threat_level_of_findings_witness :
  detect_rogue_ap [ap_A; ap_B; ap_C] = Ok [] /\
  (_calculate_threat_level (detect_evil_twin [ap_A; ap_B; ap_C]) [] = threat_none <->
     detect_evil_twin [ap_A; ap_B; ap_C] = [] /\ @nil rogue_finding = []) /\
  (_calculate_threat_level (detect_evil_twin [ap_A; ap_B; ap_C]) [] = threat_high <->
     detect_evil_twin [ap_A; ap_B; ap_C] <> [] \/
     Exists (fun f => 6 <= rogue_score f) []) /\
  (_calculate_threat_level (detect_evil_twin [ap_A; ap_B; ap_C]) [] = threat_medium ->
     3 <= len (@nil rogue_finding)) /\
  (_calculate_threat_level (detect_evil_twin [ap_A; ap_B; ap_C]) [] = threat_low ->
     1 <= len (@nil rogue_finding) <= 2).
Proof.
  split; [reflexivity | apply (threat_level_of_findings [ap_A; ap_B; ap_C] []); reflexivity].
Defined.

Lemma app_EmptyString (s : string) : "" +:+ s = s.
Proof. reflexivity. Qed.

Lemma string_length_app (s t : string) :
  String.length (s +:+ t) = (String.length s + String.length t)%nat.
Proof.
  induction s as [|c s IH]; [done|].
  rewrite app_String. cbn [String.length]. by rewrite IH.
Qed.

Lemma string_app_inv_tail (s1 s2 t : string) : s1 +:+ t = s2 +:+ t -> s1 = s2.
Proof.
  revert s2. induction s1 as [|c s1 IH]; intros [|d s2] H; [done|..].
  - apply (f_equal String.length) in H. rewrite !string_length_app in H.
    cbn [String.length] in H. lia.
  - apply (f_equal String.length) in H. rewrite !string_length_app in H.
    cbn [String.length] in H. lia.
  - rewrite !app_String in H. injection H as -> H. f_equal. by apply IH.
Qed.

Lemma In_recommendations (x : string) (analysis : report) :
  In x (_generate_recommendations analysis) <->
  (0 < vulnerable_of (security_analysis analysis) /\
   x = "Secure " +:+ str (vulnerable_of (security_analysis analysis))
         +:+ " vulnerable networks") \/
  (congested (channel_analysis analysis) = true /\
   (x = "Consider using less congested channels" \/
    exists best, head (optimal_of (channel_analysis analysis)) = Some best /\
      x = "Channel " +:+ str (NetworkAnalytics.opt_channel best)
            +:+ " shows optimal performance")) \/
  (0 < threats_of (threat_analysis analysis) /\
   x = "Investigate detected security threats immediately") \/
  (poor_quality (signal_analysis analysis) = true /\
   x = "Consider improving AP placement for better coverage").
Proof.
  unfold _generate_recommendations. rewrite !in_app_iff.
  assert (forall (b : bool) (s : string), In x (if b then [s] else []) <-> b = true /\ x = s)
    as Hone.
  { intros [] s; cbn [In]; split; [intros [<-|[]]; done | intros [_ ->]; by left
                                  | done | intros [? _]; done]. }
  rewrite !Hone, Z.ltb_lt, Z.ltb_lt.
  assert (forall P Q R S P' Q' R' S' : Prop,
            (P <-> P') -> (Q <-> Q') -> (R <-> R') -> (S <-> S') ->
            (P \/ Q \/ R \/ S <-> P' \/ Q' \/ R' \/ S')) as Hor by tauto.
  apply Hor; [done| |done|done].
  destruct (congested (channel_analysis analysis)); [|cbn [In]; by intuition].
  destruct (optimal_of (channel_analysis analysis)) as [|best rest]; cbn [In head].
  - split; [intros [<-|[]]; by eauto|]. intros [_ [->|(best & [=] & _)]]. by left.
  - split.
    + intros [<-|[<-|[]]]; [by eauto|]. split; [done|]. right. by exists best.
    + intros [_ [->|(b & [= <-] & ->)]]; [by left | right; by left].
Qed.

Lemma vulnerable_of_posture networks :
  vulnerable_of (Some (NetworkAnalytics.analyze_security_posture networks)) =
  class_count "Open" networks + class_count "WEP" networks.
Proof.
  unfold NetworkAnalytics.analyze_security_posture, vulnerable_of.
  destruct (len networks =? 0) eqn:Hlen.
  - apply Z.eqb_eq, len_nil in Hlen. by subst.
  - cbn [NetworkAnalytics.vulnerable_networks]. by rewrite !counted_class.
Qed.

Lemma congested_spec (counts : list Z) (level : NetworkAnalytics.congestion_t) :
  congestion_for counts level ->
  match level with
  | NetworkAnalytics.congestion_high | NetworkAnalytics.congestion_severe => true
  | _ => false
  end = true <-> counts <> [] /\ (5 <= mean_of counts)%Q.
Proof.
  destruct level; cbn [congestion_for].
  - intros ->. split; [done | by intros []].
  - intros [Hne Hlt]. split; [done|]. intros [_ Hle].
    destruct (Qlt_not_le _ _ Hlt). eapply Qle_trans; [|apply Hle]. done.
  - intros (Hne & _ & Hlt). split; [done|]. intros [_ Hle]. by destruct (Qlt_not_le _ _ Hlt).
  - intros (Hne & Hle & _). done.
  - intros (Hne & Hle). split; [|done]. intros _. split; [done|].
    eapply Qle_trans; [|apply Hle]. done.
Qed.

Lemma poor_quality_spec (data : list Z) (q : SignalAnalyzer.quality_t) :
  data <> [] ->
  SignalAnalyzer._assess_signal_quality data = Ok q ->
  (q = SignalAnalyzer.excellent <-> (mean_of data < 50)%Q) /\
  (q = SignalAnalyzer.good <-> (50 <= mean_of data)%Q /\ (mean_of data < 70)%Q) /\
  (q = SignalAnalyzer.fair <-> (70 <= mean_of data)%Q /\ (mean_of data < 85)%Q) /\
  (q = SignalAnalyzer.poor <-> (85 <= mean_of data)%Q).
Proof.
  intros Hne. unfold SignalAnalyzer._assess_signal_quality.
  rewrite mean_ok by done. cbn [rbind]. intros [= <-].
  assert (forall x y z : Q, (x < y)%Q -> (z <= x)%Q -> (y <= z)%Q -> False) as Hno.
  { intros x y z Hxy Hzx Hyz. apply (Qlt_not_le _ _ Hxy). by eapply Qle_trans. }
  destruct (Qltb (mean_of data) 50) eqn:H1.
  { apply Qltb_lt in H1. repeat split; try done.
    - intros [H _]. by destruct (Qlt_not_le _ _ H1).
    - intros [H _]. destruct (Hno _ _ _ H1 H). done.
    - intros H. destruct (Hno _ _ _ H1 H). done. }
  apply Qltb_ge in H1.
  destruct (Qltb (mean_of data) 70) eqn:H2.
  { apply Qltb_lt in H2. repeat split; try done.
    - intros H. by destruct (Qlt_not_le _ _ H).
    - intros [H _]. by destruct (Qlt_not_le _ _ H2).
    - intros H. destruct (Hno _ _ _ H2 H). done. }
  apply Qltb_ge in H2.
  destruct (Qltb (mean_of data) 85) eqn:H3.
  { apply Qltb_lt in H3. repeat split; try done.
    - intros H. destruct (Hno _ _ _ H H1). done.
    - intros [_ H]. by destruct (Qlt_not_le _ _ H).
    - intros H. by destruct (Qlt_not_le _ _ H3). }
  apply Qltb_ge in H3. repeat split; try done.
  - intros H. destruct (Hno _ _ _ H H1). done.
  - intros [_ H]. destruct (Hno _ _ _ H H2). done.
  - intros [_ H]. by destruct (Qlt_not_le _ _ H).
Qed.

(** X18: the recommendations of a comprehensive analysis, read off the
    input.  "Secure k vulnerable networks" is there exactly for k the number
    of Open and WEP records, when that is positive; the congestion advice
    exactly when the mean count per occupied channel is 5 or more, and then
    always followed by the channel heading [optimal_channels]; the threat
    advice exactly when a detector found something; the placement advice
    exactly when the mean absolute signal is 85 or more; there are never
    more than five. *)
Theorem recommendations_spec (networks : list network) :
  networks <> [] -> existsb hidden_ssid networks = false ->
  exists r rogue channel,
    perform_comprehensive_analysis networks = Analysis r /\
    detect_rogue_ap networks = Ok rogue /\
    NetworkAnalytics.analyze_channel_utilization networks = Ok channel /\
    (forall k, In ("Secure " +:+ str k +:+ " vulnerable networks") (recommendations r) <->
       0 < k /\ k = class_count "Open" networks + class_count "WEP" networks) /\
    (In "Consider using less congested channels" (recommendations r) <->
       NetworkAnalytics.utilization channel <> [] /\
       (5 <= mean_of (map snd (NetworkAnalytics.utilization channel)))%Q) /\
    (forall c, In ("Channel " +:+ str c +:+ " shows optimal performance") (recommendations r) <->
       In "Consider using less congested channels" (recommendations r) /\
       exists best, head (NetworkAnalytics.optimal_channels channel) = Some best /\
                    NetworkAnalytics.opt_channel best = c) /\
    (In "Consider using less congested channels" (recommendations r) ->
       NetworkAnalytics.optimal_channels channel <> []) /\
    (In "Investigate detected security threats immediately" (recommendations r) <->
       detect_evil_twin networks <> [] \/ rogue <> []) /\
    (In "Consider improving AP placement for better coverage" (recommendations r) <->
       signal_samples networks <> [] /\ (85 <= mean_of (signal_samples networks))%Q) /\
    (length (recommendations r) <= 5)%nat.
Proof.
  intros Hne Hh.
  destruct (perform_comprehensive_analysis_ok networks Hne Hh)
    as (channel & signal & Hch & Hsig & Hr).
  cbv zeta in Hr. eexists _, _, channel. split; [exact Hr|].
  split; [by apply detect_rogue_ap_visible|]. split; [exact Hch|].
  cbn [recommendations].
  set (evil := detect_evil_twin networks) in *.
  set (rogue := omap rogue_finding_of networks) in *.
  set (analysis := {| total_networks := len networks; recommendations := [] |}).
  (* the four conditions *)
  assert (vulnerable_of (security_analysis analysis) =
          class_count "Open" networks + class_count "WEP" networks) as Hvuln
    by apply vulnerable_of_posture.
  assert (congested (channel_analysis analysis) = true <->
          NetworkAnalytics.utilization channel <> [] /\
          (5 <= mean_of (map snd (NetworkAnalytics.utilization channel)))%Q) as Hcong.
  { destruct (analyze_channel_utilization_ok networks) as (os & lv & Hch' & _ & Hlv).
    cbv zeta in Hch', Hlv. rewrite Hch in Hch'. injection Hch' as ->.
    cbn [channel_analysis analysis congested NetworkAnalytics.congestion_level
         NetworkAnalytics.utilization].
    rewrite (congested_spec _ _ Hlv). split; intros [Hu Hm]; (split; [|done]).
    - intros Hnil. by rewrite Hnil in Hu.
    - intros Hnil. by destruct (map_eq_nil _ _ Hnil). }
  assert (congested (channel_analysis analysis) = true ->
          NetworkAnalytics.optimal_channels channel <> []) as Hopt.
  { intros Hc. apply Hcong in Hc as [Hu _].
    destruct (analyze_channel_utilization_ok networks) as (os & lv & Hch' & Hall & _).
    cbv zeta in Hch', Hall. rewrite Hch in Hch'. injection Hch' as ->.
    cbn [NetworkAnalytics.optimal_channels NetworkAnalytics.utilization] in *.
    intros ->. apply Forall2_length in Hall. cbn [length] in Hall.
    rewrite length_take in Hall.
    set (score := fun item : string * NetworkAnalytics.interference =>
                    NetworkAnalytics.interference_score (snd item)) in Hall.
    rewrite (Permutation_length (sorted_perm score _)), length_map in Hall.
    destruct (NetworkAnalytics.group_by_channel networks); [done|].
    cbn [length] in Hall. lia. }
  assert (0 < threats_of (threat_analysis analysis) <-> evil <> [] \/ rogue <> []) as Hthr.
  { cbn [threat_analysis analysis threats_of total_threats].
    pose proof (len_nonneg evil). pose proof (len_nonneg rogue).
    rewrite <- !(len_nil (A := _)). lia. }
  assert (poor_quality (signal_analysis analysis) = true <->
          signal_samples networks <> [] /\ (85 <= mean_of (signal_samples networks))%Q)
    as Hpoor.
  { cbn [signal_analysis analysis poor_quality].
    pose proof (analyze_signal_patterns_ok networks) as Hs.
    destruct (signal_samples networks) as [|x data] eqn:Hdata.
    - rewrite Hsig in Hs. injection Hs as ->. split; [done | by intros []].
    - destruct Hs as (a & Ha & Hq). rewrite Hsig in Ha. injection Ha as ->.
      destruct (poor_quality_spec (x :: data) _ ltac:(done) Hq) as (_ & _ & _ & Hp).
      rewrite <- Hp. destruct (SignalAnalyzer.quality_assessment a); split; try done.
      all: by intros []. }
  set (recs := _generate_recommendations analysis).
  assert (forall x, In x recs <-> _) as Hin by (intros x; apply In_recommendations).
  assert (In "Consider using less congested channels" recs <->
          congested (channel_analysis analysis) = true) as Hadvice.
  { rewrite Hin. split.
    - intros [[_ Heq]|[[Hc _]|[[_ Heq]|[_ Heq]]]]; [|done|discriminate Heq..].
      rewrite !app_String in Heq. discriminate Heq.
    - intros Hc. right. left. split; [done | by left]. }
  split.
  { intros k. rewrite Hin, Hvuln. split.
    - intros [[Hpos Heq]|[[_ [Heq|(b & _ & Heq)]]|[[_ Heq]|[_ Heq]]]];
        rewrite !app_String in Heq; try discriminate Heq.
      injection Heq as Heq. rewrite !app_EmptyString in Heq.
      apply string_app_inv_tail, str_inj in Heq. lia.
    - intros [Hpos ->]. by left. }
  split; [by rewrite Hadvice|].
  split.
  { intros c. rewrite Hadvice, Hin. split.
    - intros [[_ Heq]|[[Hc [Heq|(b & Hb & Heq)]]|[[_ Heq]|[_ Heq]]]];
        rewrite !app_String in Heq; try discriminate Heq.
      injection Heq as Heq. rewrite !app_EmptyString in Heq.
      apply string_app_inv_tail, str_inj in Heq.
      split; [done|]. by exists b.
    - intros [Hc (b & Hb & <-)]. right. left. split; [done|]. right. by exists b. }
  split; [by rewrite Hadvice|].
  split.
  { rewrite Hin, <- Hthr. split.
    - intros [[_ Heq]|[[_ [Heq|(b & _ & Heq)]]|[[Hpos _]|[_ Heq]]]];
        [rewrite !app_String in Heq; discriminate Heq | discriminate Heq
        |rewrite !app_String in Heq; discriminate Heq | done | discriminate Heq].
    - intros Hpos. right. right. by left. }
  split.
  { rewrite Hin, <- Hpoor. split.
    - intros [[_ Heq]|[[_ [Heq|(b & _ & Heq)]]|[[_ Heq]|[Hp _]]]];
        [rewrite !app_String in Heq; discriminate Heq | discriminate Heq
        |rewrite !app_String in Heq; discriminate Heq | discriminate Heq | done].
    - intros Hp. right. right. by right. }
  unfold recs, _generate_recommendations. rewrite !length_app.
  destruct (0 <? vulnerable_of (security_analysis analysis)),
    (congested (channel_analysis analysis)),
    (optimal_of (channel_analysis analysis)),
    (0 <? threats_of (threat_analysis analysis)),
    (poor_quality (signal_analysis analysis)); cbn [length]; lia.
Qed.

Lemma recommendations_spec_witness :
  ten_networks <> [] /\ existsb hidden_ssid ten_networks = false /\
  exists r rogue channel,
    perform_comprehensive_analysis ten_networks = Analysis r /\
    detect_rogue_ap ten_networks = Ok rogue /\
    NetworkAnalytics.analyze_channel_utilization ten_networks = Ok channel /\
    (forall k, In ("Secure " +:+ str k +:+ " vulnerable networks") (recommendations r) <->
       0 < k /\ k = class_count "Open" ten_networks + class_count "WEP" ten_networks) /\
    (In "Consider using less congested channels" (recommendations r) <->
       NetworkAnalytics.utilization channel <> [] /\
       (5 <= mean_of (map snd (NetworkAnalytics.utilization channel)))%Q) /\
    (forall c, In ("Channel " +:+ str c +:+ " shows optimal performance") (recommendations r) <->
       In "Consider using less congested channels" (recommendations r) /\
       exists best, head (NetworkAnalytics.optimal_channels channel) = Some best /\
                    NetworkAnalytics.opt_channel best = c) /\
    (In "Consider using less congested channels" (recommendations r) ->
       NetworkAnalytics.optimal_channels channel <> []) /\
    (In "Investigate detected security threats immediately" (recommendations r) <->
       detect_evil_twin ten_networks <> [] \/ rogue <> []) /\
    (In "Consider improving AP placement for better coverage" (recommendations r) <->
       signal_samples ten_networks <> [] /\ (85 <= mean_of (signal_samples ten_networks))%Q) /\
    (length (recommendations r) <= 5)%nat.
Proof.
  split; [discriminate|]. split; [reflexivity|].
  apply (recommendations_spec ten_networks); [discriminate | reflexivity].
Defined.

End Comprehensive.

(** ** Rounding and ranges *)

Section Ranges.
Import ThreatDetector Reference SignalAnalyzer.

Lemma round_half_even_lower (m : Z) (y : Q) :
  (inject_Z m <= y)%Q -> m <= round_half_even y.
Proof.
  intros Hle. apply Qfloor_resp_le in Hle. rewrite Qfloor_Z in Hle.
  unfold round_half_even.
  destruct (y - inject_Z (Qfloor y) ?= 1 # 2)%Q; [destruct (Z.even (Qfloor y))|..]; lia.
Qed.

Lemma round_half_even_upper (m : Z) (y : Q) :
  (y <= inject_Z m)%Q -> round_half_even y <= m.
Proof.
  intros Hle. pose proof (Qfloor_resp_le _ _ Hle) as Hfl. rewrite Qfloor_Z in Hfl.
  unfold round_half_even.
  destruct (Z.eq_dec (Qfloor y) m) as [Heq|Hne].
  - assert ((y - inject_Z (Qfloor y) ?= 1 # 2)%Q = Lt) as ->
      by (apply (proj1 (Qlt_alt _ _)); rewrite Heq; lra).
    lia.
  - destruct (y - inject_Z (Qfloor y) ?= 1 # 2)%Q; [destruct (Z.even (Qfloor y))|..]; lia.
Qed.

Lemma round1_between (lo hi : Z) (x : Q) :
  (inject_Z lo <= x)%Q -> (x <= inject_Z hi)%Q ->
  (inject_Z lo <= round1 x)%Q /\ (round1 x <= inject_Z hi)%Q.
Proof.
  intros Hlo Hhi. unfold round1.
  assert (lo * 10 <= round_half_even (x * 10)) as H1.
  { apply round_half_even_lower. rewrite inject_Z_mult. change (inject_Z 10) with 10%Q. lra. }
  assert (round_half_even (x * 10) <= hi * 10) as H2.
  { apply round_half_even_upper. rewrite inject_Z_mult. change (inject_Z 10) with 10%Q. lra. }
  rewrite Zle_Qle, inject_Z_mult in H1, H2. change (inject_Z 10) with 10%Q in *.
  split.
  - apply Qle_shift_div_l; [done|]. exact H1.
  - apply Qle_shift_div_r; [done|]. exact H2.
Qed.

Lemma sumZ_between (lo hi : Z) (data : list Z) :
  Forall (fun x => lo <= x <= hi) data ->
  lo * len data <= sumZ data <= hi * len data.
Proof.
  unfold len. induction 1 as [|x data Hx _ IH]; [cbn; lia|].
  cbn [sumZ fold_right length]. unfold sumZ in IH. lia.
Qed.

Lemma mean_of_between (lo hi : Z) (data : list Z) :
  data <> [] -> Forall (fun x => lo <= x <= hi) data ->
  (inject_Z lo <= mean_of data)%Q /\ (mean_of data <= inject_Z hi)%Q.
Proof.
  intros Hne Hall. apply sumZ_between in Hall. unfold mean_of.
  assert (0 < len data) as Hpos.
  { pose proof (len_nonneg data). destruct (Z.eq_dec (len data) 0) as [H0|]; [|lia].
    by apply len_nil in H0. }
  assert (0 < inject_Z (len data))%Q as HposQ
    by (change 0%Q with (inject_Z 0); by rewrite <- Zlt_Qlt).
  split.
  - apply Qle_shift_div_l; [done|]. rewrite <- inject_Z_mult, <- Zle_Qle. lia.
  - apply Qle_shift_div_r; [done|]. rewrite <- inject_Z_mult, <- Zle_Qle. lia.
Qed.

Lemma median_between (lo hi : Z) (data : list Z) (m : Q) :
  Forall (fun x => lo <= x <= hi) data -> is_median data m ->
  (inject_Z lo <= m)%Q /\ (m <= inject_Z hi)%Q.
Proof.
  intros Hall (s & Hperm & _ & Hm).
  assert (forall i x, s !! i = Some x -> lo <= x <= hi) as Hin.
  { intros i x Hx. apply list_elem_of_lookup_2, list_elem_of_In in Hx.
    apply (Permutation_in _ Hperm) in Hx. rewrite List.Forall_forall in Hall. by apply Hall. }
  destruct (Z.odd (len s)).
  - destruct Hm as (x & Hx & ->). apply Hin in Hx. rewrite <- !Zle_Qle. lia.
  - destruct Hm as (a & b & Ha & Hb & ->). apply Hin in Ha, Hb.
    assert (inject_Z lo <= inject_Z a)%Q by (rewrite <- Zle_Qle; lia).
    assert (inject_Z lo <= inject_Z b)%Q by (rewrite <- Zle_Qle; lia).
    assert (inject_Z a <= inject_Z hi)%Q by (rewrite <- Zle_Qle; lia).
    assert (inject_Z b <= inject_Z hi)%Q by (rewrite <- Zle_Qle; lia).
    rewrite inject_Z_plus. split.
    + apply Qle_shift_div_l; [done|]. lra.
    + apply Qle_shift_div_r; [done|]. lra.
Qed.

Lemma analyze_signal_patterns_fields networks :
  signal_samples networks <> [] ->
  exists m lo hi q dev,
    is_median (signal_samples networks) m /\
    is_minimum (signal_samples networks) lo /\
    is_maximum (signal_samples networks) hi /\
    _assess_signal_quality (signal_samples networks) = Ok q /\
    analyze_signal_patterns networks =
      Ok (SignalAnalysis
            {| average_signal := round1 (mean_of (signal_samples networks));
               median_signal := round1 m;
               signal_range_min := lo;
               signal_range_max := hi;
               signal_distribution := _categorize_signals (signal_samples networks);
               quality_assessment := q;
               standard_deviation := dev |}).
Proof.
  intros Hne. unfold analyze_signal_patterns. rewrite collect_signals_samples.
  destruct (signal_samples networks) as [|x rest] eqn:Hdata; [done|].
  set (data := x :: rest) in *.
  rewrite mean_ok by done. cbn [rbind].
  destruct (median_spec data Hne) as (m & -> & Hm). cbn [rbind].
  unfold minimum, maximum. subst data. cbn [rbind]. set (data := x :: rest) in *.
  destruct (_assess_signal_quality data) as [q|e] eqn:Hq.
  2:{ unfold _assess_signal_quality in Hq. rewrite mean_ok in Hq by done. done. }
  cbn [rbind].
  destruct (Z.ltb_spec 1 (len data)) as [Hlen|Hlen].
  - destruct (stdev_ok data) as [d ->]; [lia|]. cbn [rbind].
    eexists m, _, _, q, _. split; [exact Hm|]. split; [apply fold_min_spec|].
    split; [apply fold_max_spec|]. by split.
  - cbn [rbind].
    eexists m, _, _, q, _. split; [exact Hm|]. split; [apply fold_min_spec|].
    split; [apply fold_max_spec|]. by split.
Qed.

(** X19: the signal report is consistent.  The quality is read off the
    unrounded mean of the absolute signals (excellent below 50, good below
    70, fair below 85, poor from 85 on), and the reported average and median
    both lie between the reported minimum and maximum, which are not
    negative. *)
Theorem signal_report_consistent (networks : list network) :
  signal_samples networks <> [] ->
  exists a, analyze_signal_patterns networks = Ok (SignalAnalysis a) /\
    (quality_assessment a = excellent <-> (mean_of (signal_samples networks) < 50)%Q) /\
    (quality_assessment a = good <->
       (50 <= mean_of (signal_samples networks))%Q /\
       (mean_of (signal_samples networks) < 70)%Q) /\
    (quality_assessment a = fair <->
       (70 <= mean_of (signal_samples networks))%Q /\
       (mean_of (signal_samples networks) < 85)%Q) /\
    (quality_assessment a = poor <-> (85 <= mean_of (signal_samples networks))%Q) /\
    0 <= signal_range_min a <= signal_range_max a /\
    (inject_Z (signal_range_min a) <= average_signal a)%Q /\
    (average_signal a <= inject_Z (signal_range_max a))%Q /\
    (inject_Z (signal_range_min a) <= median_signal a)%Q /\
    (median_signal a <= inject_Z (signal_range_max a))%Q.
Proof.
  intros Hne.
  destruct (analyze_signal_patterns_fields networks Hne)
    as (m & lo & hi & q & dev & Hm & [Hlo_in Hlo] & [Hhi_in Hhi] & Hq & ->).
  eexists. split; [reflexivity|].
  cbn [quality_assessment signal_range_min signal_range_max average_signal median_signal].
  destruct (poor_quality_spec _ _ Hne Hq) as (Q1 & Q2 & Q3 & Q4).
  split; [done|]. split; [done|]. split; [done|]. split; [done|].
  assert (Forall (fun x => lo <= x <= hi) (signal_samples networks)) as Hall.
  { rewrite List.Forall_forall in *. intros x Hx. split; [by apply Hlo | by apply Hhi]. }
  assert (0 <= lo) as Hnn.
  { unfold signal_samples in Hlo_in.
    apply list_elem_of_In, list_elem_of_omap in Hlo_in as (n & _ & Hn).
    destruct (signal_strength n); [|done]. injection Hn as <-. lia. }
  split.
  { split; [done|]. rewrite List.Forall_forall in Hall. by destruct (Hall lo Hlo_in). }
  destruct (mean_of_between lo hi _ Hne Hall) as [M1 M2].
  destruct (median_between lo hi _ m Hall Hm) as [M3 M4].
  destruct (round1_between lo hi _ M1 M2). destruct (round1_between lo hi _ M3 M4).
  done.
Qed.

Lemma signal_report_consistent_witness :
  signal_samples ten_networks <> [] /\
  exists a, analyze_signal_patterns ten_networks = Ok (SignalAnalysis a) /\
    (quality_assessment a = excellent <-> (mean_of (signal_samples ten_networks) < 50)%Q) /\
    (quality_assessment a = good <->
       (50 <= mean_of (signal_samples ten_networks))%Q /\
       (mean_of (signal_samples ten_networks) < 70)%Q) /\
    (quality_assessment a = fair <->
       (70 <= mean_of (signal_samples ten_networks))%Q /\
       (mean_of (signal_samples ten_networks) < 85)%Q) /\
    (quality_assessment a = poor <-> (85 <= mean_of (signal_samples ten_networks))%Q) /\
    0 <= signal_range_min a <= signal_range_max a /\
    (inject_Z (signal_range_min a) <= average_signal a)%Q /\
    (average_signal a <= inject_Z (signal_range_max a))%Q /\
    (inject_Z (signal_range_min a) <= median_signal a)%Q /\
    (median_signal a <= inject_Z (signal_range_max a))%Q.
Proof. split; [discriminate | apply (signal_report_consistent ten_networks); discriminate]. Defined.

End Ranges.

(** ** The security posture, beyond the score *)

Section PostureReport.
Import ThreatDetector Reference NetworkAnalytics.

Lemma encryption_counter_NoDup l : NoDup (map fst (encryption_counter l)).
Proof.
  induction l as [|x l IH] using rev_ind; [constructor|].
  rewrite encryption_counter_snoc. by apply dict_upsert_NoDup.
Qed.

Lemma class_count_snoc c l x :
  class_count c (l ++ [x]) = class_count c l + (if in_class c x then 1 else 0).
Proof.
  unfold class_count, len. rewrite filter_snoc, length_app.
  destruct (in_class c x); cbn [length]; lia.
Qed.

Lemma class_count_nonneg c l : 0 <= class_count c l.
Proof. apply len_nonneg. Qed.

Lemma encryption_counter_get c l :
  dict_get c (encryption_counter l) =
  if class_count c l =? 0 then None else Some (class_count c l).
Proof.
  induction l as [|x l IH] using rev_ind; [done|].
  rewrite encryption_counter_snoc, class_count_snoc. unfold count_step, in_class.
  change (get (encryption x) "Unknown") with (class_of x).
  pose proof (class_count_nonneg c l) as Hnn.
  destruct (decide (class_of x = c)) as [<-|Hne].
  - rewrite dict_get_upsert, IH, bool_decide_eq_true_2 by done.
    destruct (Z.eqb_spec (class_count (class_of x) l) 0) as [->|H0].
    + done.
    + destruct (Z.eqb_spec (class_count (class_of x) l + 1) 0); [lia | done].
  - rewrite dict_get_upsert_ne, IH, bool_decide_eq_false_2 by done.
    by rewrite Z.add_0_r.
Qed.

Lemma sumZ_upsert (key : string) (d : list (string * Z)) :
  sumZ (map snd (dict_upsert key (fun c => c + 1) 1 d)) = sumZ (map snd d) + 1.
Proof.
  induction d as [|[k v] d IH]; [done|].
  cbn [dict_upsert]. destruct (decide (k = key)).
  - cbn [map sumZ fold_right snd]. lia.
  - cbn [map sumZ fold_right snd]. unfold sumZ in IH. rewrite IH. lia.
Qed.

Lemma encryption_counter_total l : sumZ (map snd (encryption_counter l)) = len l.
Proof.
  induction l as [|x l IH] using rev_ind; [done|].
  rewrite encryption_counter_snoc. unfold count_step. rewrite sumZ_upsert, IH.
  unfold len. rewrite length_app. cbn [length]. lia.
Qed.

Lemma weight_of_range c : 0 <= weight_of c <= 100.
Proof.
  unfold weight_of, weights, get. cbn [dict_get].
  repeat (destruct (decide _); [lia|]). lia.
Qed.

Lemma weighted_sum_range l : 0 <= weighted_sum l <= 100 * len l.
Proof.
  unfold weighted_sum.
  assert (len l = len (map (fun n => weight_of (class_of n)) l)) as ->
    by (unfold len; by rewrite length_map).
  pose proof (sumZ_between 0 100 (map (fun n => weight_of (class_of n)) l)) as H.
  rewrite Z.mul_0_l in H. apply H.
  apply List.Forall_forall. intros w Hw. apply in_map_iff in Hw as (n & <- & _).
  apply weight_of_range.
Qed.

Lemma vulnerable_le_total l :
  class_count "Open" l + class_count "WEP" l <= len l.
Proof.
  induction l as [|x l IH]; [done|].
  rewrite !class_count_cons. unfold in_class.
  replace (len (x :: l)) with (1 + len l) by (unfold len; cbn [length]; lia).
  destruct (decide (class_of x = "Open")) as [Ho|Ho];
    destruct (decide (class_of x = "WEP")) as [Hw|Hw].
  - rewrite Ho in Hw. discriminate.
  - rewrite bool_decide_eq_true_2, bool_decide_eq_false_2 by done. lia.
  - rewrite bool_decide_eq_false_2, bool_decide_eq_true_2 by done. lia.
  - rewrite !bool_decide_eq_false_2 by done. lia.
Qed.

Lemma class_count_pos c l :
  0 < class_count c l <-> Exists (fun n => class_of n = c) l.
Proof.
  induction l as [|x l IH].
  - split; [by cbv | by intros ?%Exists_nil].
  - rewrite class_count_cons, Exists_cons. unfold in_class.
    pose proof (class_count_nonneg c l).
    destruct (decide (class_of x = c)) as [Hc|Hc].
    + rewrite bool_decide_eq_true_2 by done. split; [by left | lia].
    + rewrite bool_decide_eq_false_2 by done. rewrite Z.add_0_l, IH. tauto.
Qed.

(** X20: the rest of the security posture of a non-empty list.  The
    encryption distribution has one entry for each class that occurs (a
    missing encryption counting as "Unknown"), with the number of its
    records, and the counts add up to the total; the reported score lies
    between 0 and 100; the vulnerable networks are at most all of them; and
    each of the three recommendations is there exactly when a record of its
    class (Open, WEP, WPA) is. *)
Theorem security_posture_report (networks : list network) :
  networks <> [] ->
  exists p, analyze_security_posture networks = PostureOf p /\
    NoDup (map fst (encryption_distribution p)) /\
    (forall c, dict_get c (encryption_distribution p) =
               if class_count c networks =? 0 then None
               else Some (class_count c networks)) /\
    sumZ (map snd (encryption_distribution p)) = total_networks p /\
    (0 <= security_score p)%Q /\ (security_score p <= 100)%Q /\
    0 <= vulnerable_networks p <= total_networks p /\
    (In "Secure open networks with WPA2/WPA3" (recommendations p) <->
       Exists (fun n => class_of n = "Open") networks) /\
    (In "Upgrade WEP networks to WPA2/WPA3" (recommendations p) <->
       Exists (fun n => class_of n = "WEP") networks) /\
    (In "Upgrade WPA networks to WPA2/WPA3" (recommendations p) <->
       Exists (fun n => class_of n = "WPA") networks).
Proof.
  intros Hne. unfold analyze_security_posture.
  assert (0 < len networks) as Hpos.
  { pose proof (len_nonneg networks). destruct (Z.eq_dec (len networks) 0) as [H0|]; [|lia].
    by apply len_nil in H0. }
  assert ((len networks =? 0) = false) as -> by (apply Z.eqb_neq; lia).
  eexists. split; [reflexivity|].
  cbn [encryption_distribution total_networks security_score vulnerable_networks
       recommendations].
  split; [apply encryption_counter_NoDup|].
  split; [intros c; apply encryption_counter_get|].
  split; [apply encryption_counter_total|].
  assert (0 <= round1 (raw_security_score networks) /\
          round1 (raw_security_score networks) <= 100)%Q as [Hlo Hhi].
  { rewrite (round1_comp _ _ (raw_security_score_sum networks)).
    pose proof (weighted_sum_range networks) as [H0 H100].
    assert (0 < inject_Z (len networks))%Q
      by (change 0%Q with (inject_Z 0); by rewrite <- Zlt_Qlt).
    apply (round1_between 0 100).
    - apply Qle_shift_div_l; [done|]. rewrite <- inject_Z_mult, <- Zle_Qle. lia.
    - apply Qle_shift_div_r; [done|]. rewrite <- inject_Z_mult, <- Zle_Qle. lia. }
  split; [done|]. split; [done|].
  rewrite !counted_class.
  split.
  { pose proof (class_count_nonneg "Open" networks).
    pose proof (class_count_nonneg "WEP" networks).
    pose proof (vulnerable_le_total networks). lia. }
  unfold security_recommendations. rewrite !counted_class, <- !class_count_pos.
  destruct (Z.ltb_spec 0 (class_count "Open" networks)),
    (Z.ltb_spec 0 (class_count "WEP" networks)),
    (Z.ltb_spec 0 (class_count "WPA" networks)); cbn [app In];
    repeat split; intros; try lia; try tauto;
    repeat match goal with
           | H : _ \/ _ |- _ => destruct H
           | H : False |- _ => destruct H
           | H : _ = _ :> string |- _ => discriminate H
           end.
Qed.

Lemma security_posture_report_witness :
  three_networks <> [] /\
  exists p, analyze_security_posture three_networks = PostureOf p /\
    NoDup (map fst (encryption_distribution p)) /\
    (forall c, dict_get c (encryption_distribution p) =
               if class_count c three_networks =? 0 then None
               else Some (class_count c three_networks)) /\
    sumZ (map snd (encryption_distribution p)) = total_networks p /\
    (0 <= security_score p)%Q /\ (security_score p <= 100)%Q /\
    0 <= vulnerable_networks p <= total_networks p /\
    (In "Secure open networks with WPA2/WPA3" (recommendations p) <->
       Exists (fun n => class_of n = "Open") three_networks) /\
    (In "Upgrade WEP networks to WPA2/WPA3" (recommendations p) <->
       Exists (fun n => class_of n = "WEP") three_networks) /\
    (In "Upgrade WPA networks to WPA2/WPA3" (recommendations p) <->
       Exists (fun n => class_of n = "WPA") three_networks).
Proof. split; [discriminate | apply (security_posture_report three_networks); discriminate]. Defined.

End PostureReport.

(** ** Interference scores and tags *)

Section Interference.
Import ThreatDetector Reference NetworkAnalytics.

Lemma total_signal_nonneg nets : 0 <= total_signal nets.
Proof.
  unfold total_signal. induction nets as [|n nets IH]; [done|].
  cbn [map sumZ fold_right]. unfold sumZ in IH. lia.
Qed.

Lemma channel_interference_range nets :
  nets <> [] ->
  (inject_Z (network_count (channel_interference nets)) * 10
     <= interference_score (channel_interference nets) \/
   100 <= interference_score (channel_interference nets))%Q /\
  (10 <= interference_score (channel_interference nets))%Q /\
  (interference_score (channel_interference nets) <= 100)%Q.
Proof.
  intros Hne. cbn [channel_interference network_count interference_score].
  assert (1 <= len nets) as Hlen.
  { pose proof (len_nonneg nets). destruct (Z.eq_dec (len nets) 0) as [H0|]; [|lia].
    by apply len_nil in H0. }
  pose proof (total_signal_nonneg nets) as Hsig.
  rewrite Zle_Qle in Hlen, Hsig. rewrite inject_Z_mult.
  change (inject_Z 10) with 10%Q. change (inject_Z 1) with 1%Q in Hlen.
  change (inject_Z 0) with 0%Q in Hsig.
  set (c := inject_Z (len nets)) in *. set (t := inject_Z (total_signal nets)) in *.
  assert (0 <= t / 10)%Q as Ht by (apply Qle_shift_div_l; [done | lra]).
  set (u := (t / 10)%Q) in *.
  destruct (Q.min_spec 100 (c * 10 + u)) as [[Hlt Hmin]|[Hle Hmin]]; rewrite Hmin.
  - split; [right; lra|]. split; lra.
  - split; [left; lra|]. split; lra.
Qed.

Lemma optimal_for_ok networks item o :
  In item (map (fun item : string * list network =>
                  (fst item, channel_interference (snd item)))
               (group_by_channel networks)) ->
  optimal_for item o -> optimal_ok o.
Proof.
  intros Hin (Hkey & Hscore & Hcount & Htag).
  apply in_map_iff in Hin as ([k nets] & <- & Hin). cbn [fst snd] in *.
  apply group_by_channel_keys in Hin as (c & Hc & -> & _ & Hne).
  apply str_inj in Hkey.
  destruct (channel_interference_range nets Hne) as (Hlow & H10 & H100).
  assert (1 <= len nets) as Hlen.
  { pose proof (len_nonneg nets). destruct (Z.eq_dec (len nets) 0) as [H0|]; [|lia].
    by apply len_nil in H0. }
  unfold optimal_ok. rewrite <- Hkey, Hscore, Hcount in *.
  cbn [channel_interference network_count] in Hlow |- *.
  split; [done|]. split; [done|]. split; [done|]. split; [done|]. split.
  - intros He. rewrite He in Htag. cbn [tagged] in Htag.
    assert (inject_Z (len nets) < inject_Z 2)%Q as Hlt
      by (change (inject_Z 2) with 2%Q; destruct Hlow; lra).
    rewrite <- Zlt_Qlt in Hlt. lia.
  - intros H5. rewrite Zle_Qle in H5. change (inject_Z 5) with 5%Q in H5.
    destruct (opt_recommendation o); cbn [tagged] in Htag; [| |done];
      destruct Hlow; lra.
Qed.

(** X21: the entries of [optimal_channels].  There are as many as occupied
    channels, up to five; their channel numbers are pairwise different and
    none is 0; each counts at least one network and scores between 10 and
    100; a channel tagged "excellent" carries exactly one network, and a
    channel with five networks or more is always tagged "poor". *)
Theorem optimal_channels_entries (networks : list network) :
  exists r, analyze_channel_utilization networks = Ok r /\
    length (optimal_channels r) = Nat.min 5 (length (utilization r)) /\
    NoDup (map opt_channel (optimal_channels r)) /\
    Forall optimal_ok (optimal_channels r).
Proof.
  destruct (analyze_channel_utilization_ok networks) as (os & lv & Hr & Hall & _).
  cbv zeta in Hr, Hall. eexists. split; [exact Hr|].
  cbn [optimal_channels utilization].
  set (imap := map (fun item : string * list network =>
                      (fst item, channel_interference (snd item)))
                   (group_by_channel networks)) in *.
  set (score := fun item : string * interference => interference_score (snd item)) in *.
  destruct (take_drop_sorted score 5 imap) as (Hperm & _ & _).
  assert (forall item, In item (take 5 (sorted score imap)) -> In item imap) as Hsub.
  { intros item Hitem. eapply Permutation_in; [symmetry; apply Hperm|].
    apply in_or_app. by left. }
  split; [|split].
  - rewrite <- (Forall2_length _ _ _ Hall), length_take, length_map.
    rewrite (Permutation_length (sorted_perm score imap)). unfold imap.
    by rewrite length_map.
  - assert (NoDup (map fst (take 5 (sorted score imap)))) as Hnd.
    { assert (NoDup (map fst imap)) as Hkeys.
      { unfold imap. rewrite map_map. cbn [fst]. apply group_by_NoDup. }
      apply (Permutation_map fst) in Hperm. rewrite map_app in Hperm.
      rewrite Hperm in Hkeys. by apply NoDup_app in Hkeys as [? _]. }
    assert (map fst (take 5 (sorted score imap)) = map str (map opt_channel os)) as Heq.
    { clear -Hall. induction Hall as [|item o items os' (Hk & _) _ IH]; [done|].
      cbn [map]. by rewrite Hk, IH. }
    rewrite Heq in Hnd. by apply (NoDup_fmap_1 str).
  - clear Hperm Hr. revert Hsub Hall. generalize (take 5 (sorted score imap)).
    intros items Hsub Hall.
    induction Hall as [|item o items os' Hitem _ IH]; [constructor|].
    constructor.
    + eapply (optimal_for_ok networks item); [|done]. apply Hsub. by left.
    + apply IH. intros it Hit. apply Hsub. by right.
Qed.

End Interference.

(** ** Evil twins and the order of the input *)

Section EvilTwinOrder.
Import ThreatDetector Reference.

Lemma Forall2_refl_on {A : Type} (R : A -> A -> Prop) (l : list A) :
  (forall x, In x l -> R x x) -> Forall2 R l l.
Proof.
  induction l as [|x l IH]; intros H; constructor.
  - apply H. by left.
  - apply IH. intros y Hy. apply H. by right.
Qed.

Lemma swapped_pairs_app {A : Type} (a a' b b' ha hb : list (A * A)) :
  Permutation a ha -> Forall2 swapped ha a' ->
  Permutation b hb -> Forall2 swapped hb b' ->
  Permutation (a ++ b) (ha ++ hb) /\ Forall2 swapped (ha ++ hb) (a' ++ b').
Proof.
  intros Pa Fa Pb Fb. split; [by apply Permutation_app | by apply Forall2_app].
Qed.

Lemma swapped_twice {A : Type} (p q r : A * A) : swapped p q -> swapped q r -> swapped p r.
Proof.
  destruct p as [a b]. intros [->| ->] [->| ->]; cbn [fst snd]; [by left|by right..|by left].
Qed.

Lemma Forall2_compose {A : Type} (R : A -> A -> Prop) (l1 l2 l3 : list A) :
  (forall x y z, R x y -> R y z -> R x z) ->
  Forall2 R l1 l2 -> Forall2 R l2 l3 -> Forall2 R l1 l3.
Proof.
  intros HR H12. revert l3. induction H12 as [|x y l1 l2 Hxy _ IH]; intros l3 H23.
  - by inversion H23.
  - inversion H23 as [|? z ? l3' Hyz H23']; subst. constructor; [by eapply HR | by apply IH].
Qed.

Lemma Forall2_swap_sides {A B : Type} (R : A -> B -> Prop) (l : list A) (k : list B) :
  Forall2 R l k -> Forall2 (fun y x => R x y) k l.
Proof. induction 1; by constructor. Qed.

(** The pairs of a reordered list are the pairs of the list, reordered and
    some of them turned round. *)
Lemma all_pairs_Permutation {A : Type} (l l' : list A) :
  Permutation l l' ->
  exists h, Permutation (all_pairs l) h /\ Forall2 swapped h (all_pairs l').
Proof.
  induction 1 as [|x l l' Hperm (h & Hh & Hall)|x y l|l1 l2 l3 _ (h1 & P1 & F1) _ (h2 & P2 & F2)].
  - exists []. by split.
  - cbn [all_pairs]. exists (map (pair x) l' ++ h).
    apply swapped_pairs_app; [by apply Permutation_map| |done..].
    apply Forall2_refl_on. intros p _. by left.
  - cbn [all_pairs map].
    exists ((y, x) :: map (pair x) l ++ map (pair y) l ++ all_pairs l). split.
    + cbn [app]. apply perm_skip. rewrite !app_assoc. apply Permutation_app_tail.
      apply Permutation_app_comm.
    + cbn [app]. constructor; [by right|].
      apply Forall2_refl_on. intros p _. by left.
  - destruct (Permutation_Forall2 P2 (Forall2_swap_sides _ _ _ F1)) as (h1' & P1' & F1').
    exists h1'. split; [by rewrite P1|].
    apply Forall2_swap_sides in F1'.
    eapply Forall2_compose; [apply @swapped_twice|exact F1'|exact F2].
Qed.

Lemma filter_swapped {A : Type} (f : A * A -> bool) (h l : list (A * A)) :
  (forall a b, f (a, b) = f (b, a)) ->
  Forall2 swapped h l -> Forall2 swapped (List.filter f h) (List.filter f l).
Proof.
  intros Hsym. induction 1 as [|p q h l Hpq _ IH]; [constructor|].
  cbn [List.filter].
  assert (f q = f p) as ->.
  { destruct p as [a b]. destruct Hpq as [->| ->]; [done | apply Hsym]. }
  destruct (f p); [by constructor | done].
Qed.

Lemma is_twin_pair_sym a b : is_twin_pair a b -> is_twin_pair b a.
Proof.
  intros ((s & Hs & Ha & Hb) & Hne & Hsig). split; [by exists s|]. split; [done|].
  by rewrite <- Z.abs_opp, Z.opp_sub_distr, Z.add_comm, Z.add_opp_r.
Qed.

Lemma twin_pair_sym a b : twin_pair (a, b) = twin_pair (b, a).
Proof.
  destruct (twin_pair (a, b)) eqn:Hab, (twin_pair (b, a)) eqn:Hba; try done.
  - apply twin_pair_spec, is_twin_pair_sym, twin_pair_spec in Hab. congruence.
  - apply twin_pair_spec, is_twin_pair_sym, twin_pair_spec in Hba. congruence.
Qed.

Lemma twin_finding_swapped p q :
  twin_pair p = true -> swapped p q -> same_finding (twin_finding_of p) (twin_finding_of q).
Proof.
  destruct p as [a b]. intros Hp [->| ->]; [by repeat split|].
  apply twin_pair_spec in Hp as ((s & Hs & Ha & Hb) & _).
  unfold twin_finding_of. cbn [fst snd].
  assert (truthy_ssid a = Some s) as -> by (by apply truthy_ssid_spec).
  assert (truthy_ssid b = Some s) as -> by (by apply truthy_ssid_spec).
  repeat split. apply perm_swap.
Qed.

Lemma twins_of_Permutation networks networks' :
  Permutation networks networks' ->
  same_findings (twins_of networks) (twins_of networks').
Proof.
  intros Hperm. destruct (all_pairs_Permutation _ _ Hperm) as (h & Ph & Fh).
  exists (map twin_finding_of (List.filter twin_pair h)). split.
  - unfold twins_of. by apply Permutation_map, filter_Permutation_bool.
  - unfold twins_of. apply (filter_swapped twin_pair) in Fh; [|apply twin_pair_sym].
    assert (Forall (fun p => twin_pair p = true) (List.filter twin_pair h)) as Htwin.
    { apply List.Forall_forall. intros p Hp. by apply List.filter_In in Hp as [_ ?]. }
    revert Htwin. induction Fh as [|p q h' l' Hpq _ IH]; intros Htwin; [constructor|].
    cbn [map]. inversion Htwin; subst. constructor; [by apply twin_finding_swapped | by apply IH].
Qed.

Lemma same_finding_sym f g : same_finding f g -> same_finding g f.
Proof. intros (H1 & H2 & H3 & H4 & H5). by repeat split. Qed.

(** X22: evil-twin detection does not depend on the order of the input:
    reordering the records gives the same findings, up to the order of the
    findings and the order in which each finding lists its two records; in
    particular as many of them. *)
Theorem detect_evil_twin_order_insensitive (networks networks' : list network) :
  Permutation networks networks' ->
  same_findings (detect_evil_twin networks) (detect_evil_twin networks') /\
  length (detect_evil_twin networks) = length (detect_evil_twin networks').
Proof.
  intros Hperm.
  assert (same_findings (detect_evil_twin networks) (detect_evil_twin networks')) as Hsame.
  { destruct (twins_of_Permutation _ _ Hperm) as (h & Ph & Fh).
    pose proof (detect_evil_twin_pairs networks) as P1.
    pose proof (detect_evil_twin_pairs networks') as P2. symmetry in P2.
    destruct (Permutation_Forall2 P2 (Forall2_swap_sides _ _ _ Fh)) as (h' & Ph' & Fh').
    exists h'. split.
    - by rewrite P1, Ph.
    - apply Forall2_swap_sides in Fh'. exact Fh'. }
  split; [done|]. destruct Hsame as (hs & Phs & Fhs).
  by rewrite (Permutation_length Phs), (Forall2_length _ _ _ Fhs).
Qed.

Lemma detect_evil_twin_order_insensitive_witness :
  Permutation [ap_A; ap_B; ap_C] [ap_C; ap_B; ap_A] /\
  same_findings (detect_evil_twin [ap_A; ap_B; ap_C]) (detect_evil_twin [ap_C; ap_B; ap_A]) /\
  length (detect_evil_twin [ap_A; ap_B; ap_C]) = length (detect_evil_twin [ap_C; ap_B; ap_A]).
Proof.
  assert (Permutation [ap_A; ap_B; ap_C] [ap_C; ap_B; ap_A]) as Hperm.
  { apply (perm_trans (l' := [ap_B; ap_A; ap_C])); [apply perm_swap|].
    apply (perm_trans (l' := [ap_B; ap_C; ap_A])); [apply perm_skip, perm_swap|].
    apply perm_swap. }
  split; [exact Hperm|].
  apply (detect_evil_twin_order_insensitive [ap_A; ap_B; ap_C] [ap_C; ap_B; ap_A] Hperm).
Defined.

End EvilTwinOrder.

(** ** Rounding to the nearest double *)

Section Binary64Facts.
Import Binary64 Reference PrimFloat.

Lemma rn_comp x y : (x == y)%Q -> rn x = rn y.
Proof. intros H. unfold rn. by rewrite (Qred_complete _ _ H). Qed.

Lemma pow2_pos p : (0 < pow2 p)%Q.
Proof. by apply Qpower_0_lt. Qed.

Lemma pow2_add a b : (pow2 (a + b) == pow2 a * pow2 b)%Q.
Proof. by apply Qpower_plus. Qed.

Lemma pow2_Z p : 0 <= p -> (pow2 p == inject_Z (2 ^ p))%Q.
Proof. intros Hp. unfold pow2. by rewrite Zpower_Qpower. Qed.

Lemma pow2_le a b : a <= b -> (pow2 a <= pow2 b)%Q.
Proof. intros Hab. by apply Qpower_le_compat_l. Qed.

Lemma pow2_lt_inv a b : (pow2 a < pow2 b)%Q -> a < b.
Proof.
  intros Hlt. destruct (Z.lt_ge_cases a b) as [|Hge]; [done|].
  apply pow2_le in Hge. destruct (Qlt_not_le _ _ Hlt). done.
Qed.

(** [floor_log2] does not overshoot. *)
Lemma floor_log2_le (x : Q) : (0 < x)%Q -> (pow2 (floor_log2 x) <= x)%Q.
Proof.
  intros Hx. unfold floor_log2.
  set (a := Z.log2 (Qnum x)). set (b := Z.log2 (Z.pos (Qden x))).
  destruct (Qle_bool (pow2 (a - b)) x) eqn:Hle; [by apply Qle_bool_iff|].
  assert (0 < Qnum x) as Hn by (destruct x as [n d]; unfold Qlt in Hx; cbn in *; lia).
  destruct (Z.log2_spec (Qnum x) Hn) as [Ha _].
  destruct (Z.log2_spec (Z.pos (Qden x)) ltac:(lia)) as [_ Hb].
  fold a in Ha. fold b in Hb.
  assert (0 <= a) by apply Z.log2_nonneg. assert (0 <= b) by apply Z.log2_nonneg.
  assert (pow2 (a - b - 1) * inject_Z (2 ^ (b + 1)) == inject_Z (2 ^ a))%Q as Heq.
  { rewrite <- !pow2_Z by lia. rewrite <- pow2_add. f_equiv. lia. }
  assert (x == inject_Z (Qnum x) / inject_Z (Z.pos (Qden x)))%Q as Hxq.
  { destruct x as [n d]. cbn [Qnum Qden]. rewrite <- Qmake_Qdiv. reflexivity. }
  rewrite Hxq. apply Qle_shift_div_l.
  { change 0%Q with (inject_Z 0). rewrite <- Zlt_Qlt. lia. }
  pose proof (pow2_pos (a - b - 1)) as Hpos.
  assert (inject_Z (Z.pos (Qden x)) <= inject_Z (2 ^ (b + 1)))%Q as Hd
    by (rewrite <- Zle_Qle; rewrite <- Z.add_1_r in Hb; lia).
  assert (inject_Z (2 ^ a) <= inject_Z (Qnum x))%Q as Hnn by (by rewrite <- Zle_Qle).
  eapply Qle_trans; [|apply Hnn]. rewrite <- Heq.
  apply Qmult_le_l; [done|]. done.
Qed.

Lemma round_half_even_Z (k : Z) : round_half_even (inject_Z k) = k.
Proof.
  unfold round_half_even. rewrite Qfloor_Z.
  assert ((inject_Z k - inject_Z k ?= 1 # 2)%Q = Lt) as ->; [|done].
  apply (proj1 (Qlt_alt _ _)). lra.
Qed.

(** A positive number with at most 53 significant bits and an exponent in
    range is a double: rounding leaves it alone. *)
Lemma rn_exact (x : Q) (m q : Z) :
  0 < m < 2 ^ 53 -> -1074 <= q -> (x == inject_Z m * pow2 q)%Q -> (rn x == x)%Q.
Proof.
  intros [Hm0 Hm] Hq Hx.
  assert (0 < x)%Q as Hpos.
  { rewrite Hx. apply Qmult_lt_0_compat; [|apply pow2_pos].
    change 0%Q with (inject_Z 0). by rewrite <- Zlt_Qlt. }
  unfold rn. set (y := Qred x).
  assert (y == x)%Q as Hy by apply Qred_correct.
  destruct (Qeq_bool y 0) eqn:H0.
  { apply Qeq_bool_eq in H0. rewrite Hy in H0. rewrite H0 in Hpos. by apply Qlt_irrefl in Hpos. }
  set (p := Z.max (floor_log2 (Qabs y) - 52) (-1074)).
  assert (p <= q) as Hpq.
  { assert (Qabs y == x)%Q as Habs by (rewrite Qabs_pos; [done | rewrite Hy; by apply Qlt_le_weak]).
    assert (0 < Qabs y)%Q as Hay by (by rewrite Habs).
    assert (pow2 (floor_log2 (Qabs y)) <= x)%Q as Hlow.
    { eapply Qle_trans; [apply (floor_log2_le (Qabs y) Hay)|]. rewrite Habs. apply Qle_refl. }
    assert (x < pow2 (53 + q))%Q as Hup.
    { rewrite Hx, pow2_add, (pow2_Z 53) by lia.
      apply Qmult_lt_r; [apply pow2_pos|]. by rewrite <- Zlt_Qlt. }
    assert (floor_log2 (Qabs y) < 53 + q).
    { apply pow2_lt_inv. eapply Qle_lt_trans; [apply Hlow | apply Hup]. }
    unfold p. lia. }
  assert (y / pow2 p == inject_Z (m * 2 ^ (q - p)))%Q as Hdiv.
  { rewrite Hy, Hx, inject_Z_mult, <- (pow2_Z (q - p)) by lia.
    replace q with ((q - p) + p) at 1 by lia. rewrite pow2_add.
    field. intros Hz. pose proof (pow2_pos p) as Hp. rewrite Hz in Hp. by apply Qlt_irrefl in Hp. }
  rewrite (round_half_even_comp _ _ Hdiv), round_half_even_Z, Qred_correct.
  rewrite inject_Z_mult, <- (pow2_Z (q - p)) by lia.
  rewrite Hx. replace q with ((q - p) + p) at 2 by lia. rewrite pow2_add. ring.
Qed.


Lemma rn_half (k : Z) : 0 <= k < 2 ^ 53 -> (rn (inject_Z k / 2) == inject_Z k / 2)%Q.
Proof.
  intros [Hk0 Hk]. destruct (Z.eq_dec k 0) as [->|Hne]; [reflexivity|].
  apply (rn_exact _ k (-1)); [lia | lia |]. unfold pow2. cbn. field.
Qed.


Lemma round1_half (k : Z) :
  0 <= k < 2 ^ 49 -> (Binary64.round1 (inject_Z k / 2) == inject_Z k / 2)%Q.
Proof.
  intros Hk. unfold Binary64.round1.
  assert (inject_Z k / 2 * 10 == inject_Z (k * 5))%Q as H10 by (rewrite inject_Z_mult; field).
  rewrite (round_half_even_comp _ _ H10), round_half_even_Z.
  assert (inject_Z (k * 5) / 10 == inject_Z k / 2)%Q as Hk10 by (rewrite inject_Z_mult; field).
  rewrite (rn_comp _ _ Hk10). apply rn_half. lia.
Qed.

(** *** The error of a rounding *)

Lemma round_half_even_error (y : Q) :
  (y - (1 # 2) <= inject_Z (round_half_even y) <= y + (1 # 2))%Q.
Proof.
  unfold round_half_even.
  pose proof (Qfloor_le y) as Hlo. pose proof (Qlt_floor y) as Hhi.
  rewrite inject_Z_plus in Hhi. change (inject_Z 1) with 1%Q in Hhi.
  destruct (y - inject_Z (Qfloor y) ?= 1 # 2)%Q eqn:Hc.
  - apply Qeq_alt in Hc.
    destruct (Z.even (Qfloor y)); [|rewrite inject_Z_plus; change (inject_Z 1) with 1%Q]; lra.
  - apply Qlt_alt in Hc. lra.
  - apply Qgt_alt in Hc. rewrite inject_Z_plus. change (inject_Z 1) with 1%Q. lra.
Qed.

(** The error of one rounding: half a unit in the last place. *)
Lemma rn_error (x : Q) (k : Z) :
  -1022 <= k -> (Qabs x <= pow2 k)%Q ->
  (x - pow2 (k - 53) <= rn x <= x + pow2 (k - 53))%Q.
Proof.
  intros Hk Hx. unfold rn. set (y := Qred x).
  assert (y == x)%Q as Hy by apply Qred_correct.
  pose proof (pow2_pos (k - 53)) as HE.
  destruct (Qeq_bool y 0) eqn:H0.
  { apply Qeq_bool_eq in H0. rewrite Hy in H0. lra. }
  set (p := Z.max (floor_log2 (Qabs y) - 52) (-1074)).
  rewrite Qred_correct.
  assert (0 < Qabs y)%Q as Hay.
  { assert (~ (y == 0)%Q) as Hne by (intros H; apply Qeq_eq_bool in H; congruence).
    apply Qabs_case; intros Hs.
    - destruct (Qle_lt_or_eq _ _ Hs) as [|Heq]; [done|]. destruct Hne. by symmetry.
    - destruct (Qle_lt_or_eq _ _ Hs) as [Hlt|Heq]; [lra | by destruct Hne]. }
  assert (floor_log2 (Qabs y) <= k) as Hfl.
  { destruct (Z.le_gt_cases (floor_log2 (Qabs y)) k) as [|Hgt]; [done|]. exfalso.
    pose proof (floor_log2_le (Qabs y) Hay) as Hlow.
    assert (pow2 (k + 1) <= pow2 (floor_log2 (Qabs y)))%Q as Hmono by (apply pow2_le; lia).
    pose proof (pow2_add k 1) as Hk1. change (pow2 1) with 2%Q in Hk1.
    pose proof (pow2_pos k) as Hkp.
    assert (Qabs y == Qabs x)%Q as Habs by (by rewrite Hy).
    lra. }
  assert (pow2 p <= 2 * pow2 (k - 53))%Q as Hp.
  { assert (pow2 p <= pow2 (k - 52))%Q as Hle by (apply pow2_le; unfold p; lia).
    pose proof (pow2_add (k - 53) 1) as Hk1. change (pow2 1) with 2%Q in Hk1.
    replace (k - 53 + 1) with (k - 52) in Hk1 by lia. lra. }
  pose proof (pow2_pos p) as Hpp.
  destruct (round_half_even_error (y / pow2 p)) as [Hlo Hhi].
  set (r := inject_Z (round_half_even (y / pow2 p))) in *.
  assert (y - pow2 p * (1 # 2) <= r * pow2 p)%Q as Hl.
  { assert (y - pow2 p * (1 # 2) == (y / pow2 p - (1 # 2)) * pow2 p)%Q as -> by (field; lra).
    apply Qmult_le_compat_r; [done | lra]. }
  assert (r * pow2 p <= y + pow2 p * (1 # 2))%Q as Hh.
  { assert (y + pow2 p * (1 # 2) == (y / pow2 p + (1 # 2)) * pow2 p)%Q as -> by (field; lra).
    apply Qmult_le_compat_r; [done | lra]. }
  lra.
Qed.



Lemma rn_error_2m (x : Q) :
  (-2097152 <= x <= 2097152)%Q ->
  (x - (1 # 4294967296) <= rn x <= x + (1 # 4294967296))%Q.
Proof.
  intros Hx. destruct (rn_error x 21) as [Hlo Hhi]; [lia | |].
  { apply Qabs_Qle_condition. assert (pow2 21 == 2097152)%Q as -> by reflexivity. lra. }
  assert (pow2 (21 - 53) == 1 # 4294967296)%Q as Hp by reflexivity. lra.
Qed.

(** The rounding agrees with the processor's on the operations of the
    examples below: 1287 / 20, the three terms and the sum of the score of
    one WPA3, one Open and one unclassified record, and the decimal 64.3. *)
Example rn_matches_hardware :
  fdiv 1287 20 = of_double (1287 / 20)%float /\
  fdiv 1 3 = of_double (1 / 3)%float /\
  fmul (fdiv 1 3) 100 = of_double (1 / 3 * 100)%float /\
  fadd (fadd (fmul (fdiv 1 3) 100) (fmul (fdiv 1 3) 0)) (fmul (fdiv 1 3) 50) =
    of_double (1 / 3 * 100 + 1 / 3 * 0 + 1 / 3 * 50)%float /\
  rn (643 # 10) = of_double (643 / 10)%float.
Proof. by vm_compute. Qed.

(** And on every pass with up to 40 records and the weights of the code. *)
Example rn_matches_hardware_grid :
  forallb (fun b => forallb (fun a => forallb (same_pass a b) [100; 60; 50; 20; 0])
                            (seqZ 1 b))
          (seqZ 1 40) = true.
Proof. by vm_compute. Qed.

End Binary64Facts.

(** ** The security score, floats as binary64 *)

Section PostureFloat.
Import NetworkAnalytics Reference.








(** *** The distance to the weighted average *)








Lemma round1_comp64 x y : (x == y)%Q -> Binary64.round1 x = Binary64.round1 y.
Proof.
  intros Hxy. unfold Binary64.round1.
  rewrite (round_half_even_comp (x * 10) (y * 10)); [done|]. by rewrite Hxy.
Qed.




(** Nor is the level that of the weighted average: one WPA3, one Open and
    one unclassified record average 50, which the claim calls fair; the
    double-precision sum is 49.99999999999999 and the code answers poor,
    next to a reported score of 50.0. *)
Example level_below_the_average :
  exists p, NetworkAnalytics64.analyze_security_posture fifty = PostureOf p /\
            (weighted_average fifty == 50)%Q /\
            float_average fifty = (7036874417766399 # 140737488355328)%Q /\
            (security_score p == 50)%Q /\ security_level p = level_poor.
Proof. eexists. split; [by vm_compute|]. by vm_compute. Qed.

(** The same at the next threshold: four WPA3, one WPA2 and one WPA record
    average 90, which the claim calls excellent; the sum in double precision
    is 89.99999999999999 and the code answers good, next to a reported
    score of 90.0. *)
Example level_misses_excellent :
  exists p, NetworkAnalytics64.analyze_security_posture ninety = PostureOf p /\
            (weighted_average ninety == 90)%Q /\
            float_average ninety = (6333186975989759 # 70368744177664)%Q /\
            (security_score p == 90)%Q /\ security_level p = level_good.
Proof. eexists. split; [by vm_compute|]. by vm_compute. Qed.

(** The score rounds the double, not the average: 9 WPA3, 8 WPA2 and 7
    unclassified records average 78.75; the sum in double precision lies
    just below and is reported as 78.7. *)
Example score_rounds_the_double :
  exists p, NetworkAnalytics64.analyze_security_posture three_quarters = PostureOf p /\
            (weighted_average three_quarters == 7875 # 100)%Q /\
            (float_average three_quarters < 7875 # 100)%Q /\
            security_score p = Binary64.rn (787 # 10) /\
            security_level p = level_good.
Proof. eexists. split; [by vm_compute|]. by vm_compute. Qed.

(** The level follows the sum, not the reported score: here the report
    shows 90.0 next to the level "good". *)
Example level_from_unrounded_score :
  exists p, NetworkAnalytics64.analyze_security_posture near_ninety = PostureOf p /\
            (security_score p == 90)%Q /\ security_level p = level_good /\
            (weighted_average near_ninety == 8996 # 100)%Q.
Proof. eexists. split; [by vm_compute|]. by vm_compute. Qed.

End PostureFloat.

(** ** The signal statistics in doubles *)

Section SignalsFloat.
Import SignalAnalyzer Reference.

Lemma signal_samples_nonneg networks :
  Forall (fun x => 0 <= x) (signal_samples networks).
Proof.
  unfold signal_samples. induction networks as [|n networks IH]; [constructor|].
  cbn [omap list_omap]. destruct (signal_strength n) as [s|]; cbn [fmap option_fmap option_map].
  - constructor; [lia | done].
  - done.
Qed.

Lemma mean64_ok data :
  data <> [] ->
  exists v, SignalAnalyzer64.mean data = Ok v /\
    SignalAnalyzer64.value (SignalAnalyzer64.round1 v) = reported_mean data /\
    SignalAnalyzer64.value v =
      (if sumZ data mod len data =? 0 then inject_Z (sumZ data / len data)
       else Binary64.rn (mean_of data)).
Proof.
  intros Hne. unfold SignalAnalyzer64.mean, reported_mean.
  destruct data as [|x rest]; [done|]. eexists. split; [reflexivity|].
  by destruct (sumZ (x :: rest) mod len (x :: rest) =? 0).
Qed.

Lemma whole_mean data :
  data <> [] -> sumZ data mod len data = 0 ->
  (inject_Z (sumZ data / len data) == mean_of data)%Q.
Proof.
  intros Hne Hmod. unfold mean_of.
  assert (0 < len data) as Hlen.
  { unfold len. destruct data; [done|]. cbn [length]. lia. }
  apply Z.div_exact in Hmod; [|lia].
  rewrite Hmod at 2. rewrite inject_Z_mult. field.
  intros H0. unfold Qeq in H0. cbn in H0. lia.
Qed.

Lemma median64_spec data :
  data <> [] ->
  exists v m, SignalAnalyzer64.median data = Ok v /\ is_median data m /\
    (Forall (fun x => 0 <= x < 2 ^ 48) data ->
     (SignalAnalyzer64.value (SignalAnalyzer64.round1 v) == m)%Q).
Proof.
  intros Hne. destruct (sorted_Z data) as [Hperm Hsorted].
  unfold SignalAnalyzer64.median.
  set (s := sorted inject_Z data) in *.
  assert (0 < len s) as Hlen.
  { unfold len. rewrite (Permutation_length Hperm). destruct data; [done|]. cbn [length]. lia. }
  assert ((len s =? 0) = false) as -> by (apply Z.eqb_neq; lia).
  rewrite Zmod_odd. unfold is_median.
  destruct (Z.odd (len s)) eqn:Hodd.
  - change (1 =? 1) with true. cbv iota.
    destruct (item_ok s (len s / 2)) as (x & -> & Hx).
    { split; [apply Z.div_pos; lia | apply Z.div_lt_upper_bound; lia]. }
    cbn [rbind]. eexists _, (inject_Z x). split; [reflexivity|].
    split; [|intros _; reflexivity].
    exists s. rewrite Hodd. split; [done|]. split; [done|]. by exists x.
  - change (0 =? 1) with false. cbv iota.
    assert (2 <= len s) as Htwo.
    { destruct (Z.eq_dec (len s) 1) as [H1|H1]; [rewrite H1 in Hodd; discriminate | lia]. }
    destruct (item_ok s (len s / 2 - 1)) as (a & -> & Ha).
    { assert (1 <= len s / 2) by (apply Z.div_le_lower_bound; lia).
      assert (len s / 2 < len s) by (apply Z.div_lt_upper_bound; lia). lia. }
    destruct (item_ok s (len s / 2)) as (b & -> & Hb).
    { split; [apply Z.div_pos; lia | apply Z.div_lt_upper_bound; lia]. }
    cbn [rbind]. eexists _, (inject_Z (a + b) / 2)%Q. split; [reflexivity|].
    split.
    + exists s. rewrite Hodd. split; [done|]. split; [done|]. by exists a, b.
    + intros Hall.
      assert (0 <= a < 2 ^ 48) as Hra.
      { apply (proj1 (List.Forall_forall _ _) Hall).
        apply (Permutation_in _ Hperm), list_elem_of_In. by eapply list_elem_of_lookup_2. }
      assert (0 <= b < 2 ^ 48) as Hrb.
      { apply (proj1 (List.Forall_forall _ _) Hall).
        apply (Permutation_in _ Hperm), list_elem_of_In. by eapply list_elem_of_lookup_2. }
      cbn [SignalAnalyzer64.round1 SignalAnalyzer64.value]. unfold Binary64.fdiv.
      rewrite (round1_comp64 _ (inject_Z (a + b) / 2)).
      * apply round1_half. change (2 ^ 49) with (2 * 2 ^ 48). lia.
      * apply rn_half. change (2 ^ 53) with (32 * 2 ^ 48). lia.
Qed.

(** *** The distance to the mean *)

Lemma sumZ_range (bound : Z) (data : list Z) :
  Forall (fun x => 0 <= x <= bound) data -> 0 <= sumZ data <= len data * bound.
Proof.
  induction 1 as [|x data Hx _ IH]; [done|].
  unfold sumZ, len in *. cbn [fold_right length]. lia.
Qed.

Lemma mean_of_range (bound : Z) (data : list Z) :
  data <> [] -> Forall (fun x => 0 <= x <= bound) data ->
  (0 <= mean_of data <= inject_Z bound)%Q.
Proof.
  intros Hne Hall. pose proof (sumZ_range bound data Hall) as [H0 H1].
  assert (0 < len data) as Hlen by (unfold len; destruct data; [done|]; cbn [length]; lia).
  assert (0 < inject_Z (len data))%Q as Hq by (change 0%Q with (inject_Z 0); by rewrite <- Zlt_Qlt).
  unfold mean_of. split.
  - apply Qle_shift_div_l; [done|]. rewrite Qmult_0_l.
    change 0%Q with (inject_Z 0). by rewrite <- Zle_Qle.
  - apply Qle_shift_div_r; [done|]. rewrite <- inject_Z_mult, <- Zle_Qle. lia.
Qed.

(** The reported mean lies within 0.05 + 2^-31 of the mean, for samples up
    to 2^20. *)
Lemma reported_mean_error (data : list Z) :
  data <> [] -> Forall (fun x => 0 <= x <= 2 ^ 20) data ->
  (mean_of data - ((1 # 20) + (1 # 2147483648)) <= reported_mean data
     <= mean_of data + ((1 # 20) + (1 # 2147483648)))%Q.
Proof.
  intros Hne Hall. unfold reported_mean.
  destruct (sumZ data mod len data =? 0) eqn:Hmod.
  - apply Z.eqb_eq in Hmod. pose proof (whole_mean data Hne Hmod) as Hw. lra.
  - destruct (mean_of_range (2 ^ 20) data Hne Hall) as [Hm0 Hm1].
    change (inject_Z (2 ^ 20)) with 1048576%Q in Hm1.
    set (m := mean_of data) in *.
    destruct (rn_error_2m m) as [Ha0 Ha1]; [lra|].
    set (a := Binary64.rn m) in *. unfold Binary64.round1.
    destruct (round_half_even_error (a * 10)) as [Hr0 Hr1].
    set (R := inject_Z (round_half_even (a * 10))) in *.
    assert (R / 10 == R * (1 # 10))%Q as Hdiv by reflexivity.
    set (d := (R / 10)%Q) in *.
    destruct (rn_error_2m d) as [Hn0 Hn1]; lra.
Qed.

(** C8 (as amended), floats as binary64: [analyze_signal_patterns] never
    raises on an input without signals: when no record carries a signal
    strength (the empty list included) it returns the "no data" result.
    Otherwise, for signals of magnitude up to 2^20, it returns an analysis
    over the absolute values of the signals.  [average_signal] is their mean
    when the mean is a whole number, and otherwise the double nearest to the
    mean, rounded to one decimal: it lies within 0.05 + 2^-31 of the mean.
    [median_signal] is their median; minimum, maximum and the four buckets
    (excellent < 50, good < 70, fair < 85, poor from 85 on), which together
    count every sample, are exact; [standard_deviation] is there exactly
    when there are at least 2 samples. *)
Theorem signal_patterns_spec (networks : list network) :
  (signal_samples networks = [] <->
   Forall (fun n => signal_strength n = None) networks) /\
  match signal_samples networks with
  | [] => SignalAnalyzer64.analyze_signal_patterns networks
            = Ok (SignalError "No signal data available")
  | data =>
      Forall (fun x => x <= 2 ^ 20) data ->
      exists a, SignalAnalyzer64.analyze_signal_patterns networks = Ok (SignalAnalysis a) /\
        average_signal a = reported_mean data /\
        (sumZ data mod len data = 0 -> (average_signal a == mean_of data)%Q) /\
        (Qabs (average_signal a - mean_of data) <= (1 # 20) + (1 # 2147483648))%Q /\
        (exists m, is_median data m /\ (median_signal a == m)%Q) /\
        is_minimum data (signal_range_min a) /\
        is_maximum data (signal_range_max a) /\
        cat_excellent (signal_distribution a) = len (List.filter (fun x => x <? 50) data) /\
        cat_good (signal_distribution a) = between 50 70 data /\
        cat_fair (signal_distribution a) = between 70 85 data /\
        cat_poor (signal_distribution a) = len (List.filter (fun x => 85 <=? x) data) /\
        cat_excellent (signal_distribution a) + cat_good (signal_distribution a) +
          cat_fair (signal_distribution a) + cat_poor (signal_distribution a) = len data /\
        (is_Some (standard_deviation a) <-> 2 <= len data)
  end /\
  SignalAnalyzer64.analyze_signal_patterns [] = Ok (SignalError "No signal data available").
Proof.
  split; [apply signal_samples_nil|]. split; [|reflexivity].
  unfold SignalAnalyzer64.analyze_signal_patterns. rewrite collect_signals_samples.
  pose proof (signal_samples_nonneg networks) as Hpos.
  destruct (signal_samples networks) as [|x rest] eqn:Hdata; [done|].
  set (data := x :: rest) in *. intros Hsmall.
  assert (data <> []) as Hne by done.
  assert (Forall (fun x => 0 <= x <= 2 ^ 20) data) as Hrange.
  { apply List.Forall_forall. intros y Hy. split.
    - by apply (proj1 (List.Forall_forall _ _) Hpos).
    - by apply (proj1 (List.Forall_forall _ _) Hsmall). }
  destruct (mean64_ok data Hne) as (avg & Havg & Hshown & Hvalue).
  rewrite Havg. cbn [rbind].
  destruct (median64_spec data Hne) as (v & m & -> & Hm & Hexact). cbn [rbind].
  unfold minimum, maximum. subst data. cbn [rbind]. set (data := x :: rest) in *.
  unfold SignalAnalyzer64._assess_signal_quality. rewrite Havg. cbn [rbind].
  destruct (categorize_counts data
              {| cat_excellent := 0; cat_good := 0; cat_fair := 0; cat_poor := 0 |})
    as (H1 & H2 & H3 & H4).
  cbn zeta in *. cbn [cat_excellent cat_good cat_fair cat_poor] in *.
  assert (len (List.filter (fun x => x <? 50) data) + between 50 70 data +
          between 70 85 data + len (List.filter (fun x => 85 <=? x) data) = len data) as Hsum.
  { clear. unfold between, len. induction data as [|y data IH]; [done|].
    cbn [List.filter length].
    destruct (Z.ltb_spec y 50), (Z.ltb_spec y 70), (Z.ltb_spec y 85),
      (Z.leb_spec 50 y), (Z.leb_spec 70 y), (Z.leb_spec 85 y);
      try lia; cbn [andb length]; lia. }
  assert ((sumZ data mod len data = 0 ->
           (SignalAnalyzer64.value (SignalAnalyzer64.round1 avg) == mean_of data)%Q)) as Hwhole.
  { intros Hmod. rewrite Hshown. unfold reported_mean. rewrite Hmod.
    change (0 =? 0) with true. cbv iota. by apply whole_mean. }
  assert (Qabs (SignalAnalyzer64.value (SignalAnalyzer64.round1 avg) - mean_of data)
            <= (1 # 20) + (1 # 2147483648))%Q as Hnear.
  { rewrite Hshown. destruct (reported_mean_error data Hne Hrange) as [Hm0 Hm1].
    apply Qabs_Qle_condition. split; lra. }
  assert (exists m, is_median data m /\
            (SignalAnalyzer64.value (SignalAnalyzer64.round1 v) == m)%Q) as Hmedian.
  { exists m. split; [done|]. apply Hexact.
    eapply Forall_impl; [apply Hrange|]. intros y [Hy0 Hy1].
    split; [done|]. change (2 ^ 48) with (268435456 * 2 ^ 20). lia. }
  destruct (Z.ltb_spec 1 (len data)) as [Hlen|Hlen].
  - destruct (stdev_ok data) as [d ->]; [lia|]. cbn [rbind].
    eexists. split; [reflexivity|].
    cbn [average_signal median_signal signal_range_min signal_range_max
         signal_distribution standard_deviation].
    fold (_categorize_signals data). unfold _categorize_signals.
    rewrite H1, H2, H3, H4.
    split; [done|]. split; [done|]. split; [done|]. split; [done|].
    repeat split; try done; try lia; try apply fold_min_spec; try apply fold_max_spec.
  - cbn [rbind]. eexists. split; [reflexivity|].
    cbn [average_signal median_signal signal_range_min signal_range_max
         signal_distribution standard_deviation].
    unfold _categorize_signals. rewrite H1, H2, H3, H4.
    split; [done|]. split; [done|]. split; [done|]. split; [done|].
    repeat split; try done; try lia; try apply fold_min_spec; try apply fold_max_spec.
Qed.

Lemma signal_patterns_witness :
  Forall (fun x => x <= 2 ^ 20) three_samples /\
  exists a, SignalAnalyzer64.analyze_signal_patterns three_signals = Ok (SignalAnalysis a) /\
    average_signal a = reported_mean three_samples /\
    (sumZ three_samples mod len three_samples = 0 ->
     (average_signal a == mean_of three_samples)%Q) /\
    (Qabs (average_signal a - mean_of three_samples) <= (1 # 20) + (1 # 2147483648))%Q /\
    (exists m, is_median three_samples m /\ (median_signal a == m)%Q) /\
    is_minimum three_samples (signal_range_min a) /\
    is_maximum three_samples (signal_range_max a) /\
    cat_excellent (signal_distribution a)
      = len (List.filter (fun x => x <? 50) three_samples) /\
    cat_good (signal_distribution a) = between 50 70 three_samples /\
    cat_fair (signal_distribution a) = between 70 85 three_samples /\
    cat_poor (signal_distribution a)
      = len (List.filter (fun x => 85 <=? x) three_samples) /\
    cat_excellent (signal_distribution a) + cat_good (signal_distribution a) +
      cat_fair (signal_distribution a) + cat_poor (signal_distribution a)
      = len three_samples /\
    (is_Some (standard_deviation a) <-> 2 <= len three_samples).
Proof.
  assert (Forall (fun x => x <= 2 ^ 20) three_samples) as Hsmall
    by (unfold three_samples; repeat constructor; discriminate).
  split; [exact Hsmall|].
  exact (proj1 (proj2 (signal_patterns_spec three_signals)) Hsmall).
Defined.

(** C8, as stated, fails for the mean: the samples 64, 64 and 65 have the
    mean 193/3 and the report shows 64.3. *)
Lemma average_signal_is_rounded :
  exists a, SignalAnalyzer64.analyze_signal_patterns three_signals = Ok (SignalAnalysis a) /\
            average_signal a = Binary64.rn (643 # 10) /\
            ~ (average_signal a == mean_of (signal_samples three_signals))%Q.
Proof. eexists. split; [by vm_compute|]. split; by vm_compute. Qed.

(** What is rounded is the double: nineteen samples 64 and one 71 have the
    mean 64.35, whose nearest double lies below it, and the report shows
    64.3 where the mean itself would round to 64.4. *)
Example average_rounds_the_double :
  exists a, SignalAnalyzer64.analyze_signal_patterns twenty_signals = Ok (SignalAnalysis a) /\
            (mean_of (signal_samples twenty_signals) == 6435 # 100)%Q /\
            (Binary64.rn (mean_of (signal_samples twenty_signals)) < 6435 # 100)%Q /\
            average_signal a = Binary64.rn (643 # 10) /\
            (round1 (mean_of (signal_samples twenty_signals)) == 644 # 10)%Q.
Proof. eexists. split; [by vm_compute|]. by vm_compute. Qed.

End SignalsFloat.

(** ** The rogue-AP loop on records that hold [None] *)

Section RogueApRaw.
Import ThreatDetector ThreatDetectorRaw Reference.

Lemma rogue_check_raises n e : failure n = Some e -> rogue_check n = Raise e.
Proof.
  unfold failure, rogue_check, get_lower, strength_signal.
  destruct (raw_vendor n), (raw_signal_strength n), (raw_ssid n);
    cbn [rbind]; intros [= <-]; done.
Qed.

Lemma rogue_check_returns n :
  failure n = None ->
  exists found, rogue_check n = Ok found /\
    forall f, found = Some f ->
      4 <= finding_score f <= 8 /\
      (2 <= length (finding_reasons f) <= 4)%nat /\
      (finding_severity f = high <-> 6 <= finding_score f) /\
      (finding_severity f = medium <-> finding_score f < 6) /\
      finding_type f = rogue_ap /\
      finding_network f = n.
Proof.
  unfold failure, rogue_check, get_lower, strength_signal.
  destruct (raw_vendor n) as [| |v], (raw_signal_strength n) as [| |s], (raw_ssid n) as [| |x];
    cbn [rbind]; intros [=];
    repeat match goal with
           | |- context [bump ?b _ _ _] =>
               match b with
               | true => fail 1
               | false => fail 1
               | _ => destruct b
               end
           end;
    cbn; (eexists; split; [reflexivity|]); intros f [= <-]; cbn;
    repeat split; try done; try lia.
Qed.

Lemma failure_none n : failure n = None <-> ~ holds_none n.
Proof.
  unfold failure, holds_none.
  destruct (raw_vendor n), (raw_signal_strength n), (raw_ssid n);
    split; try done; try (intros H; exfalso; apply H; tauto);
    intros _ [H|[H|H]]; discriminate.
Qed.

Lemma first_failure_none networks :
  first_failure networks = None <-> Forall (fun n => ~ holds_none n) networks.
Proof.
  induction networks as [|n networks IH]; [done|]. cbn [first_failure].
  rewrite Forall_cons, <- IH, <- failure_none.
  destruct (failure n); split; try done; tauto.
Qed.

(** The two embeddings of the loop agree on the records they share. *)
Lemma rogue_check_typed (n : network) :
  rogue_check (raw_of n) =
    match ThreatDetector.rogue_check n with
    | Ok found => Ok (raw_finding_of <$> found)
    | Raise e => Raise e
    end.
Proof.
  unfold rogue_check, ThreatDetector.rogue_check, get_lower, strength_signal, ssid_lower,
    ThreatDetector.vendor_signal, ThreatDetector.strength_signal, vendor_signal,
    ThreatDetector.open_signal, open_signal, ssid_shown, ThreatDetector.ssid_shown,
    raw_of, get.
  destruct n as [b s c sig e v].
  cbn [raw_vendor raw_signal_strength raw_ssid raw_encryption
       vendor signal_strength ssid encryption].
  destruct v, sig, s; cbn [rbind]; try done;
    match goal with
    | |- context [4 <=? ?x] => destruct (4 <=? x)
    end; done.
Qed.

Lemma detect_rogue_ap_typed (networks : list network) :
  detect_rogue_ap (map raw_of networks) =
    match ThreatDetector.detect_rogue_ap networks with
    | Ok findings => Ok (map raw_finding_of findings)
    | Raise e => Raise e
    end.
Proof.
  induction networks as [|n networks IH]; [done|].
  cbn [map detect_rogue_ap ThreatDetector.detect_rogue_ap].
  rewrite rogue_check_typed, IH.
  destruct (ThreatDetector.rogue_check n) as [[f|]|e]; cbn [rbind fmap option_fmap option_map];
    try done; by destruct (ThreatDetector.detect_rogue_ap networks).
Qed.

(** X15: [detect_rogue_ap] raises exactly when some record holds [None]
    under 'vendor', 'signal_strength' or 'ssid', and the exception is that
    of the first such record: AttributeError for its vendor, else TypeError
    for its signal, else AttributeError for its SSID.  When it returns,
    every finding has a score from 4 to 8 and from 2 to 4 reasons, is "high"
    exactly from score 6 on and "medium" below, and the flagged records are
    records of the input, in the order of the input, each flagged at most
    once. *)
Theorem detect_rogue_ap_findings (networks : list raw_network) :
  match detect_rogue_ap networks with
  | Ok findings =>
      first_failure networks = None /\
      Forall (raw_finding_ok networks) findings /\
      sublist (map finding_network findings) networks
  | Raise e => first_failure networks = Some e
  end /\
  (first_failure networks = None <-> Forall (fun n => ~ holds_none n) networks).
Proof.
  split; [|apply first_failure_none].
  induction networks as [|n networks IH]; [by cbn|].
  cbn [detect_rogue_ap first_failure].
  destruct (failure n) as [e|] eqn:Hn.
  - by rewrite (rogue_check_raises n e Hn).
  - destruct (rogue_check_returns n Hn) as (found & -> & Hfound). cbn [rbind].
    destruct (detect_rogue_ap networks) as [others|e]; cbn [rbind]; [|done].
    destruct IH as (Hnone & Hall & Hsub). split; [done|].
    assert (Forall (raw_finding_ok (n :: networks)) others) as Hothers.
    { eapply Forall_impl; [apply Hall|]. intros f (H1 & H2 & H3 & H4 & H5 & H6).
      repeat split; try tauto; try lia. by right. }
    destruct found as [f|].
    + destruct (Hfound f eq_refl) as (H1 & H2 & H3 & H4 & H5 & H6). split.
      * constructor; [|done]. repeat split; try tauto; try lia. rewrite H6. by left.
      * cbn [map]. rewrite H6. by apply sublist_skip.
    + split; [done | by apply sublist_cons].
Qed.

(** The three failures and a run without one: a [None] vendor, then a
    [None] signal behind a vendor that is there, then the record complete,
    which scores 3 + 1 + 2. *)
Example detect_rogue_ap_failures :
  detect_rogue_ap [open_strong NoneVal NoneVal] = Raise AttributeError /\
  detect_rogue_ap [open_strong Missing (Val (-20)); open_strong (Val "Cisco") NoneVal]
    = Raise TypeError /\
  (exists f, detect_rogue_ap [open_strong (Val "Cisco") (Val (-20))] = Ok [f] /\
             finding_score f = 6 /\ finding_severity f = high).
Proof. split; [done|]. split; [done|]. eexists. by vm_compute. Qed.

End RogueApRaw.
